(** * Straussome: the task execution engine and the tool invocation layer

    A shallow embedding of [src/tools/base.py], [src/agents/base.py],
    [src/core/models.py] and [src/core/orchestrator.py].

    Conventions of the embedding.
    - Python [float] values (delays, timeouts, clock readings) are exact
      rationals [Q]; rounding is not modelled.
    - A coroutine is a function on an explicit [World]: the wall clock, the
      external environment the agents and tools act on, and the log of the
      observable events (sleeps, attempts, hook invocations).
    - An exception is a value: a function that can raise returns an
      [outcome], a coroutine of the engine ends with a [signal].
    - The models come first, the facts about them after. *)

From Stdlib Require Import QArith Qminmax OrderedTypeEx.
From stdpp Require Import gmap strings list sorting pretty.

Open Scope string_scope.
Set Warnings "-register-all".

(** ** Python values *)

(** An exception object: its class and [str(e)]. *)
Record exn := Exn { exn_class : string; exn_msg : string }.

Definition ValueError (msg : string) : exn := Exn "ValueError" msg.
Definition TypeError (msg : string) : exn := Exn "TypeError" msg.
Definition KeyError (key : string) : exn := Exn "KeyError" ("'" ++ key ++ "'").
Definition AttributeError (cls attr : string) : exn :=
  Exn "AttributeError" ("'" ++ cls ++ "' object has no attribute '" ++ attr ++ "'").
Definition Exception (msg : string) : exn := Exn "Exception" msg.

(** [str(e)] where [e] may still be [None]. *)
Definition str_exn (e : option exn) : string :=
  match e with
  | Some e => exn_msg e
  | None => "None"
  end.

(** JSON-like data: tool parameters, tool payloads and shared data. Floats
    are left out (their [repr] is not modelled). A [JDict] is an insertion
    ordered dict with string keys. *)
Inductive json :=
| JNull
| JBool (b : bool)
| JInt (z : Z)
| JStr (s : string)
| JList (l : list json)
| JDict (d : list (string * json)).

(** Keyword arguments in the order the caller supplied them. *)
Definition kwargs := list (string * json).

(** ** Sorting dict items by key *)

(** [sorted(d.items())]: tuples are compared on their first component; keys
    of a dict are unique, so the second component never decides. Strings
    compare by code point. *)
Definition item_le {A} (x y : string * A) : Prop := String.leb x.1 y.1 = true.

#[global] Instance item_le_dec {A} (x y : string * A) : Decision (item_le x y).
Proof. unfold item_le. apply _. Defined.

Definition sorted_items {A} (d : list (string * A)) : list (string * A) :=
  merge_sort item_le d.

Fixpoint join (sep : string) (l : list string) : string :=
  match l with
  | [] => ""
  | [x] => x
  | x :: l' => x ++ sep ++ join sep l'
  end.

Section Serialization.
(** The string-literal encoder of the [json] module (quotes and escapes)
    and [hashlib.md5(..).hexdigest()] are library functions, taken as
    given. *)
Variable encode_basestring : string -> string.
Variable md5_hexdigest : string -> string.

(** [json.dumps(j, sort_keys=True)] with the default separators. The
    items of a dict are serialized and then ordered by key, which gives
    the text of ordering first, as the order only looks at keys. *)
Fixpoint dumps (j : json) : string :=
  match j with
  | JNull => "null"
  | JBool true => "true"
  | JBool false => "false"
  | JInt z => pretty z
  | JStr s => encode_basestring s
  | JList l => "[" ++ join ", " (map dumps l) ++ "]"
  | JDict d =>
      "{" ++ join ", "
        (map (fun kv : string * string => encode_basestring kv.1 ++ ": " ++ kv.2)
           (sorted_items (map (fun kv : string * json => (kv.1, dumps kv.2)) d)))
      ++ "}"
  end.

(** [BaseTool._get_cache_key] *)
Definition _get_cache_key (name : string) (kw : kwargs) : string :=
  let sorted_kwargs := sorted_items kw in
  let key_str := name ++ ":" ++ dumps (JDict sorted_kwargs) in
  md5_hexdigest key_str.

End Serialization.


(** ** The world of a run *)

(** [range(n)] *)
Definition range (n : Z) : list Z := map Z.of_nat (seq 0 (Z.to_nat n)).

Definition Qlt_bool (x y : Q) : bool := negb (Qle_bool y x).

(** What a run makes observable. *)
Inductive event :=
| EvSleep (seconds : Q)                            (* asyncio.sleep(seconds) *)
| EvToolExecute (tool : string) (kw : kwargs)      (* tool.execute( **kwargs ) *)
| EvToolCleanup (tool : string)                    (* tool.cleanup() *)
| EvAgentInit (agent_id : string)                  (* agent_class(agent_id, ..) *)
| EvAgentExecute (agent_id : string) (attempt : Z) (* agent.execute(state) *)
| EvAgentCleanup (agent_id : string).              (* agent.cleanup() *)

(** The clock ([time.time()]), the environment that the wrapped operations
    and the agents' logic act on, and the events so far (oldest first). *)
Record World (Env : Type) := mkWorld {
  now : Q;
  env : Env;
  log : list event }.
Arguments mkWorld {Env}.
Arguments now {Env}.
Arguments env {Env}.
Arguments log {Env}.

Definition log_event {Env} (ev : event) (w : World Env) : World Env :=
  mkWorld (now w) (env w) (log w ++ [ev]).

Definition with_env {Env} (e : Env) (w : World Env) : World Env :=
  mkWorld (now w) e (log w).

Definition advance {Env} (seconds : Q) (w : World Env) : World Env :=
  mkWorld (now w + seconds)%Q (env w) (log w).

(** The result of a call that may raise. *)
Inductive outcome (A : Type) :=
| Returned (a : A)
| Raised (e : exn).
Arguments Returned {A}.
Arguments Raised {A}.

(** An awaited external coroutine: what it yields, how long it runs, and
    the environment it leaves behind. Durations are non-negative by
    convention. *)
Record awaited (Env A : Type) := mkAwaited {
  value : A;
  seconds : Q;
  env_after : Env }.
Arguments mkAwaited {Env A}.
Arguments value {Env A}.
Arguments seconds {Env A}.
Arguments env_after {Env A}.

(** Library functions taken as given: the string-literal encoder of the
    [json] module, [hashlib.md5(..).hexdigest()], and [str] of a float. *)
Record Library := mkLibrary {
  encode_basestring : string -> string;
  md5_hexdigest : string -> string;
  str_float : Q -> string }.

(** ** src/tools/base.py *)

Module ToolStatus.
Inductive t := IDLE | RUNNING | COMPLETED | FAILED | TIMEOUT.

#[global] Instance eq_dec : EqDecision t.
Proof. solve_decision. Defined.
End ToolStatus.

Module ToolResult.
Record t := mk {
  tool_name : string;
  status : ToolStatus.t;
  result : json;
  error : option string;
  execution_time : Q;
  metadata : list (string * json) }.

(** [ToolResult(tool_name=.., status=.., error=..)]: the other fields
    take their defaults, and [__post_init__] replaces the [None] metadata
    by an empty dict. *)
Definition init (tool_name : string) (status : ToolStatus.t) (error : option string) : t :=
  mk tool_name status JNull error 0%Q [].
End ToolResult.

Module ToolConfig.
Record t := mk {
  timeout : Q;
  max_retries : Z;
  retry_delay : Q;
  cache_enabled : bool;
  cache_ttl : Z }.

Definition default : t := mk 30%Q 2%Z 1%Q true 300%Z.
End ToolConfig.

Module BaseTool.
Section WithEnv.
Context {Env : Type}.
Variable lib : Library.

(** A tool instance: the subclass's [execute] and [cleanup], and the
    instance's own cache. *)
Record t := mk {
  name : string;
  config : ToolConfig.t;
  execute : kwargs -> Env -> awaited Env (outcome ToolResult.t);
  cleanup : Env -> awaited Env (outcome unit);
  _cache : gmap string ToolResult.t;
  _cache_timestamps : gmap string Q }.

(** [BaseTool.cleanup]: [pass]. *)
Definition cleanup_pass (e : Env) : awaited Env (outcome unit) :=
  mkAwaited (Returned tt) 0%Q e.

(** [BaseTool.__init__] *)
Definition init (name : string) (config : option ToolConfig.t)
    (execute : kwargs -> Env -> awaited Env (outcome ToolResult.t))
    (cleanup : Env -> awaited Env (outcome unit)) : t :=
  mk name (default ToolConfig.default config) execute cleanup ∅ ∅.

Definition is_TimeoutError (o : outcome ToolResult.t) : bool :=
  match o with
  | Raised e => bool_decide (exn_class e = "TimeoutError")
  | Returned _ => false
  end.

(** The body of the [for attempt in range(max_retries + 1)] loop of
    [execute_with_retry], followed by the code after the loop. The
    attempt runs under [asyncio.wait_for(.., timeout)]: one that needs
    longer than [timeout] is cut at [timeout] with a [TimeoutError]. *)
Fixpoint attempts_loop (self : t) (kw : kwargs) (attempts : list Z)
    (last_exception : option exn) (w : World Env) : ToolResult.t * World Env :=
  match attempts with
  | [] =>
      (* All retries failed *)
      (ToolResult.init (name self) ToolStatus.FAILED (Some (str_exn last_exception)), w)
  | attempt :: rest =>
      let w :=
        if bool_decide (0 < attempt)%Z then
          let delay := (ToolConfig.retry_delay (config self) * inject_Z (2 ^ (attempt - 1)))%Q in
          advance (Qmax 0 delay) (log_event (EvSleep delay) w)
        else w in
      let a := execute self kw (env w) in
      let w := with_env (env_after a) (log_event (EvToolExecute (name self) kw) w) in
      if Qlt_bool (ToolConfig.timeout (config self)) (seconds a) || is_TimeoutError (value a) then
        (* except asyncio.TimeoutError *)
        let w := advance (Qmin (ToolConfig.timeout (config self)) (seconds a)) w in
        let last_exception :=
          Exception ("Tool " ++ name self ++ " timed out after "
                     ++ str_float lib (ToolConfig.timeout (config self)) ++ "s") in
        attempts_loop self kw rest (Some last_exception) w
      else
        let w := advance (seconds a) w in
        match value a with
        | Returned r => (r, w)
        | Raised e =>
            (* except Exception as e *)
            if bool_decide (attempt = ToolConfig.max_retries (config self)) then
              (* break *)
              (ToolResult.init (name self) ToolStatus.FAILED (Some (str_exn (Some e))), w)
            else attempts_loop self kw rest (Some e) w
        end
  end.

Definition execute_with_retry (self : t) (kw : kwargs) (w : World Env)
  : ToolResult.t * World Env :=
  attempts_loop self kw (range (ToolConfig.max_retries (config self) + 1)) None w.

Definition _get_cache_key (self : t) (kw : kwargs) : string :=
  _get_cache_key (encode_basestring lib) (md5_hexdigest lib) (name self) kw.

Definition _is_cache_valid (self : t) (cache_key : string) (w : World Env) : bool :=
  if negb (ToolConfig.cache_enabled (config self)) then false
  else
    match _cache_timestamps self !! cache_key with
    | None => false
    | Some stamp => Qlt_bool (now w - stamp) (inject_Z (ToolConfig.cache_ttl (config self)))
    end.

(** [self._cache[cache_key]] raises [KeyError] on a missing key. *)
Definition _get_cached_result (self : t) (cache_key : string) (w : World Env)
  : outcome (option ToolResult.t) :=
  if _is_cache_valid self cache_key w then
    match _cache self !! cache_key with
    | Some r => Returned (Some r)
    | None => Raised (KeyError cache_key)
    end
  else Returned None.

Definition _cache_result (self : t) (cache_key : string) (result : ToolResult.t)
    (w : World Env) : t :=
  if ToolConfig.cache_enabled (config self) then
    mk (name self) (config self) (execute self) (cleanup self)
       (<[cache_key := result]> (_cache self))
       (<[cache_key := now w]> (_cache_timestamps self))
  else self.

(** [BaseTool.__call__]. A [ToolResult] is always truthy, so
    [if cached_result:] only tests for [None]. The tool is returned with
    its cache as the call left it. *)
Definition __call__ (self : t) (kw : kwargs) (w : World Env)
  : outcome ToolResult.t * t * World Env :=
  let cache_key := _get_cache_key self kw in
  match _get_cached_result self cache_key w with
  | Raised e => (Raised e, self, w)
  | Returned (Some cached_result) => (Returned cached_result, self, w)
  | Returned None =>
      let '(result, w) := execute_with_retry self kw w in
      let self :=
        if bool_decide (ToolResult.status result = ToolStatus.COMPLETED)
        then _cache_result self cache_key result w
        else self in
      (Returned result, self, w)
  end.

End WithEnv.
Arguments t : clear implicits.
End BaseTool.

(** ** Insertion-ordered dicts *)

Fixpoint dict_get {V} (k : string) (d : list (string * V)) : option V :=
  match d with
  | [] => None
  | (k', v) :: d' => if bool_decide (k = k') then Some v else dict_get k d'
  end.

(** [d[k] = v]: an existing key keeps its position. *)
Fixpoint dict_set {V} (k : string) (v : V) (d : list (string * V)) : list (string * V) :=
  match d with
  | [] => [(k, v)]
  | (k', v') :: d' => if bool_decide (k = k') then (k, v) :: d' else (k', v') :: dict_set k v d'
  end.

Module ToolRegistry.
Section WithEnv.
Context {Env : Type}.
Variable lib : Library.

Record t := mk { tools : list (string * BaseTool.t Env) }.

Definition init : t := mk [].

Definition register (self : t) (tool : BaseTool.t Env) : t :=
  mk (dict_set (BaseTool.name tool) tool (tools self)).

Definition get (self : t) (name : string) : option (BaseTool.t Env) :=
  dict_get name (tools self).

Definition list_tools (self : t) : list string := (tools self).*1.

(** [execute_tool]: the registry is returned with the tool as its call
    left it (the tool object is shared, its cache is updated in place). *)
Definition execute_tool (self : t) (name : string) (kw : kwargs) (w : World Env)
  : outcome ToolResult.t * t * World Env :=
  match get self name with
  | None =>
      (Returned (ToolResult.init name ToolStatus.FAILED
                   (Some ("Tool " ++ name ++ " not found"))), self, w)
  | Some tool =>
      let '(r, tool, w) := BaseTool.__call__ lib tool kw w in
      (r, mk (dict_set name tool (tools self)), w)
  end.

(** The loop of [cleanup_all] over [self.tools.values()]. *)
Fixpoint cleanup_loop (ts : list (BaseTool.t Env)) (w : World Env)
  : outcome unit * World Env :=
  match ts with
  | [] => (Returned tt, w)
  | tool :: rest =>
      let a := BaseTool.cleanup tool (env w) in
      let w := advance (seconds a)
                 (with_env (env_after a) (log_event (EvToolCleanup (BaseTool.name tool)) w)) in
      match value a with
      | Raised e => (Raised e, w)
      | Returned _ => cleanup_loop rest w
      end
  end.


(** Attribute lookup on a registry instance: the two instance attributes
    and the five methods the class defines. *)
Inductive attr :=
| attr_tools (d : list (string * BaseTool.t Env))
| attr_logger
| attr_register
| attr_get
| attr_list_tools
| attr_execute_tool
| attr_cleanup_all.

Definition getattr (self : t) (name : string) : outcome attr :=
  if bool_decide (name = "tools") then Returned (attr_tools (tools self))
  else if bool_decide (name = "logger") then Returned attr_logger
  else if bool_decide (name = "register") then Returned attr_register
  else if bool_decide (name = "get") then Returned attr_get
  else if bool_decide (name = "list_tools") then Returned attr_list_tools
  else if bool_decide (name = "execute_tool") then Returned attr_execute_tool
  else if bool_decide (name = "cleanup_all") then Returned attr_cleanup_all
  else Raised (AttributeError "ToolRegistry" name).

(** Calling an attribute with one string argument, for a result that is
    a tool or [None]. *)
Definition call_with_name (self : t) (a : attr) (arg : string)
  : outcome (option (BaseTool.t Env)) :=
  match a with
  | attr_get => Returned (get self arg)
  | attr_tools _ => Raised (TypeError "'dict' object is not callable")
  | attr_logger => Raised (TypeError "'Logger' object is not callable")
  | _ => Raised (TypeError "unexpected call")
  end.

End WithEnv.
Arguments t : clear implicits.
End ToolRegistry.

(** ** src/core/models.py *)

Module AgentStatus.
Inductive t := PENDING | RUNNING | COMPLETED | FAILED | TIMEOUT | RETRYING.

#[global] Instance eq_dec : EqDecision t.
Proof. solve_decision. Defined.
End AgentStatus.

Module TaskStatus.
Inductive t := PENDING | RUNNING | COMPLETED | FAILED | CANCELLED.

#[global] Instance eq_dec : EqDecision t.
Proof. solve_decision. Defined.
End TaskStatus.

Module AgentResult.
Record t := mk {
  agent_id : string;
  task_id : string;
  status : AgentStatus.t;
  result : option json;
  error : option string;
  execution_time : Q;
  retry_count : Z;
  metadata : option (list (string * json)) }.

(** [AgentResult(agent_id=.., task_id=.., status=..)] *)
Definition init (agent_id task_id : string) (status : AgentStatus.t) : t :=
  mk agent_id task_id status None None 0%Q 0%Z None.

(** [r.status = RETRYING; r.retry_count = attempt] *)
Definition retrying (attempt : Z) (r : t) : t :=
  mk (agent_id r) (task_id r) AgentStatus.RETRYING (result r) (error r)
     (execution_time r) attempt (metadata r).

(** [r.execution_time = ..; r.status = COMPLETED; r.result = ..] *)
Definition completed (execution_time : Q) (result : option json) (r : t) : t :=
  mk (agent_id r) (task_id r) AgentStatus.COMPLETED result (error r)
     execution_time (retry_count r) (metadata r).

(** [r.execution_time = ..; r.status = FAILED; r.error = ..] *)
Definition failed (execution_time : Q) (error : string) (r : t) : t :=
  mk (agent_id r) (task_id r) AgentStatus.FAILED (result r) (Some error)
     execution_time (retry_count r) (metadata r).
End AgentResult.

Module TaskConfig.
Record t := mk {
  timeout : Q;
  max_retries : Z;
  retry_delay : Q;
  retry_backoff : Q;
  concurrent_agents : Z }.

Definition default : t := mk 300%Q 3%Z 1%Q 2%Q 5%Z.
End TaskConfig.

(** The values the engine and the steps put into [execution_metadata]. *)
Inductive meta :=
| MStr (s : string)
| MStatus (t : TaskStatus.t)
| MFloat (q : Q)
| MJson (j : json).

Module AgentState.
Record t := mk {
  task_id : string;
  agent_results : gmap string AgentResult.t;
  shared_data : gmap string json;
  execution_metadata : gmap string meta }.

(** [state.agent_results[agent_id] = r] *)
Definition set_agent_result (agent_id : string) (r : AgentResult.t) (state : t) : t :=
  mk (task_id state) (<[agent_id := r]> (agent_results state))
     (shared_data state) (execution_metadata state).

(** [state.execution_metadata[key] = v] *)
Definition set_metadata (key : string) (v : meta) (state : t) : t :=
  mk (task_id state) (agent_results state) (shared_data state)
     (<[key := v]> (execution_metadata state)).
End AgentState.

(** ** src/agents/base.py *)

Module BaseAgent.
(** One run of an agent's [execute]: it returns the state, or raises; in
    both cases the state object holds whatever the logic wrote to it. The
    agents of the repository mutate the state they are given and return
    it, and the embedding follows them: one state object is threaded. *)
Inductive step :=
| Returns (state : AgentState.t)
| Raises (e : exn) (state : AgentState.t).

Section WithEnv.
Context {Env : Type}.

(** An agent instance. [cleanup] is [None] for a class that defines no
    such method; [BaseAgent] itself defines [__init__], [execute] and
    [get_tool] only. *)
Record t := mk {
  class_name : string;
  agent_id : string;
  config : TaskConfig.t;
  tool_registry : option (ToolRegistry.t Env);
  execute : Env -> AgentState.t -> awaited Env step;
  cleanup : option (Env -> awaited Env (outcome unit)) }.

(** [BaseAgent.execute] *)
Definition execute_not_implemented (e : Env) (state : AgentState.t) : awaited Env step :=
  mkAwaited
    (Raises (Exn "NotImplementedError" "Subclasses must implement execute method") state)
    0%Q e.

(** [BaseAgent(agent_id, config, tool_registry)] *)
Definition init (agent_id : string) (config : TaskConfig.t)
    (tool_registry : option (ToolRegistry.t Env)) : t :=
  mk "BaseAgent" agent_id config tool_registry execute_not_implemented None.

(** [BaseAgent.get_tool]. A registry instance is truthy: the class
    defines neither [__bool__] nor [__len__]. *)
Definition get_tool (self : t) (tool_name : string) : outcome (option (BaseTool.t Env)) :=
  match tool_registry self with
  | Some registry =>
      match ToolRegistry.getattr registry "get_tool" with
      | Returned method => ToolRegistry.call_with_name registry method tool_name
      | Raised e => Raised e
      end
  | None => Returned None
  end.

End WithEnv.
Arguments t : clear implicits.
End BaseAgent.

(** An agent class, as registered: its constructor. *)
Abbreviation AgentClass Env :=
  (string -> TaskConfig.t -> option (ToolRegistry.t Env) -> BaseAgent.t Env) (only parsing).

(** ** src/core/orchestrator.py *)

(** How a coroutine of the engine ends: it returns, it raises, or the
    whole-task deadline of [asyncio.wait_for] passes while it is suspended
    and it is cancelled there. The [CancelledError] is no [Exception]: it
    passes the [except Exception] clauses and runs the [finally] clauses
    on its way out. [replaced] is the exception that a [finally] clause
    raised in place of the cancellation, if one did: [wait_for] raises
    [TimeoutError] for a cancellation that comes back to it, and lets
    another exception through. *)
Inductive signal :=
| Done
| Raise (e : exn)
| Abandoned (replaced : option exn).

(** A suspension of [seconds] under the deadline: it completes if it ends
    by the deadline, otherwise the run stops at the deadline. *)
Definition await_ {Env} (deadline seconds : Q) (w : World Env) : bool * World Env :=
  if Qle_bool (now w + seconds) deadline then (true, advance seconds w)
  else (false, mkWorld deadline (env w) (log w)).

(** [await asyncio.sleep(delay)]; a delay that is not positive returns at
    once. *)
Definition sleep {Env} (deadline delay : Q) (w : World Env) : bool * World Env :=
  await_ deadline (Qmax 0 delay) (log_event (EvSleep delay) w).

(** [raise last_exception] *)
Definition raise_ (last_exception : option exn) : signal :=
  match last_exception with
  | Some e => Raise e
  | None => Raise (TypeError "exceptions must derive from BaseException")
  end.

(** A node of the graph: run under a deadline on the state it is handed. *)
Definition node (Env : Type) : Type :=
  Q -> AgentState.t -> World Env -> signal * AgentState.t * World Env.

Module StateGraph.
Section WithEnv.
Context {Env : Type}.

(** Modelled from the spec: the graph library (langgraph) is not part of
    the repository. The compiled graph of [_build_agent_graph] has the
    edges START -> first, each step -> the next, last -> END; the spec
    calls it a linear plan: the nodes run one after the other in the
    listed order on the state of the task, and what a node raises leaves
    [ainvoke] at once. *)
Fixpoint ainvoke (graph : list (string * node Env)) (deadline : Q)
    (state : AgentState.t) (w : World Env) : signal * AgentState.t * World Env :=
  match graph with
  | [] => (Done, state, w)
  | (_, run) :: rest =>
      match run deadline state w with
      | (Done, state, w) => ainvoke rest deadline state w
      | stopped => stopped
      end
  end.
End WithEnv.
End StateGraph.

Module AgentOrchestrator.
Section WithEnv.
Context {Env : Type}.

(** The orchestrator. [semaphore] is the number of free slots of
    [asyncio.Semaphore(config.concurrent_agents)]; within one task every
    slot taken is given back before the next is asked for. *)
Record t := mk {
  config : TaskConfig.t;
  agents : gmap string (AgentClass Env);
  tool_registry : option (ToolRegistry.t Env);
  semaphore : Z }.

(** [AgentOrchestrator(config, tool_registry)] *)
Definition init (config : option TaskConfig.t)
    (tool_registry : option (ToolRegistry.t Env)) : t :=
  let config := default TaskConfig.default config in
  mk config ∅ tool_registry (TaskConfig.concurrent_agents config).

Definition register_agent (self : t) (agent_class : AgentClass Env) (agent_id : string) : t :=
  mk (config self) (<[agent_id := agent_class]> (agents self)) (tool_registry self)
     (semaphore self).

(** The [for attempt in range(max_retries + 1)] loop of
    [_execute_agent_with_retry], with the [raise last_exception] that
    follows it. Returns the state and the [agent_result] object as the
    loop left them. *)
Fixpoint attempts_loop (self : t) (deadline : Q) (agent : BaseAgent.t Env)
    (attempts : list Z) (state : AgentState.t) (agent_result : AgentResult.t)
    (last_exception : option exn) (w : World Env)
  : signal * AgentState.t * AgentResult.t * World Env :=
  match attempts with
  | [] =>
      (* All retries failed *)
      (raise_ last_exception, state, agent_result, w)
  | attempt :: rest =>
      let agent_result :=
        if bool_decide (0 < attempt)%Z
        then AgentResult.retrying attempt agent_result else agent_result in
      let slept :=
        if bool_decide (0 < attempt)%Z then
          let delay :=
            (TaskConfig.retry_delay (config self)
             * TaskConfig.retry_backoff (config self) ^ (attempt - 1))%Q in
          sleep deadline delay w
        else (true, w) in
      match slept with
      | (false, w) => (Abandoned None, state, agent_result, w)
      | (true, w) =>
          (* async with self.semaphore *)
          if bool_decide (semaphore self <= 0)%Z then
            (Abandoned None, state, agent_result, mkWorld deadline (env w) (log w))
          else
            let a := BaseAgent.execute agent (env w) state in
            let w := with_env (env_after a)
                       (log_event (EvAgentExecute (BaseAgent.agent_id agent) attempt) w) in
            match await_ deadline (seconds a) w with
            | (false, w) => (Abandoned None, state, agent_result, w)
            | (true, w) =>
                match value a with
                | BaseAgent.Returns state => (Done, state, agent_result, w)
                | BaseAgent.Raises e state =>
                    (* except Exception as e *)
                    if bool_decide (attempt = TaskConfig.max_retries (config self)) then
                      (* break *)
                      (raise_ (Some e), state, agent_result, w)
                    else attempts_loop self deadline agent rest state agent_result (Some e) w
                end
            end
      end
  end.

Definition _execute_agent_with_retry (self : t) (deadline : Q) (agent : BaseAgent.t Env)
    (state : AgentState.t) (agent_result : AgentResult.t) (w : World Env)
  : signal * AgentState.t * AgentResult.t * World Env :=
  attempts_loop self deadline agent
    (range (TaskConfig.max_retries (config self) + 1)) state agent_result None w.

(** The [finally] clause of [agent_node]: [await agent.cleanup()], run
    however the [try] ended. The attribute lookup comes first and fails
    for a class without the method. What the hook raises replaces the way
    the [try] ended. When the [try] was cancelled at the deadline the
    clause runs all the same: the task is cancelled once, so the hook
    runs to its end, and an exception of the clause takes the place of
    the cancellation. *)
Definition finally_cleanup (deadline : Q) (agent : BaseAgent.t Env) (ended : signal)
    (state : AgentState.t) (w : World Env) : signal * AgentState.t * World Env :=
  match BaseAgent.cleanup agent with
  | None =>
      let e := AttributeError (BaseAgent.class_name agent) "cleanup" in
      (match ended with Abandoned _ => Abandoned (Some e) | _ => Raise e end, state, w)
  | Some hook =>
      let a := hook (env w) in
      let w := with_env (env_after a)
                 (log_event (EvAgentCleanup (BaseAgent.agent_id agent)) w) in
      match ended with
      | Abandoned _ =>
          let w := advance (seconds a) w in
          match value a with
          | Returned _ => (ended, state, w)
          | Raised e => (Abandoned (Some e), state, w)
          end
      | _ =>
          match await_ deadline (seconds a) w with
          | (false, w) => (Abandoned None, state, w)
          | (true, w) =>
              match value a with
              | Returned _ => (ended, state, w)
              | Raised e => (Raise e, state, w)
              end
          end
      end
  end.

(** [_create_agent_node(agent_id)]: the [agent_node] closure. *)
Definition _create_agent_node (self : t) (agent_id : string) : node Env :=
  fun deadline state w =>
  match agents self !! agent_id with
  | None => (Raise (KeyError agent_id), state, w)
  | Some agent_class =>
      let agent := agent_class agent_id (config self) (tool_registry self) in
      let w := log_event (EvAgentInit agent_id) w in
      let agent_result :=
        AgentResult.init agent_id (AgentState.task_id state) AgentStatus.RUNNING in
      let start_time := now w in
      match _execute_agent_with_retry self deadline agent state agent_result w with
      | (Done, result_state, agent_result, w) =>
          let execution_time := (now w - start_time)%Q in
          let agent_result :=
            AgentResult.completed execution_time
              (AgentState.shared_data result_state !! (agent_id ++ "_result"))
              agent_result in
          let result_state := AgentState.set_agent_result agent_id agent_result result_state in
          finally_cleanup deadline agent Done result_state w
      | (Raise e, state, agent_result, w) =>
          (* except Exception as e *)
          let execution_time := (now w - start_time)%Q in
          let agent_result := AgentResult.failed execution_time (exn_msg e) agent_result in
          let state := AgentState.set_agent_result agent_id agent_result state in
          let state := AgentState.set_metadata "error" (MStr (exn_msg e)) state in
          finally_cleanup deadline agent (Raise e) state w
      | (Abandoned replaced, state, _, w) =>
          (* CancelledError: neither branch of the try runs, the finally does *)
          finally_cleanup deadline agent (Abandoned replaced) state w
      end
  end.

(** [_build_agent_graph]: the loop that adds a node per step; the edges
    are those of the listed order. *)
Fixpoint _build_agent_graph (self : t) (agent_sequence : list string)
  : outcome (list (string * node Env)) :=
  match agent_sequence with
  | [] => Returned []
  | agent_id :: rest =>
      match agents self !! agent_id with
      | None => Raised (ValueError ("Agent " ++ agent_id ++ " not registered"))
      | Some _ =>
          match _build_agent_graph self rest with
          | Returned graph => Returned ((agent_id, _create_agent_node self agent_id) :: graph)
          | Raised e => Raised e
          end
      end
  end.

(** The two [except] clauses of [execute_task]. *)
Definition task_failed (error : string) (state : AgentState.t) : AgentState.t :=
  AgentState.set_metadata "status" (MStatus TaskStatus.FAILED)
    (AgentState.set_metadata "error" (MStr error) state).

(** [execute_task]. [asyncio.wait_for(.., timeout)] sets the deadline
    [timeout] seconds from now and cancels the plan at it: it raises
    [TimeoutError] when the cancellation comes back, and the exception
    that replaced the cancellation otherwise. A [TimeoutError] that a step
    lets escape reaches the same [except] clause. *)
Definition execute_task (self : t) (task_id : string) (agent_sequence : list string)
    (initial_data : option (gmap string json)) (custom_config : option TaskConfig.t)
    (w : World Env) : outcome AgentState.t * World Env :=
  let config := default (config self) custom_config in
  let start_time := now w in
  let state := AgentState.mk task_id ∅ (default ∅ initial_data) ∅ in
  match _build_agent_graph self agent_sequence with
  | Raised e => (Returned (task_failed (exn_msg e) state), w)
  | Returned graph =>
      match StateGraph.ainvoke graph (start_time + TaskConfig.timeout config)%Q state w with
      | (Done, result, w) =>
          let execution_time := (now w - start_time)%Q in
          (Returned (AgentState.set_metadata "total_execution_time"
                       (MFloat execution_time) result), w)
      | (Abandoned None, state, w) => (Returned (task_failed "Task timeout" state), w)
      | (Abandoned (Some e), state, w) | (Raise e, state, w) =>
          if bool_decide (exn_class e = "TimeoutError")
          then (Returned (task_failed "Task timeout" state), w)
          else (Returned (task_failed (exn_msg e) state), w)
      end
  end.

End WithEnv.
Arguments t : clear implicits.
End AgentOrchestrator.

(** ** Describing a run *)

(** The agents the log shows as started, and the sleeps it shows, in
    order. *)
Definition started (evs : list event) : list string :=
  omap (fun ev => match ev with EvAgentInit agent_id => Some agent_id | _ => None end) evs.

Definition sleeps (evs : list event) : list Q :=
  omap (fun ev => match ev with EvSleep d => Some d | _ => None end) evs.

Definition released (evs : list event) : list string :=
  omap (fun ev => match ev with EvAgentCleanup agent_id => Some agent_id | _ => None end) evs.

Definition total (ds : list Q) : Q := foldr Qplus 0%Q ds.

(** The sum over i = 1..k of [retry_delay * retry_backoff^(i-1)]. *)
Fixpoint backoff_sum (retry_delay retry_backoff : Q) (k : nat) : Q :=
  match k with
  | O => 0%Q
  | S k' => (backoff_sum retry_delay retry_backoff k'
             + retry_delay * retry_backoff ^ (Z.of_nat k'))%Q
  end.

(** What the agent's logic does on [n] attempts in a row, each on the
    environment and state the one before left: [Some] of the environment,
    the state and the last exception if all [n] raise, [None] if one of
    them returns. *)
Fixpoint failing_attempts {Env} (agent : BaseAgent.t Env) (n : nat) (e : Env)
    (state : AgentState.t) (last : option exn) : option (Env * AgentState.t * option exn) :=
  match n with
  | O => Some (e, state, last)
  | S n' =>
      let a := BaseAgent.execute agent e state in
      match value a with
      | BaseAgent.Raises x state' => failing_attempts agent n' (env_after a) state' (Some x)
      | BaseAgent.Returns _ => None
      end
  end.

(** The delay before retry [attempt], and the events of one attempt: the
    back-off sleep of a retry, then the run of the logic. *)
Definition retry_delay_of (config : TaskConfig.t) (attempt : Z) : Q :=
  (TaskConfig.retry_delay config * TaskConfig.retry_backoff config ^ (attempt - 1))%Q.

Definition attempt_events (config : TaskConfig.t) (agent_id : string) (attempt : Z)
  : list event :=
  (if bool_decide (0 < attempt)%Z then [EvSleep (retry_delay_of config attempt)] else [])
  ++ [EvAgentExecute agent_id attempt].

(** The [agent_result] object when attempt [attempt] has begun, and after
    the [k] attempts that start at attempt [i]. *)
Definition entering (attempt : Z) (r : AgentResult.t) : AgentResult.t :=
  if bool_decide (0 < attempt)%Z then AgentResult.retrying attempt r else r.

Definition after_attempts (i k : nat) (r : AgentResult.t) : AgentResult.t :=
  match k with
  | O => r
  | S k' => entering (Z.of_nat (i + k')) r
  end.

(** ** Instances used to run the definitions *)

Module Demo.
(** An identity encoder and digest; enough to run the cache. *)
Definition lib : Library := mkLibrary (fun s => s) (fun s => s) (fun _ => "30.0").

Definition w0 : World unit := mkWorld 0%Q tt [].

(** A tool whose operation answers in one second with its parameters. *)
Definition echo (kw : kwargs) (e : unit) : awaited unit (outcome ToolResult.t) :=
  mkAwaited
    (Returned (ToolResult.mk "echo" ToolStatus.COMPLETED (JDict kw) None 1%Q [])) 1%Q e.

Definition echo_tool : BaseTool.t unit :=
  BaseTool.init "echo" None echo BaseTool.cleanup_pass.

(** A tool whose release hook raises. *)
Definition close_fails (e : unit) : awaited unit (outcome unit) :=
  mkAwaited (Raised (Exception "close failed")) 0%Q e.

Definition leaky_tool : BaseTool.t unit :=
  BaseTool.init "leaky" None echo close_fails.

Definition registry : ToolRegistry.t unit :=
  ToolRegistry.register (ToolRegistry.register ToolRegistry.init leaky_tool) echo_tool.

Definition params : kwargs := [("url", JStr "http://x"); ("method", JStr "GET")].



(** Steps. The environment of the steps counts the failures still to
    come. *)
Definition w1 (failures : nat) : World nat := mkWorld 0%Q failures [].

Definition store_result (agent_id : string) (v : json) (state : AgentState.t)
  : AgentState.t :=
  AgentState.mk (AgentState.task_id state) (AgentState.agent_results state)
    (<[(agent_id ++ "_result")%string := v]> (AgentState.shared_data state))
    (AgentState.execution_metadata state).

Definition release (e : nat) : awaited nat (outcome unit) :=
  mkAwaited (Returned tt) 0%Q e.

(** [DataAnalysisAgent] without a tool registry: the mock analysis
    (abridged) is stored under the agent's key. Like every agent class of
    the repository it defines no [cleanup]. *)
Definition DataAnalysisAgent : AgentClass nat :=
  fun agent_id config registry =>
    BaseAgent.mk "DataAnalysisAgent" agent_id config registry
      (fun e state =>
         mkAwaited
           (BaseAgent.Returns
              (store_result agent_id (JDict [("total_records", JInt 1000)]) state))
           (1 # 100)%Q e)
      None.

(** A step that succeeds in 0.01 s and has a release hook. *)
Definition Steady : AgentClass nat :=
  fun agent_id config registry =>
    BaseAgent.mk "Steady" agent_id config registry
      (fun e state =>
         mkAwaited (BaseAgent.Returns (store_result agent_id (JStr "done") state))
           (1 # 100)%Q e)
      (Some release).

(** A step that raises as long as the environment has failures left. *)
Definition Flaky : AgentClass nat :=
  fun agent_id config registry =>
    BaseAgent.mk "Flaky" agent_id config registry
      (fun e state =>
         match e with
         | O => mkAwaited (BaseAgent.Returns (store_result agent_id (JStr "done") state))
                  (1 # 100)%Q O
         | S e' => mkAwaited (BaseAgent.Raises (Exception ("failure " ++ pretty e)) state)
                     (1 # 100)%Q e'
         end)
      (Some release).

(** A step that always raises. *)
Definition Failing : AgentClass nat :=
  fun agent_id config registry =>
    BaseAgent.mk "Failing" agent_id config registry
      (fun e state => mkAwaited (BaseAgent.Raises (Exception "boom") state) (1 # 100)%Q e)
      (Some release).

(** max_retries = 2, retry_delay = 0.1, retry_backoff = 2. *)
Definition task_config : TaskConfig.t := TaskConfig.mk 300%Q 2%Z (1 # 10)%Q 2%Q 5%Z.

Definition orchestrator : AgentOrchestrator.t nat :=
  AgentOrchestrator.register_agent
    (AgentOrchestrator.register_agent
       (AgentOrchestrator.register_agent
          (AgentOrchestrator.register_agent
             (AgentOrchestrator.init (Some task_config) None)
             DataAnalysisAgent "data_analyzer")
          Steady "a")
       Failing "b")
    Flaky "flaky".

(** A whole-task timeout of 0.25 s: too short for the retries of "b". *)
Definition short_config : TaskConfig.t := TaskConfig.mk (1 # 4)%Q 2%Z (1 # 10)%Q 2%Q 5%Z.

(** A whole-task timeout of 0.005 s: shorter than the sleep before a
    first retry. *)
Definition tight_config : TaskConfig.t := TaskConfig.mk (1 # 200)%Q 2%Z (1 # 10)%Q 2%Q 5%Z.

Definition initial_state (task_id : string) : AgentState.t := AgentState.mk task_id ∅ ∅ ∅.

(** The run of the plan ["a"] of a task with the default deadline. *)
Definition a_run : signal * AgentState.t * World nat :=
  StateGraph.ainvoke [("a", AgentOrchestrator._create_agent_node orchestrator "a")]
    (0 + 300)%Q (initial_state "t1") (w1 0).

End Demo.

(** ** More of the tool layer *)

(** The events of one attempt of [execute_with_retry]: the back-off sleep
    of a retry, then the run of the wrapped operation. *)
Definition tool_attempt_events {Env} (self : BaseTool.t Env) (kw : kwargs) (attempt : Z)
  : list event :=
  ((if bool_decide (0 < attempt)%Z
    then [EvSleep (ToolConfig.retry_delay (BaseTool.config self)
                   * inject_Z (2 ^ (attempt - 1)))%Q]
    else [])
   ++ [EvToolExecute (BaseTool.name self) kw])%list.

(** The exception that [execute_with_retry] keeps of an attempt that
    fails, [None] for an attempt that returns in time. *)
Definition tool_failure {Env} (lib : Library) (self : BaseTool.t Env)
    (a : awaited Env (outcome ToolResult.t)) : option exn :=
  if Qlt_bool (ToolConfig.timeout (BaseTool.config self)) (seconds a)
     || BaseTool.is_TimeoutError (value a)
  then Some (Exception ("Tool " ++ BaseTool.name self ++ " timed out after "
                        ++ str_float lib (ToolConfig.timeout (BaseTool.config self)) ++ "s"))
  else match value a with
       | Raised x => Some x
       | Returned _ => None
       end.

(** What the wrapped operation does on [n] attempts in a row: [Some] of
    the environment and of the last exception kept if every one of them
    fails (it raises or it runs out of time), [None] if one returns in
    time. *)
Fixpoint tool_failing_attempts {Env} (lib : Library) (self : BaseTool.t Env) (kw : kwargs)
    (n : nat) (e : Env) (last : option exn) : option (Env * option exn) :=
  match n with
  | O => Some (e, last)
  | S n' =>
      let a := BaseTool.execute self kw e in
      match tool_failure lib self a with
      | Some x => tool_failing_attempts lib self kw n' (env_after a) (Some x)
      | None => None
      end
  end.

(** Every stamped key has a cached result. *)
Definition cache_wf {Env} (self : BaseTool.t Env) : Prop :=
  forall k, is_Some (BaseTool._cache_timestamps self !! k) ->
            is_Some (BaseTool._cache self !! k).

(** ** Truth values and lookups of JSON data *)

(** [bool(v)] *)
Definition truthy (v : json) : bool :=
  match v with
  | JNull => false
  | JBool b => b
  | JInt z => negb (z =? 0)%Z
  | JStr s => negb (String.eqb s "")
  | JList l => match l with [] => false | _ => true end
  | JDict d => match d with [] => false | _ => true end
  end.

(** [type(v).__name__] *)
Definition type_name (v : json) : string :=
  match v with
  | JNull => "NoneType"
  | JBool _ => "bool"
  | JInt _ => "int"
  | JStr _ => "str"
  | JList _ => "list"
  | JDict _ => "dict"
  end.

(** [v.get(key, default)]: only a dict has the method. *)
Definition json_get (v : json) (key : string) (dflt : json) : outcome json :=
  match v with
  | JDict d => Returned (default dflt (dict_get key d))
  | _ => Raised (AttributeError (type_name v) "get")
  end.

(** [v[:100]] as far as it can fail: strings and lists can be sliced, a
    number cannot, and a dict takes the slice for a key (unhashable up to
    Python 3.11). The slice itself is only logged. *)
Definition slice_check (v : json) : outcome unit :=
  match v with
  | JStr _ | JList _ => Returned tt
  | JDict _ => Raised (TypeError "unhashable type: 'slice'")
  | _ => Raised (TypeError ("'" ++ type_name v ++ "' object is not subscriptable"))
  end.

(** ** src/tools/data_fetcher.py: DatabaseFetcherTool *)

Module DatabaseFetcherTool.
Section WithEnv.
Context {Env : Type}.

(** The mock rows of the simulated query. *)
Definition result_data : json :=
  JList [JDict [("id", JInt 1); ("name", JStr "Sample Data 1"); ("value", JInt 100)];
         JDict [("id", JInt 2); ("name", JStr "Sample Data 2"); ("value", JInt 200)];
         JDict [("id", JInt 3); ("name", JStr "Sample Data 3"); ("value", JInt 300)]].

(** [DatabaseFetcherTool.execute]. The only suspension is the simulated
    delay of 0.1 s, which is also the time the result reports. *)
Definition execute (name : string) (kw : kwargs) (e : Env)
  : awaited Env (outcome ToolResult.t) :=
  let connection_string := default JNull (dict_get "connection_string" kw) in
  let query := default JNull (dict_get "query" kw) in
  if negb (truthy connection_string) || negb (truthy query) then
    mkAwaited
      (Returned (ToolResult.init name ToolStatus.FAILED
                   (Some "connection_string and query are required")))
      0%Q e
  else
    match slice_check query with
    | Raised x =>
        (* except Exception as e *)
        mkAwaited
          (Returned (ToolResult.mk name ToolStatus.FAILED JNull
                       (Some ("Database error: " ++ exn_msg x)) 0%Q []))
          0%Q e
    | Returned _ =>
        (* await asyncio.sleep(0.1) *)
        mkAwaited
          (Returned (ToolResult.mk name ToolStatus.COMPLETED result_data None (1 # 10)%Q
                       [("query", query); ("row_count", JInt 3)]))
          (1 # 10)%Q e
    end.

(** [DatabaseFetcherTool.cleanup]: closes the connections of
    [self.connections], which nothing ever fills. *)
Definition cleanup (e : Env) : awaited Env (outcome unit) :=
  mkAwaited (Returned tt) 0%Q e.

(** [DatabaseFetcherTool(name, config)] *)
Definition init (name : string) (config : option ToolConfig.t) : BaseTool.t Env :=
  BaseTool.init name config (execute name) cleanup.

End WithEnv.
End DatabaseFetcherTool.

(** ** src/agents/chart_generator.py *)

Module ChartGenerationAgent.
Section WithEnv.
Context {Env : Type}.

(** [[{"x": i, "y": base + i * 2} for i in range(10)]] *)
Definition trend (base : Z) : json :=
  JList (map (fun i => JDict [("x", JInt i); ("y", JInt (base + i * 2))]) (range 10)).

(** [_get_mock_charts] *)
Definition _get_mock_charts (analysis_result : json) (task_id : string) : outcome json :=
  match json_get analysis_result "category_distribution"
          (JDict [("A", JInt 300); ("B", JInt 400); ("C", JInt 300)]) with
  | Raised x => Raised x
  | Returned data =>
      Returned
        (JDict [("bar_chart",
                 JDict [("type", JStr "bar"); ("title", JStr "Category Distribution");
                        ("data", data);
                        ("chart_id", JStr ("chart_" ++ task_id ++ "_bar"))]);
                ("line_chart",
                 JDict [("type", JStr "line"); ("title", JStr "Value Trends");
                        ("data", trend 100);
                        ("chart_id", JStr ("chart_" ++ task_id ++ "_line"))])])
  end.

(** One [await chart_tool.execute(..)] and the chart it contributes: the
    tool is run directly, without its cache and retries. *)
Definition draw (chart_tool : BaseTool.t Env) (kw : kwargs) (key : string)
    (chart : json -> json) (e : Env) : awaited Env (outcome (list (string * json))) :=
  let a := BaseTool.execute chart_tool kw e in
  mkAwaited
    (match value a with
     | Raised x => Raised x
     | Returned r =>
         if bool_decide (ToolResult.status r = ToolStatus.COMPLETED)
         then Returned [(key, chart (ToolResult.result r))]
         else Returned []
     end)
    (seconds a) (env_after a).

(** The charts of the path with a chart tool: the bar chart of the user
    distribution if the analysis has one, then the trend line. *)
Definition tool_charts (chart_tool : BaseTool.t Env) (analysis_result : json)
    (task_id : string) (e : Env) : awaited Env (outcome json) :=
  match json_get analysis_result "user_distribution_chart" (JList []) with
  | Raised x => mkAwaited (Raised x) 0%Q e
  | Returned user_dist_chart =>
      let bar :=
        if truthy user_dist_chart then
          draw chart_tool
            [("data", user_dist_chart); ("chart_type", JStr "bar");
             ("title", JStr "User Post Distribution"); ("x_column", JStr "User ID");
             ("y_column", JStr "Posts")]
            "user_distribution_bar"
            (fun data =>
               JDict [("type", JStr "bar"); ("title", JStr "User Post Distribution");
                      ("data", data);
                      ("chart_id", JStr ("chart_" ++ task_id ++ "_user_dist"))])
            e
        else mkAwaited (Returned []) 0%Q e in
      match value bar with
      | Raised x => mkAwaited (Raised x) (seconds bar) (env_after bar)
      | Returned charts =>
          let line :=
            draw chart_tool
              [("data", trend 10); ("chart_type", JStr "line");
               ("title", JStr "Sample Trend Analysis"); ("x_column", JStr "Time");
               ("y_column", JStr "Value")]
              "trend_line"
              (fun data =>
                 JDict [("type", JStr "line"); ("title", JStr "Sample Trend Analysis");
                        ("data", data);
                        ("chart_id", JStr ("chart_" ++ task_id ++ "_trend"))])
              (env_after bar) in
          mkAwaited
            (match value line with
             | Raised x => Raised x
             | Returned more => Returned (JDict (charts ++ more)%list)
             end)
            (seconds bar + seconds line)%Q (env_after line)
      end
  end.

(** [ChartGenerationAgent.execute]: the [except] clause logs and raises
    again; the state is written only at the end. *)
Definition execute (agent_id : string) (tool_registry : option (ToolRegistry.t Env))
    (e : Env) (state : AgentState.t) : awaited Env BaseAgent.step :=
  if negb (truthy (default JNull (AgentState.shared_data state !! "analysis_complete"))) then
    mkAwaited
      (BaseAgent.Raises
         (ValueError "Data analysis must be completed before chart generation") state)
      0%Q e
  else
    let analysis_result :=
      default (JDict []) (AgentState.shared_data state !! "data_analyzer_result") in
    let charts :=
      match tool_registry with
      | Some registry =>
          match ToolRegistry.get registry "chart_generator" with
          | Some chart_tool =>
              tool_charts chart_tool analysis_result (AgentState.task_id state) e
          | None =>
              mkAwaited (_get_mock_charts analysis_result (AgentState.task_id state)) 0%Q e
          end
      | None => mkAwaited (_get_mock_charts analysis_result (AgentState.task_id state)) 0%Q e
      end in
    mkAwaited
      (match value charts with
       | Raised x => BaseAgent.Raises x state
       | Returned c =>
           BaseAgent.Returns
             (AgentState.mk (AgentState.task_id state) (AgentState.agent_results state)
                (<["charts_generated" := JBool true]>
                   (<[(agent_id ++ "_result") := c]> (AgentState.shared_data state)))
                (AgentState.execution_metadata state))
       end)
      (seconds charts) (env_after charts).

(** The class: [__init__] hands its arguments to [BaseAgent.__init__];
    there is no [cleanup]. *)
Definition class_ (agent_id : string) (config : TaskConfig.t)
    (tool_registry : option (ToolRegistry.t Env)) : BaseAgent.t Env :=
  BaseAgent.mk "ChartGenerationAgent" agent_id config tool_registry
    (execute agent_id tool_registry) None.

End WithEnv.
End ChartGenerationAgent.

(** ** More instances *)

Module Cases.
(** A tool whose operation raises after one second. *)
Definition down (kw : kwargs) (e : unit) : awaited unit (outcome ToolResult.t) :=
  mkAwaited (Raised (Exception "connection refused")) 1%Q e.

Definition down_tool : BaseTool.t unit :=
  BaseTool.init "down" None down BaseTool.cleanup_pass.

(** The echo tool with its cache switched off, and with no attempt
    allowed. *)
Definition uncached_tool : BaseTool.t unit :=
  BaseTool.init "echo" (Some (ToolConfig.mk 30%Q 2%Z 1%Q false 300%Z)) Demo.echo
    BaseTool.cleanup_pass.

Definition barred_tool : BaseTool.t unit :=
  BaseTool.init "echo" (Some (ToolConfig.mk 30%Q (-1)%Z 1%Q true 300%Z)) Demo.echo
    BaseTool.cleanup_pass.

Definition database_tool : BaseTool.t unit :=
  DatabaseFetcherTool.init "database_fetcher" None.

Definition query : kwargs :=
  [("connection_string", JStr "sqlite://"); ("query", JStr "select 1")].

(** A step whose logic lets a [TimeoutError] escape on every attempt. *)
Definition Stalled (agent_id : string) (config : TaskConfig.t)
    (registry : option (ToolRegistry.t nat)) : BaseAgent.t nat :=
  BaseAgent.mk "Stalled" agent_id config registry
    (fun e state => mkAwaited (BaseAgent.Raises (Exn "TimeoutError" "upstream") state)
                      (1 # 100)%Q e)
    (Some Demo.release).

(** The steps of [Demo.orchestrator], the chart step, the base class and
    the stalled step. *)
Definition orchestrator : AgentOrchestrator.t nat :=
  AgentOrchestrator.register_agent
    (AgentOrchestrator.register_agent
       (AgentOrchestrator.register_agent Demo.orchestrator
          ChartGenerationAgent.class_ "chart_generator")
       BaseAgent.init "base")
    Stalled "stalled".

(** The same steps with no slot in the semaphore, and with a negative
    [max_retries]. *)
Definition with_config (config : TaskConfig.t) : AgentOrchestrator.t nat :=
  AgentOrchestrator.mk config (AgentOrchestrator.agents orchestrator) None
    (TaskConfig.concurrent_agents config).

Definition no_slot : AgentOrchestrator.t nat :=
  with_config (TaskConfig.mk 300%Q 2%Z (1 # 10)%Q 2%Q 0%Z).

Definition no_attempt : AgentOrchestrator.t nat :=
  with_config (TaskConfig.mk 300%Q (-1)%Z (1 # 10)%Q 2%Q 5%Z).

(** A chart tool that reports a failure in its result. *)
Definition refusing (kw : kwargs) (e : nat) : awaited nat (outcome ToolResult.t) :=
  mkAwaited (Returned (ToolResult.init "chart_generator" ToolStatus.FAILED
                         (Some "no display"))) 0%Q e.

Definition chart_registry : ToolRegistry.t nat :=
  ToolRegistry.register ToolRegistry.init
    (BaseTool.init "chart_generator" None refusing BaseTool.cleanup_pass).

Definition analysed : AgentState.t :=
  AgentState.mk "t5" ∅ (<["analysis_complete" := JBool true]> ∅) ∅.
End Cases.

(** ** Counting what a run did *)

Definition executions (evs : list event) : list (string * Z) :=
  omap (fun ev => match ev with
                  | EvAgentExecute agent_id attempt => Some (agent_id, attempt)
                  | _ => None
                  end) evs.

Open Scope list_scope.

(** ** Order facts *)

Lemma leb_spec (a b : string) : String.leb a b = true <-> a = b \/ String_as_OT.lt a b.
Proof.
  unfold String.leb.
  pose proof (String_as_OT.cmp_eq a b) as He.
  pose proof (String_as_OT.cmp_lt a b) as Hl.
  pose proof (String_as_OT.cmp_lt b a) as Hg.
  pose proof (String_as_OT.cmp_antisym b a) as Ha.
  unfold String_as_OT.cmp in *.
  destruct (String.compare a b) eqn:Hc; split; intros H; try done.
  - left. by apply He.
  - right. by apply Hl.
  - exfalso. destruct H as [H|H].
    + apply He in H. discriminate.
    + apply Hl in H. discriminate.
Qed.

Lemma leb_trans (a b c : string) :
  String.leb a b = true -> String.leb b c = true -> String.leb a c = true.
Proof.
  rewrite !leb_spec. intros [->|H1] [->|H2]; auto.
  right. eapply String_as_OT.lt_trans; eauto.
Qed.

#[global] Instance item_le_trans {A} : Transitive (@item_le A).
Proof. intros x y z. unfold item_le. apply leb_trans. Qed.

#[global] Instance item_le_total {A} : Total (@item_le A).
Proof. intros x y. unfold item_le. apply String.leb_total. Qed.

Lemma sorted_items_perm {A} (l1 l2 : list (string * A)) :
  NoDup (l1.*1) -> l1 ≡ₚ l2 -> sorted_items l1 = sorted_items l2.
Proof.
  intros Hnd Hp. unfold sorted_items.
  apply (Sorted_unique_strong item_le).
  - intros x1 x2 Hx1 Hx2 H12 H21.
    rewrite merge_sort_Permutation in Hx1.
    rewrite merge_sort_Permutation, <- Hp in Hx2.
    assert (x1.1 = x2.1) as Hk by (by apply String.leb_antisym).
    destruct x1 as [k1 v1], x2 as [k2 v2]; simpl in Hk; subst k2.
    f_equal.
    apply (elem_of_list_to_map (M:=gmap string) _ _ _ Hnd) in Hx1, Hx2.
    congruence.
  - apply Sorted_merge_sort, _.
  - apply Sorted_merge_sort, _.
  - by rewrite !merge_sort_Permutation.
Qed.

(** C9. Two keyword-argument lists that are equal as key-value maps give
    the same cache key, whatever the order in which the parameters were
    supplied. *)
Theorem cache_key_order_independent
    (encode_basestring md5_hexdigest : string -> string)
    (name : string) (kw1 kw2 : kwargs) :
  NoDup (kw1.*1) -> NoDup (kw2.*1) ->
  list_to_map kw1 =@{gmap string json} list_to_map kw2 ->
  _get_cache_key encode_basestring md5_hexdigest name kw1
  = _get_cache_key encode_basestring md5_hexdigest name kw2.
Proof.
  intros Hnd1 Hnd2 Hmap. unfold _get_cache_key.
  rewrite (sorted_items_perm kw1 kw2); [done | done |].
  by apply list_to_map_inj.
Qed.

Lemma cache_key_order_independent_witness :
  _get_cache_key (encode_basestring Demo.lib) (md5_hexdigest Demo.lib) "echo"
    [("url", JStr "http://x"); ("method", JStr "GET")]
  = _get_cache_key (encode_basestring Demo.lib) (md5_hexdigest Demo.lib) "echo"
      [("method", JStr "GET"); ("url", JStr "http://x")].
Proof.
  apply (cache_key_order_independent (encode_basestring Demo.lib) (md5_hexdigest Demo.lib)
           "echo" [("url", JStr "http://x"); ("method", JStr "GET")]
           [("method", JStr "GET"); ("url", JStr "http://x")]).
  - apply (bool_decide_unpack _). vm_compute. reflexivity.
  - apply (bool_decide_unpack _). vm_compute. reflexivity.
  - vm_compute. reflexivity.
Defined.

(** ** The tool registry *)

(** C6. Invoking the registry by a name it does not hold returns, for any
    parameters, a failed [ToolResult] with the error "Tool <name> not
    found"; the call returns, it does not raise, and neither the registry
    nor the world changes. *)
Theorem execute_tool_not_found {Env} (lib : Library) (self : ToolRegistry.t Env)
    (name : string) (kw : kwargs) (w : World Env) :
  ToolRegistry.get self name = None ->
  ToolRegistry.execute_tool lib self name kw w
  = (Returned (ToolResult.mk name ToolStatus.FAILED JNull
                 (Some ("Tool " ++ name ++ " not found")%string) 0%Q []), self, w).
Proof.
  intros Hget. unfold ToolRegistry.execute_tool. by rewrite Hget.
Qed.

Lemma execute_tool_not_found_witness :
  ToolRegistry.execute_tool Demo.lib Demo.registry "missing" Demo.params Demo.w0
  = (Returned (ToolResult.mk "missing" ToolStatus.FAILED JNull
                 (Some "Tool missing not found") 0%Q []), Demo.registry, Demo.w0).
Proof.
  apply (execute_tool_not_found Demo.lib Demo.registry "missing" Demo.params Demo.w0).
  reflexivity.
Defined.

(** C10. An agent built with [tool_registry = None] gets [None] from
    [get_tool] for every tool name; an agent built with a [ToolRegistry]
    gets an [AttributeError]: the registry has no [get_tool] attribute
    (its lookup method is [get]), whether or not the tool is registered. *)
Theorem get_tool_none_or_attribute_error {Env} (class_name agent_id : string)
    (config : TaskConfig.t) (execute : Env -> AgentState.t -> awaited Env BaseAgent.step)
    (cleanup : option (Env -> awaited Env (outcome unit))) (tool_name : string) :
  BaseAgent.get_tool (BaseAgent.mk class_name agent_id config None execute cleanup) tool_name
  = Returned None
  /\ forall registry : ToolRegistry.t Env,
      BaseAgent.get_tool
        (BaseAgent.mk class_name agent_id config (Some registry) execute cleanup) tool_name
      = Raised (AttributeError "ToolRegistry" "get_tool").
Proof. split; [reflexivity | intros registry; reflexivity]. Qed.

Lemma cleanup_loop_all_return {Env} (ts : list (BaseTool.t Env)) (w : World Env) :
  Forall (fun t => forall e, value (BaseTool.cleanup t e) = Returned tt) ts ->
  exists w', ToolRegistry.cleanup_loop ts w = (Returned tt, w')
             /\ log w' = log w ++ map (fun t => EvToolCleanup (BaseTool.name t)) ts.
Proof.
  intros Hall. revert w. induction Hall as [|t ts Ht _ IH]; intros w; simpl.
  - exists w. by rewrite app_nil_r.
  - rewrite Ht. edestruct IH as (w' & -> & Hlog). eexists. split; [done|].
    rewrite Hlog. simpl. by rewrite <- app_assoc.
Qed.




(** ** The tool cache *)

Lemma Qlt_bool_iff (x y : Q) : Qlt_bool x y = true <-> (x < y)%Q.
Proof.
  unfold Qlt_bool. rewrite negb_true_iff, <- not_true_iff_false, Qle_bool_iff.
  split; [apply Qnot_le_lt | apply Qlt_not_le].
Qed.

Lemma range_succ (m : Z) :
  (0 <= m)%Z -> range (m + 1) = 0%Z :: map Z.of_nat (seq 1 (Z.to_nat m)).
Proof.
  intros Hm. unfold range.
  replace (Z.to_nat (m + 1)) with (S (Z.to_nat m)) by lia. reflexivity.
Qed.

(** A run of the retry loop only adds events to the log. *)
Lemma tool_attempts_log {Env} (lib : Library) (self : BaseTool.t Env) (kw : kwargs)
    (attempts : list Z) (last : option exn) (w : World Env) :
  exists evs, log (BaseTool.attempts_loop lib self kw attempts last w).2 = log w ++ evs.
Proof.
  revert last w. induction attempts as [|attempt rest IH]; intros last w; simpl.
  - exists []. by rewrite app_nil_r.
  - set (w1 := if bool_decide (0 < attempt)%Z then _ else w).
    assert (exists evs, log w1 = log w ++ evs) as [evs1 Hw1].
    { subst w1. case_bool_decide; [|exists []; by rewrite app_nil_r].
      eexists. reflexivity. }
    destruct (_ || _).
    + edestruct IH as [evs Hevs]. rewrite Hevs. simpl. rewrite Hw1.
      eexists. rewrite <- !app_assoc. reflexivity.
    + destruct (value _) as [r|e]; simpl.
      * rewrite Hw1. eexists. rewrite <- !app_assoc. reflexivity.
      * case_bool_decide; simpl.
        -- rewrite Hw1. eexists. rewrite <- !app_assoc. reflexivity.
        -- edestruct IH as [evs Hevs]. rewrite Hevs. simpl. rewrite Hw1.
           eexists. rewrite <- !app_assoc. reflexivity.
Qed.

(** With retries enabled, [execute_with_retry] starts by running the
    wrapped operation. *)
Lemma execute_with_retry_executes {Env} (lib : Library) (self : BaseTool.t Env)
    (kw : kwargs) (w : World Env) :
  (0 <= ToolConfig.max_retries (BaseTool.config self))%Z ->
  exists evs,
    log (BaseTool.execute_with_retry lib self kw w).2
    = log w ++ EvToolExecute (BaseTool.name self) kw :: evs.
Proof.
  intros Hm. unfold BaseTool.execute_with_retry. rewrite range_succ by done.
  simpl. destruct (_ || _).
  - edestruct (tool_attempts_log lib self kw) as [evs Hevs]. rewrite Hevs. simpl.
    eexists. rewrite <- app_assoc. reflexivity.
  - destruct (value _) as [r|e]; simpl.
    + exists []. reflexivity.
    + case_bool_decide; simpl.
      * exists []. reflexivity.
      * edestruct (tool_attempts_log lib self kw) as [evs Hevs]. rewrite Hevs. simpl.
        eexists. rewrite <- app_assoc. reflexivity.
Qed.

(** A valid entry is returned as it is: the tool and the world are left
    untouched. *)
Lemma call_cache_hit {Env} (lib : Library) (self : BaseTool.t Env) (kw : kwargs)
    (w : World Env) (r : ToolResult.t) (stamp : Q) :
  ToolConfig.cache_enabled (BaseTool.config self) = true ->
  BaseTool._cache self !! BaseTool._get_cache_key lib self kw = Some r ->
  BaseTool._cache_timestamps self !! BaseTool._get_cache_key lib self kw = Some stamp ->
  (now w - stamp < inject_Z (ToolConfig.cache_ttl (BaseTool.config self)))%Q ->
  BaseTool.__call__ lib self kw w = (Returned r, self, w).
Proof.
  intros Hen Hc Ht Hage. unfold BaseTool.__call__, BaseTool._get_cached_result,
    BaseTool._is_cache_valid.
  rewrite Hen, Ht. simpl. apply Qlt_bool_iff in Hage. by rewrite Hage, Hc.
Qed.





(** ** Plan construction *)

Lemma build_graph_unregistered {Env} (self : AgentOrchestrator.t Env)
    (agent_sequence : list string) :
  (exists x, x ∈ agent_sequence /\ AgentOrchestrator.agents self !! x = None) ->
  exists name,
    name ∈ agent_sequence
    /\ AgentOrchestrator.agents self !! name = None
    /\ AgentOrchestrator._build_agent_graph self agent_sequence
       = Raised (ValueError ("Agent " ++ name ++ " not registered")%string).
Proof.
  induction agent_sequence as [|a rest IH]; intros (x & Hin & Hx).
  - by apply elem_of_nil in Hin.
  - simpl. destruct (AgentOrchestrator.agents self !! a) as [cls|] eqn:Ha.
    + assert (x ∈ rest) as Hin'.
      { apply elem_of_cons in Hin as [->|]; [congruence | done]. }
      destruct IH as (name & Hn & Hnone & ->); [by eauto|].
      exists name. split; [by right | done].
    + exists a. split; [by left | done].
Qed.

Lemma build_graph_registered {Env} (self : AgentOrchestrator.t Env)
    (agent_sequence : list string) :
  (forall x, x ∈ agent_sequence -> is_Some (AgentOrchestrator.agents self !! x)) ->
  AgentOrchestrator._build_agent_graph self agent_sequence
  = Returned (map (fun x => (x, AgentOrchestrator._create_agent_node self x)) agent_sequence).
Proof.
  induction agent_sequence as [|a rest IH]; intros Hreg; [done|].
  simpl. destruct (Hreg a) as [cls ->]; [by left|].
  rewrite IH; [done|]. intros x Hx. apply Hreg. by right.
Qed.

(** C4. A step sequence that names an unregistered step makes
    [execute_task] return a state with status FAILED and the error "Agent
    <name> not registered" for an unregistered name of the sequence; the
    world is as before the call, so no step ran, and [agent_results] is
    empty. *)
Theorem unregistered_step_fails_before_any_step {Env} (self : AgentOrchestrator.t Env)
    (task_id : string) (agent_sequence : list string)
    (initial_data : option (gmap string json)) (custom_config : option TaskConfig.t)
    (w : World Env) :
  (exists x, x ∈ agent_sequence /\ AgentOrchestrator.agents self !! x = None) ->
  exists name final,
    name ∈ agent_sequence
    /\ AgentOrchestrator.agents self !! name = None
    /\ AgentOrchestrator.execute_task self task_id agent_sequence initial_data custom_config w
       = (Returned final, w)
    /\ AgentState.execution_metadata final !! "status" = Some (MStatus TaskStatus.FAILED)
    /\ AgentState.execution_metadata final !! "error"
       = Some (MStr ("Agent " ++ name ++ " not registered")%string)
    /\ AgentState.agent_results final = ∅.
Proof.
  intros Hun. destruct (build_graph_unregistered self agent_sequence Hun)
    as (name & Hin & Hnone & Hbuild).
  exists name. eexists. split; [done|]. split; [done|].
  unfold AgentOrchestrator.execute_task. rewrite Hbuild. split; [reflexivity|].
  simpl. by rewrite lookup_insert_eq, lookup_insert_ne, lookup_insert_eq.
Qed.

Lemma unregistered_step_fails_before_any_step_witness :
  exists name final,
    name ∈ ["a"; "ghost"; "b"]
    /\ AgentOrchestrator.agents Demo.orchestrator !! name = None
    /\ AgentOrchestrator.execute_task Demo.orchestrator "t1" ["a"; "ghost"; "b"] None None
         (Demo.w1 0)
       = (Returned final, Demo.w1 0)
    /\ AgentState.execution_metadata final !! "status" = Some (MStatus TaskStatus.FAILED)
    /\ AgentState.execution_metadata final !! "error"
       = Some (MStr ("Agent " ++ name ++ " not registered")%string)
    /\ AgentState.agent_results final = ∅.
Proof.
  apply (unregistered_step_fails_before_any_step Demo.orchestrator "t1" ["a"; "ghost"; "b"]
           None None (Demo.w1 0)).
  exists "ghost". split; [|reflexivity].
  apply list_elem_of_In. right. left. reflexivity.
Defined.

(** ** The whole-task deadline *)

(** What [execute_task] makes of a plan that the deadline cut, when the
    cancellation comes back to [wait_for] as it is. *)
Lemma abandoned_plan_gives_task_timeout {Env} (self : AgentOrchestrator.t Env)
    (task_id : string) (agent_sequence : list string)
    (initial_data : option (gmap string json)) (custom_config : option TaskConfig.t)
    (w w' : World Env) (graph : list (string * node Env)) (state' : AgentState.t) :
  AgentOrchestrator._build_agent_graph self agent_sequence = Returned graph ->
  StateGraph.ainvoke graph
    (now w + TaskConfig.timeout (default (AgentOrchestrator.config self) custom_config))%Q
    (AgentState.mk task_id ∅ (default ∅ initial_data) ∅) w
  = (Abandoned None, state', w') ->
  exists final,
    AgentOrchestrator.execute_task self task_id agent_sequence initial_data custom_config w
    = (Returned final, w')
    /\ AgentState.execution_metadata final !! "status" = Some (MStatus TaskStatus.FAILED)
    /\ AgentState.execution_metadata final !! "error" = Some (MStr "Task timeout").
Proof.
  intros Hbuild Hrun. unfold AgentOrchestrator.execute_task.
  rewrite Hbuild, Hrun. eexists. split; [reflexivity|].
  simpl. by rewrite lookup_insert_eq, lookup_insert_ne, lookup_insert_eq.
Qed.


(** ** The retry loop of a step *)

Lemma await_inv {Env} (deadline d : Q) (w w' : World Env) (b : bool) :
  await_ deadline d w = (b, w') ->
  (b = true /\ w' = advance d w) \/ (b = false /\ w' = mkWorld deadline (env w) (log w)).
Proof.
  unfold await_. destruct (Qle_bool _ _); intros [= <- <-]; auto.
Qed.

(** One turn of the loop: it is cut by the deadline, or it runs the logic
    once and goes on as the outcome says. *)
Lemma attempts_loop_step {Env} (self : AgentOrchestrator.t Env) (deadline : Q)
    (agent : BaseAgent.t Env) (attempt : Z) (rest : list Z) (state : AgentState.t)
    (r : AgentResult.t) (last : option exn) (w : World Env) :
  (AgentOrchestrator.attempts_loop self deadline agent (attempt :: rest) state r last w).1.1.1
  = Abandoned None
  \/ exists w2,
      env w2 = env_after (BaseAgent.execute agent (env w) state)
      /\ log w2 = log w ++ attempt_events (AgentOrchestrator.config self)
                             (BaseAgent.agent_id agent) attempt
      /\ AgentOrchestrator.attempts_loop self deadline agent (attempt :: rest) state r last w
         = match value (BaseAgent.execute agent (env w) state) with
           | BaseAgent.Returns s => (Done, s, entering attempt r, w2)
           | BaseAgent.Raises x s =>
               if bool_decide (attempt = TaskConfig.max_retries (AgentOrchestrator.config self))
               then (Raise x, s, entering attempt r, w2)
               else AgentOrchestrator.attempts_loop self deadline agent rest s
                      (entering attempt r) (Some x) w2
           end.
Proof.
  simpl. unfold attempt_events, entering, retry_delay_of.
  set (slept := if bool_decide (0 < attempt)%Z then _ else (true, w)).
  assert ((slept.1 = false) \/
          (slept.1 = true /\ env slept.2 = env w
           /\ log slept.2 = log w ++ (if bool_decide (0 < attempt)%Z
                then [EvSleep (TaskConfig.retry_delay (AgentOrchestrator.config self)
                               * TaskConfig.retry_backoff (AgentOrchestrator.config self)
                                 ^ (attempt - 1))%Q]
                else []))) as Hslept.
  { subst slept. case_bool_decide.
    - unfold sleep. destruct (await_ _ _ _) as [b w'] eqn:Ha.
      apply await_inv in Ha as [[-> ->]|[-> ->]]; simpl; auto.
    - right. simpl. by rewrite app_nil_r. }
  clearbody slept. destruct slept as [b1 w1]. simpl in Hslept.
  destruct Hslept as [->|(-> & Henv & Hlog)]; [by left|].
  destruct (bool_decide (AgentOrchestrator.semaphore self <= 0)%Z); [by left|].
  rewrite Henv.
  destruct (await_ deadline _ _) as [b w2] eqn:Ha.
  apply await_inv in Ha as [[-> ->]|[-> ->]]; [|by left].
  right.
  exists (advance (seconds (BaseAgent.execute agent (env w) state))
            (with_env (env_after (BaseAgent.execute agent (env w) state))
               (log_event (EvAgentExecute (BaseAgent.agent_id agent) attempt) w1))).
  split; [reflexivity|]. split; [|reflexivity].
  simpl. rewrite Hlog. by rewrite <- app_assoc.
Qed.

Lemma entering_entering (a b : Z) (r : AgentResult.t) :
  (0 < b)%Z -> entering b (entering a r) = entering b r.
Proof.
  intros Hb. unfold entering. rewrite (bool_decide_eq_true_2 _ Hb).
  by case_bool_decide.
Qed.

Lemma after_attempts_S (i k : nat) (r : AgentResult.t) :
  after_attempts (S i) k (entering (Z.of_nat i) r) = after_attempts i (S k) r.
Proof.
  destruct k as [|k]; simpl.
  - by rewrite Nat.add_0_r.
  - rewrite entering_entering by lia. f_equal. f_equal. lia.
Qed.

(** [k] failing attempts that are not the last allowed one: unless the
    deadline cuts the run, the loop goes on with the attempts that
    remain. *)
Lemma attempts_loop_failing_prefix {Env} (self : AgentOrchestrator.t Env) (deadline : Q)
    (agent : BaseAgent.t Env) (k : nat) :
  forall (i : nat) (rest : list Z) (state : AgentState.t) (r : AgentResult.t)
         (last : option exn) (w : World Env) e_k s_k last_k,
    (Z.of_nat (i + k) <= TaskConfig.max_retries (AgentOrchestrator.config self))%Z ->
    failing_attempts agent k (env w) state last = Some (e_k, s_k, last_k) ->
    (AgentOrchestrator.attempts_loop self deadline agent
       (map Z.of_nat (seq i k) ++ rest) state r last w).1.1.1 <> Abandoned None ->
    exists w_k,
      env w_k = e_k
      /\ log w_k = log w ++ flat_map (attempt_events (AgentOrchestrator.config self)
                                         (BaseAgent.agent_id agent))
                              (map Z.of_nat (seq i k))
      /\ AgentOrchestrator.attempts_loop self deadline agent
           (map Z.of_nat (seq i k) ++ rest) state r last w
         = AgentOrchestrator.attempts_loop self deadline agent rest s_k
             (after_attempts i k r) last_k w_k.
Proof.
  induction k as [|k IH]; intros i rest state r last w e_k s_k last_k Hle Hfail Hna.
  - injection Hfail as <- <- <-. exists w. simpl. by rewrite app_nil_r.
  - cbn [seq map app] in *. cbn [failing_attempts] in Hfail.
    destruct (attempts_loop_step self deadline agent (Z.of_nat i)
                (map Z.of_nat (seq (S i) k) ++ rest) state r last w)
      as [Hab|(w2 & Henv & Hlog & Heq)]; [done|].
    destruct (value (BaseAgent.execute agent (env w) state)) as [s|x s]; [done|].
    rewrite bool_decide_eq_false_2 in Heq by lia.
    rewrite Heq in Hna |- *. rewrite <- Henv in Hfail.
    destruct (IH (S i) rest s (entering (Z.of_nat i) r) (Some x) w2 e_k s_k last_k)
      as (w_k & Hek & Hlogk & Heqk); [lia | done | done |].
    exists w_k. split; [done|]. split.
    + rewrite Hlogk, Hlog. cbn [flat_map]. by rewrite <- app_assoc.
    + rewrite Heqk. by rewrite after_attempts_S.
Qed.

Lemma failing_attempts_S {Env} (agent : BaseAgent.t Env) (n : nat) :
  forall (e : Env) (state : AgentState.t) (last : option exn),
    failing_attempts agent (S n) e state last
    = match failing_attempts agent n e state last with
      | Some (e1, s1, l1) => failing_attempts agent 1 e1 s1 l1
      | None => None
      end.
Proof.
  induction n as [|n IH]; intros e state last; [reflexivity|].
  remember (S n) as n1 eqn:Hn1. simpl. subst n1.
  destruct (value (BaseAgent.execute agent e state)) as [s|x s] eqn:Hv.
  - simpl. by rewrite Hv.
  - rewrite IH. simpl. by rewrite Hv.
Qed.

Lemma range_split (m : Z) (k : nat) :
  (Z.of_nat k <= m)%Z ->
  range (m + 1)
  = map Z.of_nat (seq 0 k) ++ Z.of_nat k :: map Z.of_nat (seq (S k) (Z.to_nat m - k)).
Proof.
  intros Hk. unfold range.
  replace (Z.to_nat (m + 1)) with (k + S (Z.to_nat m - k))%nat by lia.
  rewrite seq_app, map_app. reflexivity.
Qed.

Lemma flat_map_snoc {A B} (f : A -> list B) (l : list A) (x : A) :
  flat_map f (l ++ [x]) = flat_map f l ++ f x.
Proof. rewrite flat_map_app. simpl. by rewrite app_nil_r. Qed.

Lemma range_snoc (k : nat) :
  range (Z.of_nat k + 1) = map Z.of_nat (seq 0 k) ++ [Z.of_nat k].
Proof.
  rewrite (range_split (Z.of_nat k) k) by lia.
  replace (Z.to_nat (Z.of_nat k) - k)%nat with 0%nat by lia. reflexivity.
Qed.

Lemma range_last (m : Z) :
  (0 <= m)%Z -> range (m + 1) = map Z.of_nat (seq 0 (Z.to_nat m)) ++ [m].
Proof.
  intros Hm. rewrite (range_split m (Z.to_nat m)) by lia.
  replace (Z.to_nat m - Z.to_nat m)%nat with 0%nat by lia.
  simpl. by rewrite Z2Nat.id.
Qed.

(** Every allowed attempt raises: unless the deadline cuts the run, the
    loop ends by raising the last exception, after [max_retries] retries. *)
Lemma retry_exhausted {Env} (self : AgentOrchestrator.t Env) (deadline : Q)
    (agent : BaseAgent.t Env) (state : AgentState.t) (r : AgentResult.t) (w : World Env)
    (e' : Env) (s_last : AgentState.t) (x : exn) :
  let m := TaskConfig.max_retries (AgentOrchestrator.config self) in
  (0 <= m)%Z ->
  failing_attempts agent (S (Z.to_nat m)) (env w) state None = Some (e', s_last, Some x) ->
  (AgentOrchestrator._execute_agent_with_retry self deadline agent state r w).1.1.1
  <> Abandoned None ->
  exists w',
    AgentOrchestrator._execute_agent_with_retry self deadline agent state r w
    = (Raise x, s_last, entering m (after_attempts 0 (Z.to_nat m) r), w')
    /\ log w' = log w ++ flat_map (attempt_events (AgentOrchestrator.config self)
                                     (BaseAgent.agent_id agent)) (range (m + 1)).
Proof.
  intros m Hm Hfail Hna. unfold AgentOrchestrator._execute_agent_with_retry in *.
  fold m in Hna |- *.
  assert (Z.of_nat (Z.to_nat m) = m) as Hn by lia.
  rewrite (range_last m Hm) in Hna |- *.
  rewrite failing_attempts_S in Hfail.
  destruct (failing_attempts agent (Z.to_nat m) (env w) state None)
    as [[[e1 s1] l1]|] eqn:Hpre; [|done].
  destruct (attempts_loop_failing_prefix self deadline agent (Z.to_nat m) 0
              [m] state r None w e1 s1 l1)
    as (w_k & Hek & Hlogk & Heqk); [simpl; fold m; lia | done | done |].
  rewrite Heqk in Hna |- *.
  destruct (attempts_loop_step self deadline agent m [] s1
              (after_attempts 0 (Z.to_nat m) r) l1 w_k)
    as [Hab|(w2 & Henv & Hlog & Heq)]; [done|].
  cbn [failing_attempts] in Hfail. rewrite <- Hek in Hfail.
  destruct (value (BaseAgent.execute agent (env w_k) s1)) as [s|y s]; [done|].
  injection Hfail as <- <- <-.
  rewrite bool_decide_eq_true_2 in Heq by done.
  exists w2. rewrite Heq. split; [done|].
  rewrite Hlog, Hlogk, flat_map_snoc. by rewrite <- app_assoc.
Qed.

(** [k] attempts raise and the next one returns: unless the deadline cuts
    the run, the loop returns after [k] retries. *)
Lemma retry_then_return {Env} (self : AgentOrchestrator.t Env) (deadline : Q)
    (agent : BaseAgent.t Env) (state : AgentState.t) (r : AgentResult.t) (w : World Env)
    (k : nat) (e_k : Env) (s_k s' : AgentState.t) (l_k : option exn) :
  (Z.of_nat k <= TaskConfig.max_retries (AgentOrchestrator.config self))%Z ->
  failing_attempts agent k (env w) state None = Some (e_k, s_k, l_k) ->
  value (BaseAgent.execute agent e_k s_k) = BaseAgent.Returns s' ->
  (AgentOrchestrator._execute_agent_with_retry self deadline agent state r w).1.1.1
  <> Abandoned None ->
  exists w',
    AgentOrchestrator._execute_agent_with_retry self deadline agent state r w
    = (Done, s', entering (Z.of_nat k) (after_attempts 0 k r), w')
    /\ log w' = log w ++ flat_map (attempt_events (AgentOrchestrator.config self)
                                     (BaseAgent.agent_id agent)) (range (Z.of_nat k + 1)).
Proof.
  intros Hk Hfail Hret Hna. unfold AgentOrchestrator._execute_agent_with_retry in *.
  rewrite (range_split _ k Hk) in Hna |- *.
  destruct (attempts_loop_failing_prefix self deadline agent k 0
              (Z.of_nat k :: map Z.of_nat
                 (seq (S k) (Z.to_nat (TaskConfig.max_retries (AgentOrchestrator.config self)) - k)))
              state r None w e_k s_k l_k)
    as (w_k & Hek & Hlogk & Heqk); [simpl; lia | done | done |].
  rewrite Heqk in Hna |- *.
  destruct (attempts_loop_step self deadline agent (Z.of_nat k)
              (map Z.of_nat
                 (seq (S k) (Z.to_nat (TaskConfig.max_retries (AgentOrchestrator.config self)) - k)))
              s_k (after_attempts 0 k r) l_k w_k)
    as [Hab|(w2 & Henv & Hlog & Heq)]; [done|].
  rewrite Hek, Hret in Heq.
  exists w2. rewrite Heq. split; [done|].
  rewrite Hlog, Hlogk, range_snoc, flat_map_snoc. by rewrite <- app_assoc.
Qed.

Lemma retry_count_after (k : nat) (r : AgentResult.t) :
  AgentResult.retry_count r = 0%Z ->
  AgentResult.retry_count (entering (Z.of_nat k) (after_attempts 0 k r)) = Z.of_nat k.
Proof.
  intros Hr. unfold entering. case_bool_decide; [done|].
  destruct k; [done | lia].
Qed.

(** ** Which steps start *)

Lemma started_app (l1 l2 : list event) : started (l1 ++ l2) = started l1 ++ started l2.
Proof. apply omap_app. Qed.

Lemma sleeps_app (l1 l2 : list event) : sleeps (l1 ++ l2) = sleeps l1 ++ sleeps l2.
Proof. apply omap_app. Qed.

Ltac split_run :=
  repeat match goal with
    | ended : signal |- _ => destruct ended
    | |- context [bool_decide ?P] => destruct (bool_decide P)
    | |- context [await_ ?d ?s ?w] =>
        let H := fresh "Hawait" in
        destruct (await_ d s w) as [[] ?] eqn:H;
        apply await_inv in H as [[? ->]|[? ->]]; try discriminate
    | |- context [value ?a] => destruct (value a)
    end.

(** The retry loop starts no agent. *)
Lemma attempts_loop_started {Env} (self : AgentOrchestrator.t Env) (deadline : Q)
    (agent : BaseAgent.t Env) (attempts : list Z) :
  forall (state : AgentState.t) (r : AgentResult.t) (last : option exn) (w : World Env),
    started (log (AgentOrchestrator.attempts_loop self deadline agent attempts state r last w).2)
    = started (log w).
Proof.
  induction attempts as [|attempt rest IH]; intros state r last w; [done|].
  simpl. unfold sleep. split_run; simpl; rewrite ?IH; simpl;
    rewrite ?started_app; simpl; rewrite ?app_nil_r; done.
Qed.

Lemma finally_cleanup_started {Env} (deadline : Q) (agent : BaseAgent.t Env) (ended : signal)
    (state : AgentState.t) (w : World Env) :
  started (log (AgentOrchestrator.finally_cleanup deadline agent ended state w).2)
  = started (log w).
Proof.
  unfold AgentOrchestrator.finally_cleanup.
  destruct (BaseAgent.cleanup agent) as [hook|]; [|done].
  split_run; simpl; rewrite ?started_app; simpl; rewrite ?app_nil_r; done.
Qed.

(** A node of a registered step starts that step's agent, once. *)
Lemma node_started {Env} (self : AgentOrchestrator.t Env) (agent_id : string)
    (deadline : Q) (state : AgentState.t) (w : World Env) :
  is_Some (AgentOrchestrator.agents self !! agent_id) ->
  started (log (AgentOrchestrator._create_agent_node self agent_id deadline state w).2)
  = started (log w) ++ [agent_id].
Proof.
  intros [cls Hcls]. unfold AgentOrchestrator._create_agent_node. rewrite Hcls.
  unfold AgentOrchestrator._execute_agent_with_retry.
  match goal with
  | |- context [AgentOrchestrator.attempts_loop ?s ?d ?a ?l ?st ?r ?la ?w0] =>
      pose proof (attempts_loop_started s d a l st r la w0) as Hloop;
      destruct (AgentOrchestrator.attempts_loop s d a l st r la w0) as [[[sig st'] r'] w']
  end.
  simpl in Hloop. rewrite started_app in Hloop. simpl in Hloop.
  destruct sig; rewrite ?finally_cleanup_started; done.
Qed.

Lemma ainvoke_app {Env} (g1 g2 : list (string * node Env)) (deadline : Q)
    (state : AgentState.t) (w : World Env) :
  StateGraph.ainvoke (g1 ++ g2) deadline state w
  = match StateGraph.ainvoke g1 deadline state w with
    | (Done, s1, w1) => StateGraph.ainvoke g2 deadline s1 w1
    | stopped => stopped
    end.
Proof.
  revert state w. induction g1 as [|[name run] g1 IH]; intros state w; [done|].
  simpl. destruct (run deadline state w) as [[[] s1] w1]; auto.
Qed.

(** A plan that runs to its end has started its steps in the listed
    order. *)
Lemma ainvoke_done_started {Env} (self : AgentOrchestrator.t Env) (steps : list string)
    (deadline : Q) :
  forall (state s1 : AgentState.t) (w w1 : World Env),
    (forall x, x ∈ steps -> is_Some (AgentOrchestrator.agents self !! x)) ->
    StateGraph.ainvoke
      (map (fun x => (x, AgentOrchestrator._create_agent_node self x)) steps)
      deadline state w = (Done, s1, w1) ->
    started (log w1) = started (log w) ++ steps.
Proof.
  induction steps as [|a rest IH]; intros state s1 w w1 Hreg Hrun.
  - injection Hrun as <- <-. by rewrite app_nil_r.
  - simpl in Hrun.
    pose proof (node_started self a deadline state w (Hreg a ltac:(by left))) as Ha.
    destruct (AgentOrchestrator._create_agent_node self a deadline state w)
      as [[[] s2] w2]; try done.
    rewrite (IH s2 s1 w2 w1); [|intros x Hx; apply Hreg; by right|done].
    simpl in Ha. rewrite Ha. by rewrite <- app_assoc.
Qed.

(** ** A step that exhausts its retries *)

Lemma finally_cleanup_state {Env} (deadline : Q) (agent : BaseAgent.t Env) (ended : signal)
    (state : AgentState.t) (w : World Env) :
  (AgentOrchestrator.finally_cleanup deadline agent ended state w).1.2 = state.
Proof.
  unfold AgentOrchestrator.finally_cleanup.
  destruct (BaseAgent.cleanup agent) as [hook|]; [|done].
  split_run; done.
Qed.

(** After a [try] that raised, the node raises, unless the deadline passes
    during the hook. *)
Lemma finally_cleanup_after_raise {Env} (deadline : Q) (agent : BaseAgent.t Env) (x : exn)
    (state : AgentState.t) (w : World Env) :
  (AgentOrchestrator.finally_cleanup deadline agent (Raise x) state w).1.1 = Abandoned None
  \/ exists x', (AgentOrchestrator.finally_cleanup deadline agent (Raise x) state w).1.1
                = Raise x'.
Proof.
  unfold AgentOrchestrator.finally_cleanup.
  destruct (BaseAgent.cleanup agent) as [hook|]; [|right; by eexists].
  split_run; simpl; auto; right; by eexists.
Qed.

(** A cancelled [try] leaves the node cancelled, whatever the [finally]
    clause does. *)
Lemma finally_cleanup_cancelled {Env} (deadline : Q) (agent : BaseAgent.t Env)
    (replaced : option exn) (state : AgentState.t) (w : World Env) :
  exists r,
    (AgentOrchestrator.finally_cleanup deadline agent (Abandoned replaced) state w).1.1
    = Abandoned r.
Proof.
  unfold AgentOrchestrator.finally_cleanup.
  destruct (BaseAgent.cleanup agent) as [hook|]; [|by eexists].
  cbn zeta. destruct (value _); by eexists.
Qed.

(** The attempts of a node that the deadline does not cut are not cut. *)
Lemma node_in_time {Env} (self : AgentOrchestrator.t Env) (deadline : Q)
    (agent_id : string) (cls : AgentClass Env) (state : AgentState.t) (w : World Env) :
  AgentOrchestrator.agents self !! agent_id = Some cls ->
  (forall replaced,
     (AgentOrchestrator._create_agent_node self agent_id deadline state w).1.1
     <> Abandoned replaced) ->
  forall replaced,
    (AgentOrchestrator._execute_agent_with_retry self deadline
       (cls agent_id (AgentOrchestrator.config self) (AgentOrchestrator.tool_registry self))
       state (AgentResult.init agent_id (AgentState.task_id state) AgentStatus.RUNNING)
       (log_event (EvAgentInit agent_id) w)).1.1.1 <> Abandoned replaced.
Proof.
  intros Hcls Hna replaced Hab.
  unfold AgentOrchestrator._create_agent_node in Hna. rewrite Hcls in Hna.
  cbv zeta in Hna.
  destruct (AgentOrchestrator._execute_agent_with_retry _ _ _ _ _ _) as [[[sig st] r1] w1].
  simpl in Hab. subst sig.
  destruct (finally_cleanup_cancelled deadline
              (cls agent_id (AgentOrchestrator.config self)
                 (AgentOrchestrator.tool_registry self)) replaced st w1) as [r' Hr'].
  by apply (Hna r').
Qed.

Lemma node_exhausted {Env} (self : AgentOrchestrator.t Env) (deadline : Q) (b : string)
    (cls : AgentClass Env) (state : AgentState.t) (w : World Env)
    (e' : Env) (s_last : AgentState.t) (x : exn) :
  AgentOrchestrator.agents self !! b = Some cls ->
  (0 <= TaskConfig.max_retries (AgentOrchestrator.config self))%Z ->
  failing_attempts
    (cls b (AgentOrchestrator.config self) (AgentOrchestrator.tool_registry self))
    (S (Z.to_nat (TaskConfig.max_retries (AgentOrchestrator.config self))))
    (env w) state None = Some (e', s_last, Some x) ->
  (forall replaced,
     (AgentOrchestrator._create_agent_node self b deadline state w).1.1
     <> Abandoned replaced) ->
  exists x' r w',
    AgentOrchestrator._create_agent_node self b deadline state w
    = (Raise x',
       AgentState.set_metadata "error" (MStr (exn_msg x))
         (AgentState.set_agent_result b r s_last), w')
    /\ AgentResult.status r = AgentStatus.FAILED
    /\ AgentResult.retry_count r = TaskConfig.max_retries (AgentOrchestrator.config self)
    /\ AgentResult.error r = Some (exn_msg x).
Proof.
  intros Hcls Hm Hfail Hna.
  pose proof (node_in_time self deadline b cls state w Hcls Hna None) as Hloop_na.
  unfold AgentOrchestrator._create_agent_node in *. rewrite Hcls in *.
  set (agent := cls b _ _) in *.
  set (r0 := AgentResult.init b (AgentState.task_id state) AgentStatus.RUNNING) in *.
  set (w0 := log_event (EvAgentInit b) w) in *.
  destruct (retry_exhausted self deadline agent state r0 w0 e' s_last x Hm Hfail Hloop_na)
    as (w' & Heq & _).
  cbv zeta in Hna |- *. rewrite Heq in Hna |- *.
  match goal with
  | |- context [AgentOrchestrator.finally_cleanup ?d ?a ?en ?s ?ww] =>
      pose proof (finally_cleanup_state d a en s ww) as Hst;
      pose proof (finally_cleanup_after_raise d a x s ww) as Hsg;
      destruct (AgentOrchestrator.finally_cleanup d a en s ww) as [[sg st'] w2]
  end.
  simpl in Hst, Hsg, Hna. subst st'.
  destruct Hsg as [->|[x' ->]]; [by destruct (Hna None)|].
  exists x'. eexists. exists w2. split; [reflexivity|].
  simpl. split; [done|]. split; [|done].
  pose proof (retry_count_after
                (Z.to_nat (TaskConfig.max_retries (AgentOrchestrator.config self))) r0
                eq_refl) as Hrc.
  by rewrite (Z2Nat.id _ Hm) in Hrc.
Qed.

(** C1. A step [b] of a plan is reached (the steps before it completed)
    and its logic raises on every one of the [max_retries + 1] attempts,
    the deadline not cutting the step. Then [execute_task] returns a state
    with task status FAILED; the outcome recorded for [b] has status
    failed, [retry_count = max_retries] and the message of the last
    exception; [agent_results] is what the last attempt left plus that
    outcome, so no later step got one; and the steps started are those
    before [b] and [b], so no step after it starts. *)
Theorem exhausted_step_fails_task {Env} (self : AgentOrchestrator.t Env)
    (task_id : string) (pre : list string) (b : string) (post : list string)
    (initial_data : option (gmap string json)) (custom_config : option TaskConfig.t)
    (w : World Env) (cls : AgentClass Env) (g_pre : list (string * node Env))
    (s1 : AgentState.t) (w1 : World Env) (e' : Env) (s_last : AgentState.t) (x : exn) :
  (0 <= TaskConfig.max_retries (AgentOrchestrator.config self))%Z ->
  (forall y, y ∈ pre ++ b :: post -> is_Some (AgentOrchestrator.agents self !! y)) ->
  AgentOrchestrator.agents self !! b = Some cls ->
  AgentOrchestrator._build_agent_graph self pre = Returned g_pre ->
  StateGraph.ainvoke g_pre
    (now w + TaskConfig.timeout (default (AgentOrchestrator.config self) custom_config))%Q
    (AgentState.mk task_id ∅ (default ∅ initial_data) ∅) w
  = (Done, s1, w1) ->
  failing_attempts
    (cls b (AgentOrchestrator.config self) (AgentOrchestrator.tool_registry self))
    (S (Z.to_nat (TaskConfig.max_retries (AgentOrchestrator.config self))))
    (env w1) s1 None = Some (e', s_last, Some x) ->
  (forall replaced,
     (AgentOrchestrator._create_agent_node self b
        (now w + TaskConfig.timeout (default (AgentOrchestrator.config self) custom_config))%Q
        s1 w1).1.1 <> Abandoned replaced) ->
  exists final wf r,
    AgentOrchestrator.execute_task self task_id (pre ++ b :: post) initial_data
      custom_config w = (Returned final, wf)
    /\ AgentState.execution_metadata final !! "status" = Some (MStatus TaskStatus.FAILED)
    /\ AgentState.agent_results final = <[b := r]> (AgentState.agent_results s_last)
    /\ AgentResult.status r = AgentStatus.FAILED
    /\ AgentResult.retry_count r = TaskConfig.max_retries (AgentOrchestrator.config self)
    /\ AgentResult.error r = Some (exn_msg x)
    /\ started (log wf) = started (log w) ++ pre ++ [b].
Proof.
  intros Hm Hreg Hcls Hbuild Hpre Hfail Hna.
  assert (forall y, y ∈ pre -> is_Some (AgentOrchestrator.agents self !! y)) as Hreg_pre.
  { intros y Hy. apply Hreg, elem_of_app. by left. }
  rewrite (build_graph_registered self pre Hreg_pre) in Hbuild. injection Hbuild as <-.
  pose proof (ainvoke_done_started self pre _ _ _ _ _ Hreg_pre Hpre) as Hstarted.
  pose proof (node_started self b
                (now w + TaskConfig.timeout (default (AgentOrchestrator.config self)
                                               custom_config))%Q
                s1 w1 (mk_is_Some _ _ Hcls)) as Hb.
  destruct (node_exhausted self _ b cls s1 w1 e' s_last x Hcls Hm Hfail Hna)
    as (x' & r & w' & Hnode & Hst & Hrc & Herr).
  rewrite Hnode in Hb. simpl in Hb.
  unfold AgentOrchestrator.execute_task.
  rewrite (build_graph_registered self _ Hreg), map_app, ainvoke_app, Hpre.
  cbn [map StateGraph.ainvoke]. rewrite Hnode.
  assert (started (log w') = started (log w) ++ pre ++ [b]) as Hlog.
  { rewrite Hb, Hstarted. by rewrite <- app_assoc. }
  destruct (bool_decide (exn_class x' = "TimeoutError"));
    (eexists; exists w', r; split; [reflexivity|]; simpl;
     rewrite lookup_insert_eq; done).
Qed.

Lemma exhausted_step_fails_task_witness :
  exists final wf r,
    AgentOrchestrator.execute_task Demo.orchestrator "t1" (["a"] ++ "b" :: ["flaky"]) None
      None (Demo.w1 0) = (Returned final, wf)
    /\ AgentState.execution_metadata final !! "status" = Some (MStatus TaskStatus.FAILED)
    /\ AgentState.agent_results final
       = <["b" := r]> (AgentState.agent_results Demo.a_run.1.2)
    /\ AgentResult.status r = AgentStatus.FAILED
    /\ AgentResult.retry_count r
       = TaskConfig.max_retries (AgentOrchestrator.config Demo.orchestrator)
    /\ AgentResult.error r = Some (exn_msg (Exception "boom"))
    /\ started (log wf) = started (log (Demo.w1 0)) ++ ["a"] ++ ["b"].
Proof.
  apply (exhausted_step_fails_task Demo.orchestrator "t1" ["a"] "b" ["flaky"] None None
           (Demo.w1 0) Demo.Failing
           [("a", AgentOrchestrator._create_agent_node Demo.orchestrator "a")]
           Demo.a_run.1.2 Demo.a_run.2 0%nat Demo.a_run.1.2 (Exception "boom")).
  - vm_compute. discriminate.
  - intros y Hy. apply list_elem_of_In in Hy. simpl in Hy.
    destruct Hy as [<-|[<-|[<-|[]]]]; eexists; reflexivity.
  - reflexivity.
  - reflexivity.
  - vm_compute. reflexivity.
  - vm_compute. reflexivity.
  - vm_compute. discriminate.
Defined.

(** ** A step that succeeds after retries *)

Lemma range_first (k : nat) :
  range (Z.of_nat k + 1) = 0%Z :: map Z.of_nat (seq 1 k).
Proof.
  unfold range. replace (Z.to_nat (Z.of_nat k + 1)) with (S k) by lia. reflexivity.
Qed.

(** The sleeps of the retries [i+1 .. i+n] are their delays, in order. *)
Lemma sleeps_attempt_events (config : TaskConfig.t) (agent_id : string) (n : nat) :
  forall i : nat,
    sleeps (flat_map (attempt_events config agent_id) (map Z.of_nat (seq (S i) n)))
    = map (fun j => retry_delay_of config (Z.of_nat j)) (seq (S i) n).
Proof.
  induction n as [|n IH]; intros i; [done|].
  cbn [seq map flat_map]. rewrite sleeps_app, IH. unfold attempt_events.
  rewrite bool_decide_eq_true_2 by lia. reflexivity.
Qed.

Lemma total_snoc (l : list Q) (x : Q) : (total (l ++ [x]) == total l + x)%Q.
Proof.
  induction l as [|y l IH]; simpl.
  - ring.
  - rewrite IH. ring.
Qed.

(** The delays of the retries 1..k add up to the sum of the spec. *)
Lemma total_backoff (config : TaskConfig.t) (k : nat) :
  (total (map (fun j => retry_delay_of config (Z.of_nat j)) (seq 1 k))
   == backoff_sum (TaskConfig.retry_delay config) (TaskConfig.retry_backoff config) k)%Q.
Proof.
  induction k as [|k IH]; [reflexivity|].
  rewrite seq_S, map_app. etransitivity; [apply total_snoc|].
  rewrite IH. simpl. unfold retry_delay_of.
  replace (Z.of_nat (S k) - 1)%Z with (Z.of_nat k) by lia. reflexivity.
Qed.

Lemma finally_cleanup_log {Env} (deadline : Q) (agent : BaseAgent.t Env) (ended : signal)
    (state : AgentState.t) (w : World Env) :
  exists tail,
    log (AgentOrchestrator.finally_cleanup deadline agent ended state w).2 = log w ++ tail
    /\ sleeps tail = [].
Proof.
  unfold AgentOrchestrator.finally_cleanup.
  destruct (BaseAgent.cleanup agent) as [hook|]; [|exists []; by rewrite app_nil_r].
  split_run; simpl; by eexists.
Qed.

(** C2. The logic of a step raises on [k <= max_retries] attempts in a
    row and returns on the next, the deadline not cutting the step. Then
    the outcome recorded for the step has [retry_count = k] and status
    completed; the node's events are the start of the agent, then for each
    attempt 0..k its events (for a retry [i]: the sleep of exactly
    [retry_delay * retry_backoff^(i-1)] seconds, then the run of the
    logic), then events that hold no sleep; so the sleeps before the
    successful attempt are those delays for i = 1..k, and they add up to
    the sum over i = 1..k of [retry_delay * retry_backoff^(i-1)]. *)
Theorem retried_step_completes {Env} (self : AgentOrchestrator.t Env) (deadline : Q)
    (agent_id : string) (cls : AgentClass Env) (state : AgentState.t) (w : World Env)
    (k : nat) (e_k : Env) (s_k s' : AgentState.t) (l_k : option exn) :
  AgentOrchestrator.agents self !! agent_id = Some cls ->
  (Z.of_nat k <= TaskConfig.max_retries (AgentOrchestrator.config self))%Z ->
  failing_attempts
    (cls agent_id (AgentOrchestrator.config self) (AgentOrchestrator.tool_registry self))
    k (env w) state None = Some (e_k, s_k, l_k) ->
  value (BaseAgent.execute
           (cls agent_id (AgentOrchestrator.config self)
              (AgentOrchestrator.tool_registry self)) e_k s_k)
  = BaseAgent.Returns s' ->
  (forall replaced,
     (AgentOrchestrator._create_agent_node self agent_id deadline state w).1.1
     <> Abandoned replaced) ->
  exists sig final w' r tail,
    AgentOrchestrator._create_agent_node self agent_id deadline state w = (sig, final, w')
    /\ AgentState.agent_results final !! agent_id = Some r
    /\ AgentResult.retry_count r = Z.of_nat k
    /\ AgentResult.status r = AgentStatus.COMPLETED
    /\ log w'
       = log w
         ++ EvAgentInit agent_id
            :: flat_map
                 (attempt_events (AgentOrchestrator.config self)
                    (BaseAgent.agent_id
                       (cls agent_id (AgentOrchestrator.config self)
                          (AgentOrchestrator.tool_registry self))))
                 (range (Z.of_nat k + 1))
            ++ tail
    /\ sleeps tail = []
    /\ sleeps (drop (length (log w)) (log w'))
       = map (fun i => retry_delay_of (AgentOrchestrator.config self) (Z.of_nat i)) (seq 1 k)
    /\ (total (sleeps (drop (length (log w)) (log w')))
        == backoff_sum (TaskConfig.retry_delay (AgentOrchestrator.config self))
             (TaskConfig.retry_backoff (AgentOrchestrator.config self)) k)%Q.
Proof.
  intros Hcls Hk Hfail Hret Hna.
  pose proof (node_in_time self deadline agent_id cls state w Hcls Hna None) as Hloop_na.
  unfold AgentOrchestrator._create_agent_node in *. rewrite Hcls in *.
  set (agent := cls agent_id _ _) in *.
  set (r0 := AgentResult.init agent_id (AgentState.task_id state) AgentStatus.RUNNING) in *.
  set (w0 := log_event (EvAgentInit agent_id) w) in *.
  destruct (retry_then_return self deadline agent state r0 w0 k e_k s_k s' l_k Hk Hfail Hret
              Hloop_na)
    as (w' & Heq & Hlog).
  cbv zeta in Hna |- *. rewrite Heq in Hna |- *.
  match goal with
  | |- context [AgentOrchestrator.finally_cleanup ?d ?a ?en ?s ?ww] =>
      pose proof (finally_cleanup_state d a en s ww) as Hst;
      destruct (finally_cleanup_log d a en s ww) as (tail & Htail & Hquiet);
      destruct (AgentOrchestrator.finally_cleanup d a en s ww) as [[sg st'] w2]
  end.
  simpl in Hst, Htail. subst st'.
  assert (log w2
          = log w ++ EvAgentInit agent_id
              :: flat_map (attempt_events (AgentOrchestrator.config self)
                             (BaseAgent.agent_id agent)) (range (Z.of_nat k + 1)) ++ tail)
    as Hlog2.
  { rewrite Htail, Hlog. subst w0. simpl. by rewrite <- !app_assoc. }
  assert (sleeps (drop (length (log w)) (log w2))
          = map (fun i => retry_delay_of (AgentOrchestrator.config self) (Z.of_nat i))
              (seq 1 k)) as Hsleeps.
  { rewrite Hlog2, drop_app_length. rewrite range_first.
    change (EvAgentInit agent_id :: ?l) with ([EvAgentInit agent_id] ++ l).
    cbn [flat_map]. rewrite !sleeps_app, sleeps_attempt_events, Hquiet.
    simpl. by rewrite app_nil_r. }
  exists sg. eexists. exists w2. eexists. exists tail.
  split; [reflexivity|]. split; [apply lookup_insert_eq|].
  split; [by apply retry_count_after|]. split; [done|].
  split; [done|]. split; [done|]. split; [done|].
  rewrite Hsleeps. apply total_backoff.
Qed.

Lemma retried_step_completes_witness :
  exists sig final w' r tail,
    AgentOrchestrator._create_agent_node Demo.orchestrator "flaky" 300%Q
      (Demo.initial_state "t4") (Demo.w1 2) = (sig, final, w')
    /\ AgentState.agent_results final !! "flaky" = Some r
    /\ AgentResult.retry_count r = Z.of_nat 2
    /\ AgentResult.status r = AgentStatus.COMPLETED
    /\ log w'
       = log (Demo.w1 2)
         ++ EvAgentInit "flaky"
            :: flat_map
                 (attempt_events (AgentOrchestrator.config Demo.orchestrator)
                    (BaseAgent.agent_id
                       (Demo.Flaky "flaky" (AgentOrchestrator.config Demo.orchestrator)
                          (AgentOrchestrator.tool_registry Demo.orchestrator))))
                 (range (Z.of_nat 2 + 1))
            ++ tail
    /\ sleeps tail = []
    /\ sleeps (drop (length (log (Demo.w1 2))) (log w'))
       = map (fun i => retry_delay_of (AgentOrchestrator.config Demo.orchestrator)
                         (Z.of_nat i)) (seq 1 2)
    /\ (total (sleeps (drop (length (log (Demo.w1 2))) (log w')))
        == backoff_sum
             (TaskConfig.retry_delay (AgentOrchestrator.config Demo.orchestrator))
             (TaskConfig.retry_backoff (AgentOrchestrator.config Demo.orchestrator)) 2)%Q.
Proof.
  apply (retried_step_completes Demo.orchestrator 300%Q "flaky" Demo.Flaky
           (Demo.initial_state "t4") (Demo.w1 2) 2 0%nat (Demo.initial_state "t4")
           (Demo.store_result "flaky" (JStr "done") (Demo.initial_state "t4"))
           (Some (Exception "failure 1"))).
  - reflexivity.
  - vm_compute. discriminate.
  - vm_compute. reflexivity.
  - reflexivity.
  - vm_compute. discriminate.
Defined.

(** ** The release hook of a step *)

(** A step of a class without [cleanup] whose attempts end in a return:
    the [finally] clause raises [AttributeError], so the node raises
    although the outcome it recorded is completed. *)
Lemma node_without_cleanup_raises {Env} (self : AgentOrchestrator.t Env) (deadline : Q)
    (agent_id : string) (cls : AgentClass Env) (state s' : AgentState.t)
    (r : AgentResult.t) (w w' : World Env) :
  AgentOrchestrator.agents self !! agent_id = Some cls ->
  BaseAgent.cleanup
    (cls agent_id (AgentOrchestrator.config self) (AgentOrchestrator.tool_registry self))
  = None ->
  AgentOrchestrator._execute_agent_with_retry self deadline
    (cls agent_id (AgentOrchestrator.config self) (AgentOrchestrator.tool_registry self))
    state (AgentResult.init agent_id (AgentState.task_id state) AgentStatus.RUNNING)
    (log_event (EvAgentInit agent_id) w)
  = (Done, s', r, w') ->
  exists final,
    AgentOrchestrator._create_agent_node self agent_id deadline state w
    = (Raise (AttributeError
                (BaseAgent.class_name
                   (cls agent_id (AgentOrchestrator.config self)
                      (AgentOrchestrator.tool_registry self))) "cleanup"),
       final, w')
    /\ AgentResult.status <$> AgentState.agent_results final !! agent_id
       = Some AgentStatus.COMPLETED.
Proof.
  intros Hcls Hnone Hloop. unfold AgentOrchestrator._create_agent_node.
  rewrite Hcls, Hloop. unfold AgentOrchestrator.finally_cleanup. rewrite Hnone.
  eexists. split; [reflexivity|]. simpl. by rewrite lookup_insert_eq.
Qed.

(** C7, on the code. [DataAnalysisAgent], registered as in the
    application, completes its only attempt; no release hook is invoked
    (the class has none), the lookup of [cleanup] raises, and the task of
    this one successful step ends FAILED. *)
Theorem missing_cleanup_fails_completed_step :
  exists final w',
    AgentOrchestrator.execute_task Demo.orchestrator "t3" ["data_analyzer"] None None
      (Demo.w1 0) = (Returned final, w')
    /\ AgentResult.status <$> AgentState.agent_results final !! "data_analyzer"
       = Some AgentStatus.COMPLETED
    /\ AgentState.execution_metadata final !! "status" = Some (MStatus TaskStatus.FAILED)
    /\ AgentState.execution_metadata final !! "error"
       = Some (MStr "'DataAnalysisAgent' object has no attribute 'cleanup'")
    /\ log w' = [EvAgentInit "data_analyzer"; EvAgentExecute "data_analyzer" 0].
Proof.
  do 2 eexists. split; [vm_compute; reflexivity|].
  split; [reflexivity|]. split; [reflexivity|]. split; reflexivity.
Qed.

(** ** Runs under two deadlines *)

(** A suspension that completes under a deadline completes in the same
    way under a later one, and ends by the earlier one. *)
Lemma await_sim {Env} (D D' s : Q) (w w1 : World Env) :
  (D <= D')%Q -> await_ D s w = (true, w1) ->
  await_ D' s w = (true, w1) /\ (now w1 <= D)%Q.
Proof.
  unfold await_. intros Hle.
  destruct (Qle_bool (now w + s) D) eqn:HD; [|discriminate].
  intros [= <-]. apply Qle_bool_iff in HD.
  assert (Qle_bool (now w + s) D' = true) as ->.
  { apply Qle_bool_iff. by eapply Qle_trans. }
  done.
Qed.

Ltac sim_await D D' Hle :=
  match goal with
  | |- context [await_ D ?s ?w] =>
      let H := fresh "Hawait" in
      let H' := fresh "Hlater" in
      let w1 := fresh "w" in
      destruct (await_ D s w) as [[] w1] eqn:H;
      [ destruct (await_sim D D' s w w1 Hle H) as [H' ?]; rewrite H'
      | first [by left | left; by eexists] ]
  end.

(** The retry loop under a deadline [D] is cut by it, or it ends by [D]
    exactly as it does under any later deadline. *)
Lemma attempts_loop_sim {Env} (self : AgentOrchestrator.t Env) (D D' : Q)
    (agent : BaseAgent.t Env) (attempts : list Z) :
  (D <= D')%Q ->
  forall (state : AgentState.t) (r : AgentResult.t) (last : option exn) (w : World Env),
    (now w <= D)%Q ->
    (AgentOrchestrator.attempts_loop self D agent attempts state r last w).1.1.1
    = Abandoned None
    \/ (AgentOrchestrator.attempts_loop self D agent attempts state r last w
        = AgentOrchestrator.attempts_loop self D' agent attempts state r last w
        /\ (now (AgentOrchestrator.attempts_loop self D agent attempts state r last w).2
            <= D)%Q).
Proof.
  intros Hle. induction attempts as [|attempt rest IH]; intros state r last w Hnow.
  - by right.
  - cbn [AgentOrchestrator.attempts_loop]. unfold sleep.
    destruct (bool_decide (0 < attempt)%Z).
    + sim_await D D' Hle.
      destruct (bool_decide (AgentOrchestrator.semaphore self <= 0)%Z); [by left|].
      sim_await D D' Hle.
      destruct (value _) as [s|x s]; [by right|].
      destruct (bool_decide _); [by right | by apply IH].
    + destruct (bool_decide (AgentOrchestrator.semaphore self <= 0)%Z); [by left|].
      sim_await D D' Hle.
      destruct (value _) as [s|x s]; [by right|].
      destruct (bool_decide _); [by right | by apply IH].
Qed.

Lemma finally_cleanup_sim {Env} (D D' : Q) (agent : BaseAgent.t Env) (ended : signal)
    (state : AgentState.t) (w : World Env) :
  (D <= D')%Q -> (now w <= D)%Q ->
  (exists replaced,
     (AgentOrchestrator.finally_cleanup D agent ended state w).1.1 = Abandoned replaced)
  \/ (AgentOrchestrator.finally_cleanup D agent ended state w
      = AgentOrchestrator.finally_cleanup D' agent ended state w
      /\ (now (AgentOrchestrator.finally_cleanup D agent ended state w).2 <= D)%Q).
Proof.
  intros Hle Hnow.
  destruct ended as [|x|replaced]; [| |left; apply finally_cleanup_cancelled].
  all: unfold AgentOrchestrator.finally_cleanup.
  all: destruct (BaseAgent.cleanup agent) as [hook|]; [|by right].
  all: sim_await D D' Hle; destruct (value _); by right.
Qed.

Lemma node_sim {Env} (self : AgentOrchestrator.t Env) (D D' : Q) (agent_id : string)
    (state : AgentState.t) (w : World Env) :
  (D <= D')%Q -> (now w <= D)%Q ->
  (exists replaced,
     (AgentOrchestrator._create_agent_node self agent_id D state w).1.1 = Abandoned replaced)
  \/ (AgentOrchestrator._create_agent_node self agent_id D state w
      = AgentOrchestrator._create_agent_node self agent_id D' state w
      /\ (now (AgentOrchestrator._create_agent_node self agent_id D state w).2 <= D)%Q).
Proof.
  intros Hle Hnow. unfold AgentOrchestrator._create_agent_node.
  destruct (AgentOrchestrator.agents self !! agent_id) as [cls|]; [|by right].
  unfold AgentOrchestrator._execute_agent_with_retry.
  match goal with
  | |- context [AgentOrchestrator.attempts_loop self D ?a ?l ?st ?r ?la ?w0] =>
      destruct (attempts_loop_sim self D D' a l Hle st r la w0 Hnow) as [Hab|[Heq Hend]];
      [|rewrite <- Heq];
      destruct (AgentOrchestrator.attempts_loop self D a l st r la w0) as [[[sig st'] r'] w']
  end.
  - simpl in Hab. subst sig. left. apply finally_cleanup_cancelled.
  - simpl in Hend.
    destruct sig; [| |left; apply finally_cleanup_cancelled]; by apply finally_cleanup_sim.
Qed.

Lemma ainvoke_sim {Env} (self : AgentOrchestrator.t Env) (D D' : Q) (steps : list string) :
  (D <= D')%Q ->
  forall (state : AgentState.t) (w : World Env),
    (now w <= D)%Q ->
    (exists replaced,
       (StateGraph.ainvoke
          (map (fun x => (x, AgentOrchestrator._create_agent_node self x)) steps)
          D state w).1.1 = Abandoned replaced)
    \/ (now (StateGraph.ainvoke
               (map (fun x => (x, AgentOrchestrator._create_agent_node self x)) steps)
               D' state w).2 <= D)%Q.
Proof.
  intros Hle. induction steps as [|a rest IH]; intros state w Hnow; [by right|].
  cbn [map StateGraph.ainvoke].
  destruct (node_sim self D D' a state w Hle Hnow) as [[replaced Hab]|[Heq Hend]].
  - left. exists replaced.
    by destruct (AgentOrchestrator._create_agent_node self a D state w) as [[[] ?] ?].
  - rewrite <- Heq.
    destruct (AgentOrchestrator._create_agent_node self a D state w) as [[[] s1] w1];
      simpl in Hend; [by apply IH | by right | left; by eexists].
Qed.

Lemma build_graph_inv {Env} (self : AgentOrchestrator.t Env) (agent_sequence : list string) :
  forall graph,
    AgentOrchestrator._build_agent_graph self agent_sequence = Returned graph ->
    graph = map (fun x => (x, AgentOrchestrator._create_agent_node self x)) agent_sequence.
Proof.
  induction agent_sequence as [|a rest IH]; intros graph; simpl.
  - by intros [= <-].
  - destruct (AgentOrchestrator.agents self !! a); [|done].
    destruct (AgentOrchestrator._build_agent_graph self rest) as [g|]; [|done].
    intros [= <-]. by rewrite (IH g).
Qed.

(** A plan that exceeds the timeout (under a later deadline it is still
    running when the timeout has passed) is cut at the deadline. *)
Lemma exceeding_plan_is_cut {Env} (self : AgentOrchestrator.t Env) (timeout later : Q)
    (steps : list string) (state : AgentState.t) (w : World Env) :
  (0 <= timeout)%Q ->
  (now w + timeout <= later)%Q ->
  (now w + timeout
   < now (StateGraph.ainvoke
            (map (fun x => (x, AgentOrchestrator._create_agent_node self x)) steps)
            later state w).2)%Q ->
  exists replaced,
    (StateGraph.ainvoke
       (map (fun x => (x, AgentOrchestrator._create_agent_node self x)) steps)
       (now w + timeout)%Q state w).1.1 = Abandoned replaced.
Proof.
  intros Htimeout Hlater Hexceeds.
  assert (now w <= now w + timeout)%Q as Hnow.
  { rewrite <- (Qplus_0_r (now w)) at 1. by apply Qplus_le_r. }
  destruct (ainvoke_sim self _ later steps Hlater state w Hnow) as [Hab|Hend]; [done|].
  exfalso. by apply (Qlt_not_le _ _ Hexceeds).
Qed.

(** ** What comes back from a plan that is cut *)

(** The retry loop that is cut stops at the deadline. *)
Lemma attempts_loop_abandoned_at {Env} (self : AgentOrchestrator.t Env) (D : Q)
    (agent : BaseAgent.t Env) (attempts : list Z) :
  forall (state : AgentState.t) (r : AgentResult.t) (last : option exn) (w : World Env)
         (replaced : option exn),
    (AgentOrchestrator.attempts_loop self D agent attempts state r last w).1.1.1
    = Abandoned replaced ->
    now (AgentOrchestrator.attempts_loop self D agent attempts state r last w).2 = D.
Proof.
  induction attempts as [|attempt rest IH]; intros state r last w replaced.
  - simpl. by destruct last.
  - cbn [AgentOrchestrator.attempts_loop]. unfold sleep.
    split_run; simpl; try done; by apply IH.
Qed.

(** A step of a class without [cleanup] that is cut: the [AttributeError]
    of the lookup takes the place of the cancellation, at the deadline;
    no outcome is recorded for the step. *)
Lemma node_cut_without_cleanup {Env} (self : AgentOrchestrator.t Env) (D : Q)
    (agent_id : string) (cls : AgentClass Env) (state : AgentState.t) (w : World Env)
    (replaced : option exn) :
  AgentOrchestrator.agents self !! agent_id = Some cls ->
  BaseAgent.cleanup
    (cls agent_id (AgentOrchestrator.config self) (AgentOrchestrator.tool_registry self))
  = None ->
  (AgentOrchestrator._create_agent_node self agent_id D state w).1.1 = Abandoned replaced ->
  replaced
  = Some (AttributeError
            (BaseAgent.class_name
               (cls agent_id (AgentOrchestrator.config self)
                  (AgentOrchestrator.tool_registry self))) "cleanup")
  /\ now (AgentOrchestrator._create_agent_node self agent_id D state w).2 = D.
Proof.
  intros Hcls Hnone. unfold AgentOrchestrator._create_agent_node. rewrite Hcls.
  unfold AgentOrchestrator._execute_agent_with_retry.
  match goal with
  | |- context [AgentOrchestrator.attempts_loop ?s ?d ?a ?l ?st ?r ?la ?w0] =>
      pose proof (attempts_loop_abandoned_at s d a l st r la w0) as Hat;
      destruct (AgentOrchestrator.attempts_loop s d a l st r la w0) as [[[sig st'] r'] w']
  end.
  unfold AgentOrchestrator.finally_cleanup. rewrite Hnone.
  destruct sig as [|x|r0]; simpl; [done | done |].
  intros [= <-]. split; [done|]. by apply (Hat r0).
Qed.

Lemma ainvoke_cut_without_cleanup {Env} (self : AgentOrchestrator.t Env) (D : Q)
    (steps : list string) :
  (forall x, x ∈ steps ->
     exists cls,
       AgentOrchestrator.agents self !! x = Some cls
       /\ BaseAgent.cleanup
            (cls x (AgentOrchestrator.config self) (AgentOrchestrator.tool_registry self))
          = None) ->
  forall (state : AgentState.t) (w : World Env) (replaced : option exn),
    (StateGraph.ainvoke
       (map (fun x => (x, AgentOrchestrator._create_agent_node self x)) steps)
       D state w).1.1 = Abandoned replaced ->
    (exists x cls,
       x ∈ steps
       /\ AgentOrchestrator.agents self !! x = Some cls
       /\ replaced
          = Some (AttributeError
                    (BaseAgent.class_name
                       (cls x (AgentOrchestrator.config self)
                          (AgentOrchestrator.tool_registry self))) "cleanup"))
    /\ now (StateGraph.ainvoke
              (map (fun x => (x, AgentOrchestrator._create_agent_node self x)) steps)
              D state w).2 = D.
Proof.
  induction steps as [|a rest IH]; intros Hall state w replaced; [done|].
  cbn [map StateGraph.ainvoke].
  destruct (Hall a ltac:(by left)) as (cls & Hcls & Hnone).
  pose proof (node_cut_without_cleanup self D a cls state w) as Ha.
  destruct (AgentOrchestrator._create_agent_node self a D state w) as [[[|x|r0] s1] w1].
  - intros Hab.
    destruct (IH (fun x Hx => Hall x ltac:(by right)) s1 w1 replaced Hab)
      as [(x & cls' & Hx & Hcls' & Hr) Hnow].
    split; [|done]. exists x, cls'. split; [by right | done].
  - done.
  - simpl. intros [= <-]. destruct (Ha r0 Hcls Hnone eq_refl) as [Hr Hnow].
    split; [|done]. exists a, cls. split; [by left | done].
Qed.

(** The retry loop has no [finally] clause: when it is cut, the
    cancellation leaves it as it is. *)
Lemma attempts_loop_cut {Env} (self : AgentOrchestrator.t Env) (D : Q)
    (agent : BaseAgent.t Env) (attempts : list Z) :
  forall (state : AgentState.t) (r : AgentResult.t) (last : option exn) (w : World Env)
         (replaced : option exn),
    (AgentOrchestrator.attempts_loop self D agent attempts state r last w).1.1.1
    = Abandoned replaced ->
    replaced = None.
Proof.
  induction attempts as [|attempt rest IH]; intros state r last w replaced.
  - simpl. by destruct last.
  - cbn [AgentOrchestrator.attempts_loop]. unfold sleep.
    split_run; simpl; try congruence; by apply IH.
Qed.

(** A step of a class whose release hook returns, when it is cut: the
    cancellation comes back as it is. *)
Lemma node_cut_with_hook {Env} (self : AgentOrchestrator.t Env) (D : Q)
    (agent_id : string) (cls : AgentClass Env) (hook : Env -> awaited Env (outcome unit))
    (state : AgentState.t) (w : World Env) (replaced : option exn) :
  AgentOrchestrator.agents self !! agent_id = Some cls ->
  BaseAgent.cleanup
    (cls agent_id (AgentOrchestrator.config self) (AgentOrchestrator.tool_registry self))
  = Some hook ->
  (forall e, value (hook e) = Returned tt) ->
  (AgentOrchestrator._create_agent_node self agent_id D state w).1.1 = Abandoned replaced ->
  replaced = None.
Proof.
  intros Hcls Hhook Hret. unfold AgentOrchestrator._create_agent_node. rewrite Hcls.
  unfold AgentOrchestrator._execute_agent_with_retry.
  match goal with
  | |- context [AgentOrchestrator.attempts_loop ?s ?d ?a ?l ?st ?r ?la ?w0] =>
      pose proof (attempts_loop_cut s d a l st r la w0) as Hnone;
      destruct (AgentOrchestrator.attempts_loop s d a l st r la w0) as [[[sig st'] r'] w']
  end.
  unfold AgentOrchestrator.finally_cleanup. rewrite Hhook, Hret.
  destruct sig as [|x|r0]; simpl.
  - split_run; simpl; congruence.
  - split_run; simpl; congruence.
  - intros [= <-]. by apply Hnone.
Qed.

Lemma ainvoke_cut_with_hooks {Env} (self : AgentOrchestrator.t Env) (D : Q)
    (steps : list string) :
  (forall x, x ∈ steps ->
     exists cls hook,
       AgentOrchestrator.agents self !! x = Some cls
       /\ BaseAgent.cleanup
            (cls x (AgentOrchestrator.config self) (AgentOrchestrator.tool_registry self))
          = Some hook
       /\ forall e, value (hook e) = Returned tt) ->
  forall (state : AgentState.t) (w : World Env) (replaced : option exn),
    (StateGraph.ainvoke
       (map (fun x => (x, AgentOrchestrator._create_agent_node self x)) steps)
       D state w).1.1 = Abandoned replaced ->
    replaced = None.
Proof.
  induction steps as [|a rest IH]; intros Hall state w replaced; [done|].
  cbn [map StateGraph.ainvoke].
  destruct (Hall a ltac:(by left)) as (cls & hook & Hcls & Hhook & Hret).
  pose proof (node_cut_with_hook self D a cls hook state w) as Ha.
  destruct (AgentOrchestrator._create_agent_node self a D state w) as [[[|x|r0] s1] w1].
  - apply IH. intros x Hx. apply Hall. by right.
  - done.
  - simpl. intros [= <-]. by apply (Ha r0).
Qed.

(** C5, on the code. The plan of a task exceeds the whole-task timeout
    (run under a later deadline, it is still running when [timeout]
    seconds have passed since the start), and its steps are of classes
    without [cleanup], as every agent class of the repository is. Then
    [execute_task] returns at the deadline a state with status FAILED, but
    its error is not "Task timeout": the [finally] clause of the step that
    was cut raises the [AttributeError] of the missing method in place of
    the cancellation, and the task reports that. *)
Theorem cut_plan_without_cleanup_hides_timeout {Env} (self : AgentOrchestrator.t Env)
    (task_id : string) (agent_sequence : list string)
    (initial_data : option (gmap string json)) (custom_config : option TaskConfig.t)
    (w : World Env) (graph : list (string * node Env)) (later : Q) :
  AgentOrchestrator._build_agent_graph self agent_sequence = Returned graph ->
  (forall x, x ∈ agent_sequence ->
     exists cls,
       AgentOrchestrator.agents self !! x = Some cls
       /\ BaseAgent.cleanup
            (cls x (AgentOrchestrator.config self) (AgentOrchestrator.tool_registry self))
          = None) ->
  (0 <= TaskConfig.timeout (default (AgentOrchestrator.config self) custom_config))%Q ->
  (now w + TaskConfig.timeout (default (AgentOrchestrator.config self) custom_config)
   <= later)%Q ->
  (now w + TaskConfig.timeout (default (AgentOrchestrator.config self) custom_config)
   < now (StateGraph.ainvoke graph later
            (AgentState.mk task_id ∅ (default ∅ initial_data) ∅) w).2)%Q ->
  exists final w' x cls,
    AgentOrchestrator.execute_task self task_id agent_sequence initial_data custom_config w
    = (Returned final, w')
    /\ now w'
       = (now w + TaskConfig.timeout (default (AgentOrchestrator.config self) custom_config))%Q
    /\ x ∈ agent_sequence
    /\ AgentOrchestrator.agents self !! x = Some cls
    /\ AgentState.execution_metadata final !! "status" = Some (MStatus TaskStatus.FAILED)
    /\ AgentState.execution_metadata final !! "error"
       = Some (MStr (exn_msg
                       (AttributeError
                          (BaseAgent.class_name
                             (cls x (AgentOrchestrator.config self)
                                (AgentOrchestrator.tool_registry self))) "cleanup")))
    /\ AgentState.execution_metadata final !! "error" <> Some (MStr "Task timeout").
Proof.
  intros Hbuild Hnone Htimeout Hlater Hexceeds.
  pose proof (build_graph_inv self agent_sequence graph Hbuild) as ->.
  set (D := (now w + TaskConfig.timeout _)%Q) in *.
  set (state0 := AgentState.mk task_id ∅ (default ∅ initial_data) ∅) in *.
  destruct (exceeding_plan_is_cut self _ later agent_sequence state0 w Htimeout Hlater
              Hexceeds) as [replaced Hab].
  fold D in Hab.
  destruct (ainvoke_cut_without_cleanup self D agent_sequence Hnone state0 w replaced Hab)
    as [(x & cls & Hx & Hcls & ->) Hnow].
  destruct (StateGraph.ainvoke
              (map (fun x => (x, AgentOrchestrator._create_agent_node self x))
                 agent_sequence) D state0 w) as [[sig st] w'] eqn:Hrun.
  simpl in Hab, Hnow. subst sig.
  unfold AgentOrchestrator.execute_task. rewrite Hbuild. fold D state0. rewrite Hrun.
  rewrite bool_decide_eq_false_2 by done.
  eexists _, w', x, cls. split; [reflexivity|].
  split; [done|]. split; [done|]. split; [done|]. simpl.
  rewrite lookup_insert_eq, lookup_insert_ne, lookup_insert_eq by done.
  split; [done|]. split; [done|]. simpl. discriminate.
Qed.

Lemma cut_plan_without_cleanup_hides_timeout_witness :
  exists final w' x cls,
    AgentOrchestrator.execute_task Cases.orchestrator "t9" ["chart_generator"] None
      (Some Demo.tight_config) (Demo.w1 0)
    = (Returned final, w')
    /\ now w'
       = (now (Demo.w1 0)
          + TaskConfig.timeout
              (default (AgentOrchestrator.config Cases.orchestrator)
                 (Some Demo.tight_config)))%Q
    /\ x ∈ ["chart_generator"]
    /\ AgentOrchestrator.agents Cases.orchestrator !! x = Some cls
    /\ AgentState.execution_metadata final !! "status" = Some (MStatus TaskStatus.FAILED)
    /\ AgentState.execution_metadata final !! "error"
       = Some (MStr (exn_msg
                       (AttributeError
                          (BaseAgent.class_name
                             (cls x (AgentOrchestrator.config Cases.orchestrator)
                                (AgentOrchestrator.tool_registry Cases.orchestrator)))
                          "cleanup")))
    /\ AgentState.execution_metadata final !! "error" <> Some (MStr "Task timeout").
Proof.
  apply (cut_plan_without_cleanup_hides_timeout Cases.orchestrator "t9" ["chart_generator"]
           None (Some Demo.tight_config) (Demo.w1 0)
           [("chart_generator",
             AgentOrchestrator._create_agent_node Cases.orchestrator "chart_generator")]
           300%Q).
  - reflexivity.
  - intros x Hx. apply list_elem_of_In in Hx. destruct Hx as [<-|[]].
    exists ChartGenerationAgent.class_. split; reflexivity.
  - vm_compute. discriminate.
  - vm_compute. discriminate.
  - vm_compute. reflexivity.
Defined.

(** X22. The plan of a task exceeds the whole-task timeout (run under a
    later deadline, it is still running when [timeout] seconds have passed
    since the start), and every step of the plan is of a class whose
    [cleanup] returns. Then the cancellation comes back to [wait_for] as
    it is, and [execute_task] returns (it does not raise) a state with
    status FAILED and the error "Task timeout". *)
Theorem cut_plan_with_release_hooks_times_out {Env} (self : AgentOrchestrator.t Env)
    (task_id : string) (agent_sequence : list string)
    (initial_data : option (gmap string json)) (custom_config : option TaskConfig.t)
    (w : World Env) (graph : list (string * node Env)) (later : Q) :
  AgentOrchestrator._build_agent_graph self agent_sequence = Returned graph ->
  (forall x, x ∈ agent_sequence ->
     exists cls hook,
       AgentOrchestrator.agents self !! x = Some cls
       /\ BaseAgent.cleanup
            (cls x (AgentOrchestrator.config self) (AgentOrchestrator.tool_registry self))
          = Some hook
       /\ forall e, value (hook e) = Returned tt) ->
  (0 <= TaskConfig.timeout (default (AgentOrchestrator.config self) custom_config))%Q ->
  (now w + TaskConfig.timeout (default (AgentOrchestrator.config self) custom_config)
   <= later)%Q ->
  (now w + TaskConfig.timeout (default (AgentOrchestrator.config self) custom_config)
   < now (StateGraph.ainvoke graph later
            (AgentState.mk task_id ∅ (default ∅ initial_data) ∅) w).2)%Q ->
  exists final w',
    AgentOrchestrator.execute_task self task_id agent_sequence initial_data custom_config w
    = (Returned final, w')
    /\ AgentState.execution_metadata final !! "status" = Some (MStatus TaskStatus.FAILED)
    /\ AgentState.execution_metadata final !! "error" = Some (MStr "Task timeout").
Proof.
  intros Hbuild Hhooks Htimeout Hlater Hexceeds.
  pose proof (build_graph_inv self agent_sequence graph Hbuild) as Hgraph.
  rewrite Hgraph in Hexceeds.
  set (D := (now w + TaskConfig.timeout _)%Q) in *.
  set (state0 := AgentState.mk task_id ∅ (default ∅ initial_data) ∅) in *.
  destruct (exceeding_plan_is_cut self _ later agent_sequence state0 w Htimeout Hlater
              Hexceeds) as [replaced Hab].
  fold D in Hab.
  pose proof (ainvoke_cut_with_hooks self D agent_sequence Hhooks state0 w replaced Hab)
    as ->.
  destruct (StateGraph.ainvoke
              (map (fun x => (x, AgentOrchestrator._create_agent_node self x))
                 agent_sequence) D state0 w) as [[sig st] w'] eqn:Hrun.
  simpl in Hab. subst sig. rewrite <- Hgraph in Hrun.
  destruct (abandoned_plan_gives_task_timeout self task_id agent_sequence initial_data
              custom_config w w' graph st Hbuild Hrun) as (final & Heq & Hst & Herr).
  by exists final, w'.
Qed.

Lemma cut_plan_with_release_hooks_times_out_witness :
  exists final w',
    AgentOrchestrator.execute_task Demo.orchestrator "t2" ["b"] None (Some Demo.short_config)
      (Demo.w1 0) = (Returned final, w')
    /\ AgentState.execution_metadata final !! "status" = Some (MStatus TaskStatus.FAILED)
    /\ AgentState.execution_metadata final !! "error" = Some (MStr "Task timeout").
Proof.
  apply (cut_plan_with_release_hooks_times_out Demo.orchestrator "t2" ["b"] None
           (Some Demo.short_config) (Demo.w1 0)
           [("b", AgentOrchestrator._create_agent_node Demo.orchestrator "b")] 300%Q).
  - reflexivity.
  - intros x Hx. apply list_elem_of_In in Hx. destruct Hx as [<-|[]].
    exists Demo.Failing, Demo.release. split; [reflexivity|]. split; reflexivity.
  - vm_compute. discriminate.
  - vm_compute. discriminate.
  - vm_compute. reflexivity.
Defined.

(** ** The release hook of a class that has one *)

Lemma released_app (l1 l2 : list event) : released (l1 ++ l2) = released l1 ++ released l2.
Proof. apply omap_app. Qed.

Lemma attempts_loop_released {Env} (self : AgentOrchestrator.t Env) (deadline : Q)
    (agent : BaseAgent.t Env) (attempts : list Z) :
  forall (state : AgentState.t) (r : AgentResult.t) (last : option exn) (w : World Env),
    released (log (AgentOrchestrator.attempts_loop self deadline agent attempts state r last w).2)
    = released (log w).
Proof.
  induction attempts as [|attempt rest IH]; intros state r last w; [done|].
  simpl. unfold sleep. split_run; simpl; rewrite ?IH; simpl;
    rewrite ?released_app; simpl; rewrite ?app_nil_r; done.
Qed.

(** X23. For a registered class that defines [cleanup], every run of the
    node invokes the hook once, as its last action: when the attempts
    ended in a return, when they ended in a raise, and when the deadline
    cut them. *)
Lemma node_releases_once {Env} (self : AgentOrchestrator.t Env) (deadline : Q)
    (agent_id : string) (cls : AgentClass Env)
    (hook : Env -> awaited Env (outcome unit)) (state : AgentState.t) (w : World Env) :
  AgentOrchestrator.agents self !! agent_id = Some cls ->
  BaseAgent.cleanup
    (cls agent_id (AgentOrchestrator.config self) (AgentOrchestrator.tool_registry self))
  = Some hook ->
  released (log (AgentOrchestrator._create_agent_node self agent_id deadline state w).2)
  = released (log w)
    ++ [BaseAgent.agent_id
          (cls agent_id (AgentOrchestrator.config self)
             (AgentOrchestrator.tool_registry self))]
  /\ last (log (AgentOrchestrator._create_agent_node self agent_id deadline state w).2)
     = Some (EvAgentCleanup
               (BaseAgent.agent_id
                  (cls agent_id (AgentOrchestrator.config self)
                     (AgentOrchestrator.tool_registry self)))).
Proof.
  intros Hcls Hhook. unfold AgentOrchestrator._create_agent_node. rewrite Hcls.
  unfold AgentOrchestrator._execute_agent_with_retry.
  match goal with
  | |- context [AgentOrchestrator.attempts_loop ?s ?d ?a ?l ?st ?r ?la ?w0] =>
      pose proof (attempts_loop_released s d a l st r la w0) as Hloop;
      destruct (AgentOrchestrator.attempts_loop s d a l st r la w0) as [[[sig st'] r'] w']
  end.
  simpl in Hloop. rewrite released_app in Hloop. simpl in Hloop.
  rewrite app_nil_r in Hloop.
  destruct sig.
  all: unfold AgentOrchestrator.finally_cleanup; rewrite Hhook.
  all: split_run; simpl; rewrite released_app, last_snoc, Hloop; done.
Qed.

(** The step "b" under a deadline of 0.25 s is cut in the sleep before
    its second retry; its hook is invoked all the same. *)
Lemma node_releases_once_witness :
  released (log (AgentOrchestrator._create_agent_node Demo.orchestrator "b" (1 # 4)%Q
                   (Demo.initial_state "t2") (Demo.w1 0)).2)
  = released (log (Demo.w1 0))
    ++ [BaseAgent.agent_id
          (Demo.Failing "b" (AgentOrchestrator.config Demo.orchestrator)
             (AgentOrchestrator.tool_registry Demo.orchestrator))]
  /\ last (log (AgentOrchestrator._create_agent_node Demo.orchestrator "b" (1 # 4)%Q
                  (Demo.initial_state "t2") (Demo.w1 0)).2)
     = Some (EvAgentCleanup
               (BaseAgent.agent_id
                  (Demo.Failing "b" (AgentOrchestrator.config Demo.orchestrator)
                     (AgentOrchestrator.tool_registry Demo.orchestrator)))).
Proof.
  apply (node_releases_once Demo.orchestrator (1 # 4)%Q "b" Demo.Failing Demo.release
           (Demo.initial_state "t2") (Demo.w1 0)).
  - reflexivity.
  - reflexivity.
Defined.

(** ** The registry as a dict *)

Lemma dict_get_set {V} (k k' : string) (v : V) (d : list (string * V)) :
  dict_get k' (dict_set k v d) = if bool_decide (k' = k) then Some v else dict_get k' d.
Proof.
  induction d as [|[k0 v0] d IH]; simpl.
  - done.
  - destruct (bool_decide (k = k0)) eqn:Hk.
    + apply bool_decide_eq_true in Hk as <-. simpl. by destruct (bool_decide (k' = k)).
    + simpl. rewrite IH. apply bool_decide_eq_false in Hk.
      destruct (bool_decide (k' = k0)) eqn:Hk'; [|done].
      apply bool_decide_eq_true in Hk' as ->. by rewrite bool_decide_eq_false_2.
Qed.

Lemma dict_set_keys {V} (k : string) (v : V) (d : list (string * V)) :
  (dict_set k v d).*1 = if bool_decide (k ∈ d.*1) then d.*1 else d.*1 ++ [k].
Proof.
  induction d as [|[k0 v0] d IH]; [done|].
  cbn [dict_set fmap list_fmap fst].
  - destruct (bool_decide (k = k0)) eqn:Hk.
    + apply bool_decide_eq_true in Hk as <-. cbn [fmap list_fmap fst].
      rewrite bool_decide_eq_true_2; [done | by left].
    + apply bool_decide_eq_false in Hk. cbn [fmap list_fmap fst]. rewrite IH.
      destruct (bool_decide (k ∈ d.*1)) eqn:Hin.
      * apply bool_decide_eq_true in Hin. rewrite bool_decide_eq_true_2; [done | by right].
      * apply bool_decide_eq_false in Hin. rewrite bool_decide_eq_false_2; [done|].
        intros [?|?]%elem_of_cons; done.
Qed.

(** X1. Registering a tool makes [get] return it under its name and
    leaves the lookup of every other name as it was: a second tool of the
    same name replaces the first. *)
Theorem register_then_get {Env} (self : ToolRegistry.t Env) (tool : BaseTool.t Env)
    (name : string) :
  ToolRegistry.get (ToolRegistry.register self tool) name
  = if bool_decide (name = BaseTool.name tool) then Some tool
    else ToolRegistry.get self name.
Proof. unfold ToolRegistry.get, ToolRegistry.register. simpl. apply dict_get_set. Qed.

(** X2. Registering under a name that is already listed leaves
    [list_tools] as it is (the name keeps its place); a new name goes to
    the end of the list. *)
Theorem register_list_tools {Env} (self : ToolRegistry.t Env) (tool : BaseTool.t Env) :
  ToolRegistry.list_tools (ToolRegistry.register self tool)
  = if bool_decide (BaseTool.name tool ∈ ToolRegistry.list_tools self)
    then ToolRegistry.list_tools self
    else ToolRegistry.list_tools self ++ [BaseTool.name tool].
Proof. unfold ToolRegistry.list_tools, ToolRegistry.register. simpl. apply dict_set_keys. Qed.

(** X3. Invoking a registered tool through the registry gives what the
    tool's own call gives, stores the tool as the call left it under the
    same name, and changes neither the listed names nor any other tool. *)
Theorem execute_tool_registered {Env} (lib : Library) (self : ToolRegistry.t Env)
    (name : string) (tool : BaseTool.t Env) (kw : kwargs) (w : World Env) :
  ToolRegistry.get self name = Some tool ->
  exists self',
    ToolRegistry.execute_tool lib self name kw w
    = ((BaseTool.__call__ lib tool kw w).1.1, self', (BaseTool.__call__ lib tool kw w).2)
    /\ ToolRegistry.list_tools self' = ToolRegistry.list_tools self
    /\ forall other,
        ToolRegistry.get self' other
        = if bool_decide (other = name) then Some (BaseTool.__call__ lib tool kw w).1.2
          else ToolRegistry.get self other.
Proof.
  intros Hget. unfold ToolRegistry.execute_tool. rewrite Hget.
  destruct (BaseTool.__call__ lib tool kw w) as [[r tool'] w'].
  eexists. split; [reflexivity|]. split.
  - unfold ToolRegistry.list_tools. simpl. rewrite dict_set_keys.
    rewrite bool_decide_eq_true_2; [done|].
    unfold ToolRegistry.get in Hget. clear -Hget.
    induction (ToolRegistry.tools self) as [|[k0 v0] d IH]; simpl in *; [done|].
    destruct (bool_decide (name = k0)) eqn:Hk.
    + apply bool_decide_eq_true in Hk as ->. by left.
    + right. by apply IH.
  - intros other. unfold ToolRegistry.get. simpl. apply dict_get_set.
Qed.

Lemma execute_tool_registered_witness :
  exists self',
    ToolRegistry.execute_tool Demo.lib Demo.registry "echo" Demo.params Demo.w0
    = ((BaseTool.__call__ Demo.lib Demo.echo_tool Demo.params Demo.w0).1.1, self',
       (BaseTool.__call__ Demo.lib Demo.echo_tool Demo.params Demo.w0).2)
    /\ ToolRegistry.list_tools self' = ToolRegistry.list_tools Demo.registry
    /\ forall other,
        ToolRegistry.get self' other
        = if bool_decide (other = "echo")
          then Some (BaseTool.__call__ Demo.lib Demo.echo_tool Demo.params Demo.w0).1.2
          else ToolRegistry.get Demo.registry other.
Proof.
  apply (execute_tool_registered Demo.lib Demo.registry "echo" Demo.echo_tool Demo.params
           Demo.w0).
  reflexivity.
Defined.

(** ** Retries of a tool *)

(** X4. An attempt of the wrapped operation that returns in time ends
    [execute_with_retry] with the result it returned, whatever its status:
    a tool that reports a failure in its result instead of raising is run
    once and is not retried. *)
Theorem returned_result_is_not_retried {Env} (lib : Library) (self : BaseTool.t Env)
    (kw : kwargs) (w : World Env) :
  (0 <= ToolConfig.max_retries (BaseTool.config self))%Z ->
  tool_failure lib self (BaseTool.execute self kw (env w)) = None ->
  exists r w',
    value (BaseTool.execute self kw (env w)) = Returned r
    /\ BaseTool.execute_with_retry lib self kw w = (r, w')
    /\ log w' = log w ++ [EvToolExecute (BaseTool.name self) kw]
    /\ now w' = (now w + seconds (BaseTool.execute self kw (env w)))%Q.
Proof.
  intros Hm Hok. unfold BaseTool.execute_with_retry. rewrite range_succ by done.
  unfold tool_failure in Hok. simpl.
  destruct (_ || _); [done|].
  destruct (value (BaseTool.execute self kw (env w))) as [r|x]; [|done].
  by do 2 eexists.
Qed.

Lemma returned_result_is_not_retried_witness :
  exists r w',
    value (BaseTool.execute Cases.database_tool [] (env Demo.w0)) = Returned r
    /\ BaseTool.execute_with_retry Demo.lib Cases.database_tool [] Demo.w0 = (r, w')
    /\ log w' = log Demo.w0 ++ [EvToolExecute (BaseTool.name Cases.database_tool) []]
    /\ now w'
       = (now Demo.w0 + seconds (BaseTool.execute Cases.database_tool [] (env Demo.w0)))%Q.
Proof.
  apply (returned_result_is_not_retried Demo.lib Cases.database_tool [] Demo.w0).
  - vm_compute. discriminate.
  - reflexivity.
Defined.

Lemma tool_attempts_all_fail {Env} (lib : Library) (self : BaseTool.t Env) (kw : kwargs)
    (n : nat) :
  forall (i : nat) (last : option exn) (w : World Env) (e' : Env) (lastx : option exn),
    (0 <= ToolConfig.max_retries (BaseTool.config self))%Z ->
    (i + n = Z.to_nat (ToolConfig.max_retries (BaseTool.config self)) + 1)%nat ->
    tool_failing_attempts lib self kw n (env w) last = Some (e', lastx) ->
    exists w',
      BaseTool.attempts_loop lib self kw (map Z.of_nat (seq i n)) last w
      = (ToolResult.init (BaseTool.name self) ToolStatus.FAILED (Some (str_exn lastx)), w')
      /\ env w' = e'
      /\ log w' = log w ++ flat_map (tool_attempt_events self kw) (map Z.of_nat (seq i n)).
Proof.
  induction n as [|n IH]; intros i last w e' lastx Hm Hin Hfail.
  - injection Hfail as <- <-. exists w. simpl. by rewrite app_nil_r.
  - cbn [seq map flat_map BaseTool.attempts_loop]. cbn [tool_failing_attempts] in Hfail.
    assert (S i + n = Z.to_nat (ToolConfig.max_retries (BaseTool.config self)) + 1)%nat
      as Hin' by lia.
    set (w1 := if bool_decide (0 < Z.of_nat i)%Z then _ else w).
    assert (env w1 = env w
            /\ log w1 = log w ++ (if bool_decide (0 < Z.of_nat i)%Z
                 then [EvSleep (ToolConfig.retry_delay (BaseTool.config self)
                                * inject_Z (2 ^ (Z.of_nat i - 1)))%Q]
                 else [])) as [Henv Hlog].
    { subst w1. case_bool_decide; simpl; [done | by rewrite app_nil_r]. }
    clearbody w1. rewrite Henv. unfold tool_failure in Hfail.
    destruct (_ || _).
    + match goal with
      | |- context [BaseTool.attempts_loop lib self kw ?l ?la ?w2] =>
          destruct (IH (S i) la w2 e' lastx Hm Hin' Hfail) as (w' & Heq & He & Hl)
      end.
      exists w'. rewrite Heq. split; [done|]. split; [done|].
      rewrite Hl. simpl. rewrite Hlog. unfold tool_attempt_events.
      by rewrite <- !app_assoc.
    + destruct (value (BaseTool.execute self kw (env w))) as [r|x]; [done|].
      destruct (bool_decide (Z.of_nat i = ToolConfig.max_retries (BaseTool.config self)))
        eqn:Hlast.
      * apply bool_decide_eq_true in Hlast.
        assert (n = 0%nat) as -> by lia. injection Hfail as <- <-.
        eexists. split; [reflexivity|]. split; [done|].
        simpl. rewrite Hlog, app_nil_r. unfold tool_attempt_events.
        by rewrite <- !app_assoc.
      * match goal with
        | |- context [BaseTool.attempts_loop lib self kw ?l ?la ?w2] =>
            destruct (IH (S i) la w2 e' lastx Hm Hin' Hfail) as (w' & Heq & He & Hl)
        end.
        exists w'. rewrite Heq. split; [done|]. split; [done|].
        rewrite Hl. simpl. rewrite Hlog. unfold tool_attempt_events.
        by rewrite <- !app_assoc.
Qed.

(** X5. When every one of the [max_retries + 1] attempts fails (it raises,
    or it runs longer than [timeout]), [execute_with_retry] returns (it does
    not raise) a failed result whose error is the message of the last
    failure; retry [i] was preceded by a sleep of [retry_delay * 2^(i-1)]
    seconds, and no attempt beyond [max_retries + 1] was made. *)
Theorem tool_retries_exhausted {Env} (lib : Library) (self : BaseTool.t Env) (kw : kwargs)
    (w : World Env) (e' : Env) (x : exn) :
  (0 <= ToolConfig.max_retries (BaseTool.config self))%Z ->
  tool_failing_attempts lib self kw
    (S (Z.to_nat (ToolConfig.max_retries (BaseTool.config self)))) (env w) None
  = Some (e', Some x) ->
  exists w',
    BaseTool.execute_with_retry lib self kw w
    = (ToolResult.mk (BaseTool.name self) ToolStatus.FAILED JNull (Some (exn_msg x)) 0%Q [],
       w')
    /\ env w' = e'
    /\ log w'
       = log w ++ flat_map (tool_attempt_events self kw)
                    (range (ToolConfig.max_retries (BaseTool.config self) + 1)).
Proof.
  intros Hm Hfail. unfold BaseTool.execute_with_retry, range.
  replace (Z.to_nat (ToolConfig.max_retries (BaseTool.config self) + 1))
    with (S (Z.to_nat (ToolConfig.max_retries (BaseTool.config self)))) by lia.
  assert (0 + S (Z.to_nat (ToolConfig.max_retries (BaseTool.config self)))
          = Z.to_nat (ToolConfig.max_retries (BaseTool.config self)) + 1)%nat as Hn by lia.
  destruct (tool_attempts_all_fail lib self kw _ 0 None w e' (Some x) Hm Hn Hfail)
    as (w' & Heq & He & Hl).
  by exists w'.
Qed.

Lemma tool_retries_exhausted_witness :
  exists w',
    BaseTool.execute_with_retry Demo.lib Cases.down_tool Demo.params Demo.w0
    = (ToolResult.mk (BaseTool.name Cases.down_tool) ToolStatus.FAILED JNull
         (Some (exn_msg (Exception "connection refused"))) 0%Q [], w')
    /\ env w' = tt
    /\ log w'
       = log Demo.w0
         ++ flat_map (tool_attempt_events Cases.down_tool Demo.params)
              (range (ToolConfig.max_retries (BaseTool.config Cases.down_tool) + 1)).
Proof.
  apply (tool_retries_exhausted Demo.lib Cases.down_tool Demo.params Demo.w0 tt
           (Exception "connection refused")).
  - vm_compute. discriminate.
  - reflexivity.
Defined.

(** X6. With a negative [max_retries] the loop has no turn:
    [execute_with_retry] returns a failed result with the error "None"
    (the [str] of the exception it never saw) and the wrapped operation is
    not run. *)
Theorem no_attempt_allowed {Env} (lib : Library) (self : BaseTool.t Env) (kw : kwargs)
    (w : World Env) :
  (ToolConfig.max_retries (BaseTool.config self) < 0)%Z ->
  BaseTool.execute_with_retry lib self kw w
  = (ToolResult.mk (BaseTool.name self) ToolStatus.FAILED JNull (Some "None"%string) 0%Q [],
     w).
Proof.
  intros Hm. unfold BaseTool.execute_with_retry, range.
  replace (Z.to_nat (ToolConfig.max_retries (BaseTool.config self) + 1)) with 0%nat by lia.
  reflexivity.
Qed.

Lemma no_attempt_allowed_witness :
  BaseTool.execute_with_retry Demo.lib Cases.barred_tool Demo.params Demo.w0
  = (ToolResult.mk (BaseTool.name Cases.barred_tool) ToolStatus.FAILED JNull
       (Some "None"%string) 0%Q [], Demo.w0).
Proof.
  apply (no_attempt_allowed Demo.lib Cases.barred_tool Demo.params Demo.w0).
  reflexivity.
Defined.

(** ** More on the cache *)

(** X7. A call whose result is not completed leaves the tool as it was:
    failed results are never put into the cache. *)
Theorem failed_result_is_not_cached {Env} (lib : Library) (self self' : BaseTool.t Env)
    (kw : kwargs) (w w' : World Env) (r : ToolResult.t) :
  BaseTool.__call__ lib self kw w = (Returned r, self', w') ->
  ToolResult.status r <> ToolStatus.COMPLETED ->
  self' = self.
Proof.
  unfold BaseTool.__call__. intros Hcall Hst.
  destruct (BaseTool._get_cached_result self _ w) as [[c|]|x].
  - by injection Hcall as _ <- _.
  - destruct (BaseTool.execute_with_retry lib self kw w) as [r' w1].
    injection Hcall as -> <- _. by rewrite bool_decide_eq_false_2.
  - done.
Qed.

Lemma failed_result_is_not_cached_witness :
  (BaseTool.__call__ Demo.lib Cases.down_tool Demo.params Demo.w0).1.2 = Cases.down_tool.
Proof.
  apply (failed_result_is_not_cached Demo.lib Cases.down_tool
           (BaseTool.__call__ Demo.lib Cases.down_tool Demo.params Demo.w0).1.2
           Demo.params Demo.w0
           (BaseTool.__call__ Demo.lib Cases.down_tool Demo.params Demo.w0).2
           (ToolResult.init "down" ToolStatus.FAILED (Some "connection refused"))).
  - vm_compute. reflexivity.
  - discriminate.
Defined.

(** X8. With [cache_enabled = False] a call runs the wrapped operation
    every time, whatever the cache holds, and leaves the tool as it was. *)
Theorem disabled_cache_is_bypassed {Env} (lib : Library) (self : BaseTool.t Env)
    (kw : kwargs) (w : World Env) :
  ToolConfig.cache_enabled (BaseTool.config self) = false ->
  (0 <= ToolConfig.max_retries (BaseTool.config self))%Z ->
  exists r w' evs,
    BaseTool.__call__ lib self kw w = (Returned r, self, w')
    /\ log w' = log w ++ EvToolExecute (BaseTool.name self) kw :: evs.
Proof.
  intros Hoff Hm. unfold BaseTool.__call__, BaseTool._get_cached_result,
    BaseTool._is_cache_valid, BaseTool._cache_result. rewrite Hoff. simpl.
  destruct (execute_with_retry_executes lib self kw w Hm) as [evs Hevs].
  destruct (BaseTool.execute_with_retry lib self kw w) as [r w'].
  exists r, w', evs. split; [|done]. by destruct (bool_decide _).
Qed.

Lemma disabled_cache_is_bypassed_witness :
  exists r w' evs,
    BaseTool.__call__ Demo.lib Cases.uncached_tool Demo.params Demo.w0
    = (Returned r, Cases.uncached_tool, w')
    /\ log w' = log Demo.w0 ++ EvToolExecute (BaseTool.name Cases.uncached_tool) Demo.params
                               :: evs.
Proof.
  apply (disabled_cache_is_bypassed Demo.lib Cases.uncached_tool Demo.params Demo.w0).
  - reflexivity.
  - vm_compute. discriminate.
Defined.

Lemma cache_wf_init {Env} (name : string) (config : option ToolConfig.t)
    (execute : kwargs -> Env -> awaited Env (outcome ToolResult.t))
    (cleanup : Env -> awaited Env (outcome unit)) :
  cache_wf (BaseTool.init name config execute cleanup).
Proof. intros k [x Hx]. simpl in Hx. by rewrite lookup_empty in Hx. Qed.

(** X9. A tool in whose cache every stamped key has a result, as in a new
    tool, never raises from a call (the cache lookup cannot miss), and the
    call keeps the cache in that shape. *)
Theorem call_keeps_cache_well_formed {Env} (lib : Library) (self : BaseTool.t Env)
    (kw : kwargs) (w : World Env) :
  cache_wf self ->
  exists r self' w',
    BaseTool.__call__ lib self kw w = (Returned r, self', w') /\ cache_wf self'.
Proof.
  intros Hwf. unfold BaseTool.__call__, BaseTool._get_cached_result,
    BaseTool._is_cache_valid.
  destruct (negb _).
  - destruct (BaseTool.execute_with_retry lib self kw w) as [r w'].
    do 3 eexists. split; [reflexivity|].
    destruct (bool_decide _); [|done]. unfold BaseTool._cache_result.
    destruct (ToolConfig.cache_enabled _); [|done].
    intros k. simpl. destruct (decide (BaseTool._get_cache_key lib self kw = k)) as [->|Hne].
    + rewrite !lookup_insert_eq. eauto.
    + rewrite !lookup_insert_ne by done. apply Hwf.
  - destruct (BaseTool._cache_timestamps self !! _) as [stamp|] eqn:Hs.
    + destruct (Qlt_bool _ _).
      * destruct (Hwf _ (mk_is_Some _ _ Hs)) as [c ->]. by do 3 eexists.
      * destruct (BaseTool.execute_with_retry lib self kw w) as [r w'].
        do 3 eexists. split; [reflexivity|].
        destruct (bool_decide _); [|done]. unfold BaseTool._cache_result.
        destruct (ToolConfig.cache_enabled _); [|done].
        intros k. simpl.
        destruct (decide (BaseTool._get_cache_key lib self kw = k)) as [->|Hne].
        -- rewrite !lookup_insert_eq. eauto.
        -- rewrite !lookup_insert_ne by done. apply Hwf.
    + destruct (BaseTool.execute_with_retry lib self kw w) as [r w'].
      do 3 eexists. split; [reflexivity|].
      destruct (bool_decide _); [|done]. unfold BaseTool._cache_result.
      destruct (ToolConfig.cache_enabled _); [|done].
      intros k. simpl.
      destruct (decide (BaseTool._get_cache_key lib self kw = k)) as [->|Hne].
      * rewrite !lookup_insert_eq. eauto.
      * rewrite !lookup_insert_ne by done. apply Hwf.
Qed.

Lemma call_keeps_cache_well_formed_witness :
  exists r self' w',
    BaseTool.__call__ Demo.lib Demo.echo_tool Demo.params Demo.w0 = (Returned r, self', w')
    /\ cache_wf self'.
Proof.
  apply (call_keeps_cache_well_formed Demo.lib Demo.echo_tool Demo.params Demo.w0).
  intros k [x Hx]. simpl in Hx. rewrite lookup_empty in Hx. discriminate.
Defined.




(** ** The database tool *)

Lemma Qlt_bool_false (x y : Q) : (y <= x)%Q -> Qlt_bool x y = false.
Proof.
  intros H. unfold Qlt_bool. apply negb_false_iff. by apply Qle_bool_iff.
Qed.

(** X11. A database query without a connection string or without a query
    text (absent, [None] or empty) is answered, through the tool's call,
    with the failed result "connection_string and query are required":
    the operation is run once, nothing is retried, and the tool (its cache
    included) stays as it was. *)
Theorem database_query_needs_both_parameters {Env} (lib : Library) (self : BaseTool.t Env)
    (kw : kwargs) (w : World Env) :
  BaseTool.execute self = DatabaseFetcherTool.execute (BaseTool.name self) ->
  (0 <= ToolConfig.max_retries (BaseTool.config self))%Z ->
  (0 <= ToolConfig.timeout (BaseTool.config self))%Q ->
  BaseTool._cache_timestamps self !! BaseTool._get_cache_key lib self kw = None ->
  truthy (default JNull (dict_get "connection_string" kw)) = false
  \/ truthy (default JNull (dict_get "query" kw)) = false ->
  exists w',
    BaseTool.__call__ lib self kw w
    = (Returned (ToolResult.mk (BaseTool.name self) ToolStatus.FAILED JNull
                   (Some "connection_string and query are required"%string) 0%Q []),
       self, w')
    /\ log w' = log w ++ [EvToolExecute (BaseTool.name self) kw].
Proof.
  intros Hexec Hm Htimeout Hstamp Hmissing.
  unfold BaseTool.__call__, BaseTool._get_cached_result, BaseTool._is_cache_valid.
  rewrite Hstamp. replace (if negb _ then false else false) with false
    by (by destruct (negb _)).
  unfold BaseTool.execute_with_retry. rewrite range_succ by done.
  cbn [BaseTool.attempts_loop]. rewrite bool_decide_eq_false_2 by lia.
  rewrite Hexec. unfold DatabaseFetcherTool.execute.
  replace (negb (truthy (default JNull (dict_get "connection_string" kw)))
           || negb (truthy (default JNull (dict_get "query" kw)))) with true
    by (destruct Hmissing as [-> | ->]; [done | by rewrite orb_true_r]).
  cbn [seconds value BaseTool.is_TimeoutError]. rewrite (Qlt_bool_false _ _ Htimeout).
  simpl. eexists. split; reflexivity.
Qed.

Lemma database_query_needs_both_parameters_witness :
  exists w',
    BaseTool.__call__ Demo.lib Cases.database_tool [("query", JStr "select 1")] Demo.w0
    = (Returned (ToolResult.mk (BaseTool.name Cases.database_tool) ToolStatus.FAILED JNull
                   (Some "connection_string and query are required"%string) 0%Q []),
       Cases.database_tool, w')
    /\ log w'
       = log Demo.w0
         ++ [EvToolExecute (BaseTool.name Cases.database_tool) [("query", JStr "select 1")]].
Proof.
  apply (database_query_needs_both_parameters Demo.lib Cases.database_tool
           [("query", JStr "select 1")] Demo.w0).
  - reflexivity.
  - vm_compute. discriminate.
  - vm_compute. discriminate.
  - reflexivity.
  - left. reflexivity.
Defined.

(** X12. A database query with a non-empty connection string and a
    non-empty query text, on a tool with caching on and a timeout of at
    least 0.1 s that holds no entry for the parameters, completes with the
    three mock rows and the metadata [query] and [row_count = 3], after one
    run of 0.1 s; the same query made again less than [cache_ttl] seconds
    later is answered from the cache, without another run. *)
Theorem database_query_completes_and_is_cached {Env} (lib : Library)
    (self : BaseTool.t Env) (kw : kwargs) (w : World Env) (c q : string) :
  BaseTool.execute self = DatabaseFetcherTool.execute (BaseTool.name self) ->
  ToolConfig.cache_enabled (BaseTool.config self) = true ->
  (0 <= ToolConfig.max_retries (BaseTool.config self))%Z ->
  ((1 # 10) <= ToolConfig.timeout (BaseTool.config self))%Q ->
  BaseTool._cache_timestamps self !! BaseTool._get_cache_key lib self kw = None ->
  dict_get "connection_string" kw = Some (JStr c) -> c <> ""%string ->
  dict_get "query" kw = Some (JStr q) -> q <> ""%string ->
  exists self1 w1,
    BaseTool.__call__ lib self kw w
    = (Returned (ToolResult.mk (BaseTool.name self) ToolStatus.COMPLETED
                   DatabaseFetcherTool.result_data None (1 # 10)%Q
                   [("query"%string, JStr q); ("row_count"%string, JInt 3)]),
       self1, w1)
    /\ log w1 = log w ++ [EvToolExecute (BaseTool.name self) kw]
    /\ now w1 = (now w + (1 # 10))%Q
    /\ forall w2 : World Env,
        (now w2 - now w1 < inject_Z (ToolConfig.cache_ttl (BaseTool.config self)))%Q ->
        BaseTool.__call__ lib self1 kw w2
        = (Returned (ToolResult.mk (BaseTool.name self) ToolStatus.COMPLETED
                       DatabaseFetcherTool.result_data None (1 # 10)%Q
                       [("query"%string, JStr q); ("row_count"%string, JInt 3)]),
           self1, w2).
Proof.
  intros Hexec Hen Hm Htimeout Hstamp Hc Hcne Hq Hqne.
  assert (String.eqb c "" = false) as Hc' by (by apply String.eqb_neq).
  assert (String.eqb q "" = false) as Hq' by (by apply String.eqb_neq).
  unfold BaseTool.__call__ at 1.
  unfold BaseTool._get_cached_result, BaseTool._is_cache_valid.
  rewrite Hstamp, Hen. cbn [negb].
  unfold BaseTool.execute_with_retry. rewrite range_succ by done.
  cbn [BaseTool.attempts_loop]. rewrite bool_decide_eq_false_2 by lia.
  rewrite Hexec. unfold DatabaseFetcherTool.execute. rewrite Hc, Hq.
  cbn [default from_option id truthy slice_check negb orb]. rewrite Hc', Hq'.
  cbn [negb orb seconds value BaseTool.is_TimeoutError].
  rewrite (Qlt_bool_false _ _ Htimeout). cbn [orb].
  rewrite bool_decide_eq_true_2 by done.
  unfold BaseTool._cache_result. rewrite Hen.
  do 2 eexists. split; [reflexivity|]. split; [reflexivity|]. split; [reflexivity|].
  intros w2 Hage.
  match goal with
  | |- BaseTool.__call__ lib ?s1 kw w2 = (Returned ?r, _, _) =>
      apply (call_cache_hit lib s1 kw w2 r
               (now (advance (1 # 10)
                       (with_env (env w) (log_event (EvToolExecute (BaseTool.name self) kw) w)))))
  end.
  - exact Hen.
  - apply lookup_insert_eq.
  - apply lookup_insert_eq.
  - exact Hage.
Qed.

Lemma database_query_completes_and_is_cached_witness :
  exists self1 w1,
    BaseTool.__call__ Demo.lib Cases.database_tool Cases.query Demo.w0
    = (Returned (ToolResult.mk (BaseTool.name Cases.database_tool) ToolStatus.COMPLETED
                   DatabaseFetcherTool.result_data None (1 # 10)%Q
                   [("query"%string, JStr "select 1"); ("row_count"%string, JInt 3)]),
       self1, w1)
    /\ log w1 = log Demo.w0 ++ [EvToolExecute (BaseTool.name Cases.database_tool) Cases.query]
    /\ now w1 = (now Demo.w0 + (1 # 10))%Q
    /\ forall w2 : World unit,
        (now w2 - now w1
         < inject_Z (ToolConfig.cache_ttl (BaseTool.config Cases.database_tool)))%Q ->
        BaseTool.__call__ Demo.lib self1 Cases.query w2
        = (Returned (ToolResult.mk (BaseTool.name Cases.database_tool) ToolStatus.COMPLETED
                       DatabaseFetcherTool.result_data None (1 # 10)%Q
                       [("query"%string, JStr "select 1"); ("row_count"%string, JInt 3)]),
           self1, w2).
Proof.
  apply (database_query_completes_and_is_cached Demo.lib Cases.database_tool Cases.query
           Demo.w0 "sqlite://" "select 1").
  - reflexivity.
  - reflexivity.
  - vm_compute. discriminate.
  - vm_compute. discriminate.
  - reflexivity.
  - reflexivity.
  - discriminate.
  - reflexivity.
  - discriminate.
Defined.

(** ** What a step never does *)

Lemma executions_app (l1 l2 : list event) :
  executions (l1 ++ l2) = executions l1 ++ executions l2.
Proof. apply omap_app. Qed.

(** The loop runs the logic at most once per attempt of its list, and
    sleeps at most once per attempt. *)
Lemma attempts_loop_bounded {Env} (self : AgentOrchestrator.t Env) (deadline : Q)
    (agent : BaseAgent.t Env) (attempts : list Z) :
  forall (state : AgentState.t) (r : AgentResult.t) (last : option exn) (w : World Env),
    length (executions
              (log (AgentOrchestrator.attempts_loop self deadline agent attempts state r
                      last w).2))
    <= length (executions (log w)) + length attempts
    /\ length (sleeps
                 (log (AgentOrchestrator.attempts_loop self deadline agent attempts state r
                         last w).2))
       <= length (sleeps (log w)) + length attempts.
Proof.
  induction attempts as [|attempt rest IH]; intros state r last w.
  - simpl. lia.
  - cbn [AgentOrchestrator.attempts_loop]. unfold sleep.
    split_run; simpl;
      try (match goal with
           | |- context [AgentOrchestrator.attempts_loop self deadline agent rest ?s ?r' ?l ?w'] =>
               destruct (IH s r' l w') as [IH1 IH2]; revert IH1 IH2
           end);
      simpl; rewrite ?executions_app, ?sleeps_app, ?length_app; simpl; lia.
Qed.

(** X13. Whatever the logic of a step does, one run of its node runs the
    logic at most [max_retries + 1] times and sleeps at most [max_retries]
    times between attempts. *)
Theorem step_attempts_are_bounded {Env} (self : AgentOrchestrator.t Env)
    (agent_id : string) (deadline : Q) (state : AgentState.t) (w : World Env) :
  length (executions
            (log (AgentOrchestrator._create_agent_node self agent_id deadline state w).2))
  <= length (executions (log w))
     + Z.to_nat (TaskConfig.max_retries (AgentOrchestrator.config self) + 1)
  /\ length (sleeps
               (log (AgentOrchestrator._create_agent_node self agent_id deadline state w).2))
     <= length (sleeps (log w))
        + Z.to_nat (TaskConfig.max_retries (AgentOrchestrator.config self)).
Proof.
  unfold AgentOrchestrator._create_agent_node.
  destruct (AgentOrchestrator.agents self !! agent_id) as [cls|]; [|simpl; lia].
  set (agent := cls _ _ _).
  set (r0 := AgentResult.init _ _ _).
  set (w0 := log_event (EvAgentInit agent_id) w).
  assert (length (executions
                    (log (AgentOrchestrator._execute_agent_with_retry self deadline agent
                            state r0 w0).2))
          <= length (executions (log w))
             + Z.to_nat (TaskConfig.max_retries (AgentOrchestrator.config self) + 1)
          /\ length (sleeps
                       (log (AgentOrchestrator._execute_agent_with_retry self deadline agent
                               state r0 w0).2))
             <= length (sleeps (log w))
                + Z.to_nat (TaskConfig.max_retries (AgentOrchestrator.config self)))
    as Hloop.
  { unfold AgentOrchestrator._execute_agent_with_retry, range.
    destruct (Z.to_nat (TaskConfig.max_retries (AgentOrchestrator.config self) + 1))
      as [|n] eqn:Hn.
    - simpl. rewrite executions_app, sleeps_app, !length_app. simpl. lia.
    - assert (Z.to_nat (TaskConfig.max_retries (AgentOrchestrator.config self)) = n)
        as -> by lia.
      cbn [seq map AgentOrchestrator.attempts_loop].
      rewrite bool_decide_eq_false_2 by lia.
      split_run; simpl;
        try (match goal with
             | |- context [AgentOrchestrator.attempts_loop self deadline agent ?l ?s ?r' ?la ?w'] =>
                 destruct (attempts_loop_bounded self deadline agent l s r' la w')
                   as [IH1 IH2]; revert IH1 IH2
             end);
        simpl; rewrite ?executions_app, ?sleeps_app, ?length_app, ?length_map, ?length_seq;
        simpl; lia. }
  destruct (AgentOrchestrator._execute_agent_with_retry self deadline agent state r0 w0)
    as [[[sig st] r1] w1].
  simpl in Hloop.
  destruct sig.
  all: unfold AgentOrchestrator.finally_cleanup;
    destruct (BaseAgent.cleanup agent) as [hook|]; [|done];
    split_run; simpl; rewrite ?executions_app, ?sleeps_app, ?length_app; simpl; lia.
Qed.

(** ** The configuration of a task *)

(** X14. Of a task's own configuration only [timeout] is used: two
    configurations with the same timeout give the same run, whatever their
    [max_retries], [retry_delay], [retry_backoff] and [concurrent_agents]
    (the retries and the semaphore follow the orchestrator's
    configuration). *)
Theorem custom_config_only_sets_timeout {Env} (self : AgentOrchestrator.t Env)
    (task_id : string) (agent_sequence : list string)
    (initial_data : option (gmap string json)) (c1 c2 : TaskConfig.t) (w : World Env) :
  TaskConfig.timeout c1 = TaskConfig.timeout c2 ->
  AgentOrchestrator.execute_task self task_id agent_sequence initial_data (Some c1) w
  = AgentOrchestrator.execute_task self task_id agent_sequence initial_data (Some c2) w.
Proof. intros Ht. unfold AgentOrchestrator.execute_task. simpl. by rewrite Ht. Qed.

Lemma custom_config_only_sets_timeout_witness :
  AgentOrchestrator.execute_task Demo.orchestrator "t6" ["a"; "b"] None
    (Some (TaskConfig.mk 300%Q 0%Z 5%Q 3%Q 1%Z)) (Demo.w1 0)
  = AgentOrchestrator.execute_task Demo.orchestrator "t6" ["a"; "b"] None
      (Some (TaskConfig.mk 300%Q 7%Z 1%Q 1%Q 9%Z)) (Demo.w1 0).
Proof.
  apply (custom_config_only_sets_timeout Demo.orchestrator "t6" ["a"; "b"] None
           (TaskConfig.mk 300%Q 0%Z 5%Q 3%Q 1%Z) (TaskConfig.mk 300%Q 7%Z 1%Q 1%Q 9%Z)
           (Demo.w1 0)).
  reflexivity.
Defined.

(** ** How a failing step shows in the task *)

Lemma failing_attempts_same {Env} (agent : BaseAgent.t Env) (e : Env)
    (state : AgentState.t) (x : exn) :
  value (BaseAgent.execute agent e state) = BaseAgent.Raises x state ->
  env_after (BaseAgent.execute agent e state) = e ->
  forall (n : nat) (last : option exn),
    failing_attempts agent (S n) e state last = Some (e, state, Some x).
Proof.
  intros Hv He. induction n as [|n IH]; intros last.
  - simpl. by rewrite Hv, He.
  - remember (S n) as n1. simpl. rewrite Hv, He. subst n1. apply IH.
Qed.

(** A hook that returns leaves the way the node ends as the [try] set
    it. *)
Lemma finally_cleanup_returning {Env} (deadline : Q) (agent : BaseAgent.t Env)
    (hook : Env -> awaited Env (outcome unit)) (ended : signal) (state : AgentState.t)
    (w : World Env) :
  BaseAgent.cleanup agent = Some hook ->
  (forall e, value (hook e) = Returned tt) ->
  (exists replaced,
     (AgentOrchestrator.finally_cleanup deadline agent ended state w).1.1
     = Abandoned replaced)
  \/ (AgentOrchestrator.finally_cleanup deadline agent ended state w).1 = (ended, state).
Proof.
  intros Hhook Hret. unfold AgentOrchestrator.finally_cleanup. rewrite Hhook, Hret.
  split_run; eauto.
Qed.

(** A class without [cleanup]: however the attempts end, the node raises
    the [AttributeError] of the lookup. *)
Lemma node_without_cleanup {Env} (self : AgentOrchestrator.t Env) (deadline : Q)
    (agent_id : string) (cls : AgentClass Env) (state : AgentState.t) (w : World Env) :
  AgentOrchestrator.agents self !! agent_id = Some cls ->
  BaseAgent.cleanup
    (cls agent_id (AgentOrchestrator.config self) (AgentOrchestrator.tool_registry self))
  = None ->
  (forall replaced,
     (AgentOrchestrator._create_agent_node self agent_id deadline state w).1.1
     <> Abandoned replaced) ->
  (AgentOrchestrator._create_agent_node self agent_id deadline state w).1.1
  = Raise (AttributeError
             (BaseAgent.class_name
                (cls agent_id (AgentOrchestrator.config self)
                   (AgentOrchestrator.tool_registry self))) "cleanup").
Proof.
  intros Hcls Hnone. unfold AgentOrchestrator._create_agent_node. rewrite Hcls.
  destruct (AgentOrchestrator._execute_agent_with_retry _ _ _ _ _ _) as [[[sig st] r1] w1].
  unfold AgentOrchestrator.finally_cleanup. rewrite Hnone.
  destruct sig; simpl; [done | done |].
  intros Hna. exfalso. by eapply Hna.
Qed.

(** X15. A task whose first step is of a class without [cleanup] (every
    agent class of the repository) and is not cut by the deadline ends
    FAILED with the error of the missing attribute, whether the logic of
    the step returned or raised: the step's own error does not reach the
    task's error, and no later step starts. *)
Theorem missing_cleanup_masks_the_step {Env} (self : AgentOrchestrator.t Env)
    (task_id : string) (b : string) (post : list string)
    (initial_data : option (gmap string json)) (custom_config : option TaskConfig.t)
    (w : World Env) (cls : AgentClass Env) :
  (forall y, y ∈ b :: post -> is_Some (AgentOrchestrator.agents self !! y)) ->
  AgentOrchestrator.agents self !! b = Some cls ->
  BaseAgent.cleanup
    (cls b (AgentOrchestrator.config self) (AgentOrchestrator.tool_registry self))
  = None ->
  (forall replaced,
     (AgentOrchestrator._create_agent_node self b
        (now w + TaskConfig.timeout (default (AgentOrchestrator.config self) custom_config))%Q
        (AgentState.mk task_id ∅ (default ∅ initial_data) ∅) w).1.1 <> Abandoned replaced) ->
  exists final w',
    AgentOrchestrator.execute_task self task_id (b :: post) initial_data custom_config w
    = (Returned final, w')
    /\ AgentState.execution_metadata final !! "status" = Some (MStatus TaskStatus.FAILED)
    /\ AgentState.execution_metadata final !! "error"
       = Some (MStr (exn_msg
                       (AttributeError
                          (BaseAgent.class_name
                             (cls b (AgentOrchestrator.config self)
                                (AgentOrchestrator.tool_registry self))) "cleanup")))
    /\ started (log w') = started (log w) ++ [b].
Proof.
  intros Hreg Hcls Hnone Hna.
  pose proof (node_without_cleanup self _ b cls _ w Hcls Hnone Hna) as Hsig.
  pose proof (node_started self b
                (now w + TaskConfig.timeout (default (AgentOrchestrator.config self)
                                               custom_config))%Q
                (AgentState.mk task_id ∅ (default ∅ initial_data) ∅) w
                (mk_is_Some _ _ Hcls)) as Hb.
  unfold AgentOrchestrator.execute_task.
  rewrite (build_graph_registered self _ Hreg). cbn [map StateGraph.ainvoke].
  destruct (AgentOrchestrator._create_agent_node self b _ _ w) as [[sig st] w'].
  simpl in Hsig, Hb. subst sig. cbn [exn_class AttributeError].
  rewrite bool_decide_eq_false_2 by discriminate.
  do 2 eexists. split; [reflexivity|]. simpl.
  by rewrite lookup_insert_eq, lookup_insert_ne, lookup_insert_eq.
Qed.

Lemma missing_cleanup_masks_the_step_witness :
  exists final w',
    AgentOrchestrator.execute_task Cases.orchestrator "t7" ("chart_generator" :: ["a"])
      None None (Demo.w1 0) = (Returned final, w')
    /\ AgentState.execution_metadata final !! "status" = Some (MStatus TaskStatus.FAILED)
    /\ AgentState.execution_metadata final !! "error"
       = Some (MStr (exn_msg
                       (AttributeError
                          (BaseAgent.class_name
                             (ChartGenerationAgent.class_ "chart_generator"
                                (AgentOrchestrator.config Cases.orchestrator)
                                (AgentOrchestrator.tool_registry Cases.orchestrator)))
                          "cleanup")))
    /\ started (log w') = started (log (Demo.w1 0)) ++ ["chart_generator"].
Proof.
  apply (missing_cleanup_masks_the_step Cases.orchestrator "t7" "chart_generator" ["a"]
           None None (Demo.w1 0) ChartGenerationAgent.class_).
  - intros y Hy. apply list_elem_of_In in Hy. simpl in Hy.
    destruct Hy as [<-|[<-|[]]]; eexists; reflexivity.
  - reflexivity.
  - reflexivity.
  - vm_compute. discriminate.
Defined.

Lemma node_with_returning_hook {Env} (self : AgentOrchestrator.t Env) (deadline : Q)
    (agent_id : string) (cls : AgentClass Env)
    (hook : Env -> awaited Env (outcome unit)) (state : AgentState.t) (w : World Env) :
  AgentOrchestrator.agents self !! agent_id = Some cls ->
  BaseAgent.cleanup
    (cls agent_id (AgentOrchestrator.config self) (AgentOrchestrator.tool_registry self))
  = Some hook ->
  (forall e, value (hook e) = Returned tt) ->
  (exists replaced,
     (AgentOrchestrator._create_agent_node self agent_id deadline state w).1.1
     = Abandoned replaced)
  \/ (AgentOrchestrator._create_agent_node self agent_id deadline state w).1.1
     = (AgentOrchestrator._execute_agent_with_retry self deadline
          (cls agent_id (AgentOrchestrator.config self)
             (AgentOrchestrator.tool_registry self))
          state (AgentResult.init agent_id (AgentState.task_id state) AgentStatus.RUNNING)
          (log_event (EvAgentInit agent_id) w)).1.1.1.
Proof.
  intros Hcls Hhook Hret. unfold AgentOrchestrator._create_agent_node. rewrite Hcls.
  destruct (AgentOrchestrator._execute_agent_with_retry _ _ _ _ _ _) as [[[sig st] r1] w1].
  destruct sig; [| |left; apply finally_cleanup_cancelled].
  all: match goal with
       | |- context [AgentOrchestrator.finally_cleanup ?d ?a ?en ?s ?ww] =>
           destruct (finally_cleanup_returning d a hook en s ww Hhook Hret) as [Hab|Heq];
           [by left | right; by rewrite Heq]
       end.
Qed.

(** X16. A first step whose logic lets a [TimeoutError] escape on its
    last attempt, and whose release hook returns, makes the task report
    the error "Task timeout" although the deadline has not passed; the
    message of the exception is kept only in the step's own outcome. *)
Theorem escaped_timeout_error_reads_as_task_timeout {Env}
    (self : AgentOrchestrator.t Env) (task_id : string) (b : string) (post : list string)
    (initial_data : option (gmap string json)) (custom_config : option TaskConfig.t)
    (w : World Env) (cls : AgentClass Env) (hook : Env -> awaited Env (outcome unit))
    (e' : Env) (s_last : AgentState.t) (x : exn) :
  (0 <= TaskConfig.max_retries (AgentOrchestrator.config self))%Z ->
  (forall y, y ∈ b :: post -> is_Some (AgentOrchestrator.agents self !! y)) ->
  AgentOrchestrator.agents self !! b = Some cls ->
  BaseAgent.cleanup
    (cls b (AgentOrchestrator.config self) (AgentOrchestrator.tool_registry self))
  = Some hook ->
  (forall e, value (hook e) = Returned tt) ->
  failing_attempts
    (cls b (AgentOrchestrator.config self) (AgentOrchestrator.tool_registry self))
    (S (Z.to_nat (TaskConfig.max_retries (AgentOrchestrator.config self))))
    (env w) (AgentState.mk task_id ∅ (default ∅ initial_data) ∅) None
  = Some (e', s_last, Some x) ->
  exn_class x = "TimeoutError"%string ->
  (0 <= TaskConfig.timeout (default (AgentOrchestrator.config self) custom_config))%Q ->
  (forall replaced,
     (AgentOrchestrator._create_agent_node self b
        (now w + TaskConfig.timeout (default (AgentOrchestrator.config self) custom_config))%Q
        (AgentState.mk task_id ∅ (default ∅ initial_data) ∅) w).1.1 <> Abandoned replaced) ->
  exists final w' r,
    AgentOrchestrator.execute_task self task_id (b :: post) initial_data custom_config w
    = (Returned final, w')
    /\ AgentState.execution_metadata final !! "status" = Some (MStatus TaskStatus.FAILED)
    /\ AgentState.execution_metadata final !! "error" = Some (MStr "Task timeout")
    /\ AgentState.agent_results final !! b = Some r
    /\ AgentResult.error r = Some (exn_msg x)
    /\ (now w'
        <= now w + TaskConfig.timeout (default (AgentOrchestrator.config self) custom_config))%Q.
Proof.
  intros Hm Hreg Hcls Hhook Hret Hfail Hclass Hpos Hna.
  set (D := (now w + TaskConfig.timeout _)%Q) in *.
  set (state0 := AgentState.mk task_id ∅ (default ∅ initial_data) ∅) in *.
  destruct (node_exhausted self D b cls state0 w e' s_last x Hcls Hm Hfail Hna)
    as (x' & r & w' & Hnode & Hst & Hrc & Herr).
  destruct (node_with_returning_hook self D b cls hook state0 w Hcls Hhook Hret)
    as [[r0 Hab]|Hsig]; [by destruct (Hna r0)|].
  destruct (retry_exhausted self D _ state0
              (AgentResult.init b (AgentState.task_id state0) AgentStatus.RUNNING)
              (log_event (EvAgentInit b) w) e' s_last x Hm Hfail) as (w1 & Hloop & _).
  { apply (node_in_time self D b cls state0 w Hcls Hna). }
  rewrite Hloop, Hnode in Hsig. simpl in Hsig. injection Hsig as ->.
  assert (now w' <= D)%Q as Htime.
  { assert (now w <= D)%Q as Hnow.
    { subst D. rewrite <- (Qplus_0_r (now w)) at 1. by apply Qplus_le_r. }
    destruct (node_sim self D D b state0 w (Qle_refl D) Hnow) as [[r0 Hab]|[_ Hend]];
      [by destruct (Hna r0)|].
    by rewrite Hnode in Hend. }
  unfold AgentOrchestrator.execute_task. fold state0. fold D.
  rewrite (build_graph_registered self _ Hreg). cbn [map StateGraph.ainvoke].
  rewrite Hnode. rewrite bool_decide_eq_true_2 by done.
  eexists. exists w', r. split; [reflexivity|]. simpl.
  rewrite lookup_insert_eq, lookup_insert_ne, !lookup_insert_eq by done. done.
Qed.

Lemma escaped_timeout_error_reads_as_task_timeout_witness :
  exists final w' r,
    AgentOrchestrator.execute_task Cases.orchestrator "t8" ("stalled" :: ["a"]) None None
      (Demo.w1 0) = (Returned final, w')
    /\ AgentState.execution_metadata final !! "status" = Some (MStatus TaskStatus.FAILED)
    /\ AgentState.execution_metadata final !! "error" = Some (MStr "Task timeout")
    /\ AgentState.agent_results final !! "stalled" = Some r
    /\ AgentResult.error r = Some (exn_msg (Exn "TimeoutError" "upstream"))
    /\ (now w'
        <= now (Demo.w1 0)
           + TaskConfig.timeout (default (AgentOrchestrator.config Cases.orchestrator) None))%Q.
Proof.
  apply (escaped_timeout_error_reads_as_task_timeout Cases.orchestrator "t8" "stalled"
           ["a"] None None (Demo.w1 0) Cases.Stalled Demo.release 0%nat
           (AgentState.mk "t8" ∅ ∅ ∅) (Exn "TimeoutError" "upstream")).
  - vm_compute. discriminate.
  - intros y Hy. apply list_elem_of_In in Hy. simpl in Hy.
    destruct Hy as [<-|[<-|[]]]; eexists; reflexivity.
  - reflexivity.
  - reflexivity.
  - reflexivity.
  - reflexivity.
  - reflexivity.
  - vm_compute. discriminate.
  - vm_compute. discriminate.
Defined.

(** ** A plan that completes *)





(** ** Edge configurations and the agent classes of the repository *)

Lemma range_nonpositive (n : Z) : (n <= 0)%Z -> range n = [].
Proof. intros Hn. unfold range. by replace (Z.to_nat n) with 0%nat by lia. Qed.

Lemma finally_cleanup_executions {Env} (deadline : Q) (agent : BaseAgent.t Env)
    (ended : signal) (state : AgentState.t) (w : World Env) :
  executions (log (AgentOrchestrator.finally_cleanup deadline agent ended state w).2)
  = executions (log w)
  /\ sleeps (log (AgentOrchestrator.finally_cleanup deadline agent ended state w).2)
     = sleeps (log w).
Proof.
  unfold AgentOrchestrator.finally_cleanup.
  destruct (BaseAgent.cleanup agent) as [hook|]; [|done].
  split_run; simpl; rewrite executions_app, sleeps_app; simpl; by rewrite !app_nil_r.
Qed.

(** X18. With a negative [max_retries] the loop of attempts is empty: the
    logic of the step is never run and nothing is slept, and the
    [raise last_exception] that follows the loop raises the [TypeError] of
    raising [None]. The node records the step as failed with that message,
    [retry_count] 0, writes the message to the task's error, and does not
    return. *)
Theorem negative_max_retries_runs_nothing {Env} (self : AgentOrchestrator.t Env)
    (deadline : Q) (b : string) (cls : AgentClass Env) (state : AgentState.t)
    (w : World Env) :
  (TaskConfig.max_retries (AgentOrchestrator.config self) < 0)%Z ->
  AgentOrchestrator.agents self !! b = Some cls ->
  let res := AgentOrchestrator._create_agent_node self b deadline state w in
  res.1.1 <> Done
  /\ executions (log res.2) = executions (log w)
  /\ sleeps (log res.2) = sleeps (log w)
  /\ AgentState.execution_metadata res.1.2 !! "error"
     = Some (MStr "exceptions must derive from BaseException")
  /\ AgentState.shared_data res.1.2 = AgentState.shared_data state
  /\ exists r, AgentState.agent_results res.1.2 !! b = Some r
               /\ AgentResult.status r = AgentStatus.FAILED
               /\ AgentResult.error r = Some "exceptions must derive from BaseException"
               /\ AgentResult.retry_count r = 0%Z.
Proof.
  intros Hm Hcls res. subst res.
  unfold AgentOrchestrator._create_agent_node. rewrite Hcls.
  unfold AgentOrchestrator._execute_agent_with_retry.
  rewrite range_nonpositive by lia.
  cbn [AgentOrchestrator.attempts_loop raise_].
  match goal with
  | |- context [AgentOrchestrator.finally_cleanup ?d ?a (Raise ?x) ?s ?ww] =>
      pose proof (finally_cleanup_state d a (Raise x) s ww) as Hst;
      pose proof (finally_cleanup_after_raise d a x s ww) as Hsg;
      pose proof (finally_cleanup_executions d a (Raise x) s ww) as [Hex Hsl];
      destruct (AgentOrchestrator.finally_cleanup d a (Raise x) s ww) as [[sg st'] w2]
  end.
  simpl in *. subst st'. split.
  - destruct Hsg as [->|[x' ->]]; done.
  - rewrite executions_app in Hex. rewrite sleeps_app in Hsl.
    simpl in Hex, Hsl. rewrite app_nil_r in Hex, Hsl.
    split; [done|]. split; [done|].
    split; [apply lookup_insert_eq|]. split; [done|].
    eexists. split; [apply lookup_insert_eq|done].
Qed.

Lemma negative_max_retries_runs_nothing_witness :
  let res := AgentOrchestrator._create_agent_node Cases.no_attempt "a" 300%Q
               (Demo.initial_state "t1") (Demo.w1 0) in
  res.1.1 <> Done
  /\ executions (log res.2) = executions (log (Demo.w1 0))
  /\ sleeps (log res.2) = sleeps (log (Demo.w1 0))
  /\ AgentState.execution_metadata res.1.2 !! "error"
     = Some (MStr "exceptions must derive from BaseException")
  /\ AgentState.shared_data res.1.2 = AgentState.shared_data (Demo.initial_state "t1")
  /\ exists r, AgentState.agent_results res.1.2 !! "a" = Some r
               /\ AgentResult.status r = AgentStatus.FAILED
               /\ AgentResult.error r = Some "exceptions must derive from BaseException"
               /\ AgentResult.retry_count r = 0%Z.
Proof.
  apply (negative_max_retries_runs_nothing Cases.no_attempt 300%Q "a" Demo.Steady
           (Demo.initial_state "t1") (Demo.w1 0)).
  - reflexivity.
  - reflexivity.
Defined.

(** A step of a class without [cleanup] whose logic raises the same
    exception on every attempt and leaves the state and the environment
    as they were. *)
Lemma node_of_steady_raiser {Env} (self : AgentOrchestrator.t Env) (deadline : Q)
    (b : string) (cls : AgentClass Env) (state : AgentState.t) (w : World Env) (x : exn) :
  AgentOrchestrator.agents self !! b = Some cls ->
  (forall e,
     value (BaseAgent.execute
              (cls b (AgentOrchestrator.config self) (AgentOrchestrator.tool_registry self))
              e state) = BaseAgent.Raises x state
     /\ env_after (BaseAgent.execute
                     (cls b (AgentOrchestrator.config self)
                        (AgentOrchestrator.tool_registry self)) e state) = e) ->
  BaseAgent.cleanup
    (cls b (AgentOrchestrator.config self) (AgentOrchestrator.tool_registry self)) = None ->
  (0 <= TaskConfig.max_retries (AgentOrchestrator.config self))%Z ->
  (forall replaced,
     (AgentOrchestrator._create_agent_node self b deadline state w).1.1
     <> Abandoned replaced) ->
  exists r w',
    AgentOrchestrator._create_agent_node self b deadline state w
    = (Raise (AttributeError
                (BaseAgent.class_name
                   (cls b (AgentOrchestrator.config self)
                      (AgentOrchestrator.tool_registry self))) "cleanup"),
       AgentState.set_metadata "error" (MStr (exn_msg x))
         (AgentState.set_agent_result b r state), w')
    /\ AgentResult.status r = AgentStatus.FAILED
    /\ AgentResult.retry_count r = TaskConfig.max_retries (AgentOrchestrator.config self)
    /\ AgentResult.error r = Some (exn_msg x).
Proof.
  intros Hcls Hraise Hnone Hm Hna.
  destruct (Hraise (env w)) as [Hv He].
  pose proof (failing_attempts_same _ (env w) state x Hv He
                (Z.to_nat (TaskConfig.max_retries (AgentOrchestrator.config self))) None)
    as Hfail.
  destruct (node_exhausted self deadline b cls state w (env w) state x Hcls Hm Hfail Hna)
    as (x' & r & w' & Heq & Hr).
  pose proof (node_without_cleanup self deadline b cls state w Hcls Hnone Hna) as Hsig.
  rewrite Heq in Hsig. simpl in Hsig. injection Hsig as ->.
  by exists r, w'.
Qed.

(** X19. A step registered with the base class itself: every attempt
    raises [NotImplementedError], so the step is recorded as failed after
    [max_retries] retries with the message "Subclasses must implement
    execute method"; the node then raises the [AttributeError] of the
    missing [cleanup], and the shared data is untouched. *)
Theorem base_class_step_is_not_implemented {Env} (self : AgentOrchestrator.t Env)
    (deadline : Q) (b : string) (state : AgentState.t) (w : World Env) :
  AgentOrchestrator.agents self !! b = Some BaseAgent.init ->
  (0 <= TaskConfig.max_retries (AgentOrchestrator.config self))%Z ->
  (forall replaced,
     (AgentOrchestrator._create_agent_node self b deadline state w).1.1
     <> Abandoned replaced) ->
  exists st w' r,
    AgentOrchestrator._create_agent_node self b deadline state w
    = (Raise (AttributeError "BaseAgent" "cleanup"), st, w')
    /\ AgentState.agent_results st !! b = Some r
    /\ AgentResult.status r = AgentStatus.FAILED
    /\ AgentResult.retry_count r = TaskConfig.max_retries (AgentOrchestrator.config self)
    /\ AgentResult.error r = Some "Subclasses must implement execute method"
    /\ AgentState.execution_metadata st !! "error"
       = Some (MStr "Subclasses must implement execute method")
    /\ AgentState.shared_data st = AgentState.shared_data state.
Proof.
  intros Hcls Hm Hna.
  destruct (node_of_steady_raiser self deadline b BaseAgent.init state w
              (Exn "NotImplementedError" "Subclasses must implement execute method")
              Hcls (fun e => conj eq_refl eq_refl) eq_refl Hm Hna)
    as (r & w' & Heq & Hst & Hrc & Herr).
  eexists _, w', r. split; [exact Heq|].
  split; [apply lookup_insert_eq|]. split; [done|]. split; [done|]. split; [done|].
  split; [apply lookup_insert_eq | done].
Qed.

Lemma base_class_step_is_not_implemented_witness :
  exists st w' r,
    AgentOrchestrator._create_agent_node Cases.orchestrator "base" 300%Q
      (Demo.initial_state "t1") (Demo.w1 0)
    = (Raise (AttributeError "BaseAgent" "cleanup"), st, w')
    /\ AgentState.agent_results st !! "base" = Some r
    /\ AgentResult.status r = AgentStatus.FAILED
    /\ AgentResult.retry_count r
       = TaskConfig.max_retries (AgentOrchestrator.config Cases.orchestrator)
    /\ AgentResult.error r = Some "Subclasses must implement execute method"
    /\ AgentState.execution_metadata st !! "error"
       = Some (MStr "Subclasses must implement execute method")
    /\ AgentState.shared_data st = AgentState.shared_data (Demo.initial_state "t1").
Proof.
  apply (base_class_step_is_not_implemented Cases.orchestrator 300%Q "base"
           (Demo.initial_state "t1") (Demo.w1 0)).
  - reflexivity.
  - vm_compute. discriminate.
  - vm_compute. discriminate.
Defined.

(** X20. The chart step run on a state whose [analysis_complete] is
    missing or falsy: every attempt raises the [ValueError] of the guard,
    so after [max_retries] retries the step is recorded as failed with
    "Data analysis must be completed before chart generation", no chart
    is written to the shared data, and the node raises the
    [AttributeError] of the missing [cleanup]. *)
Theorem charts_need_completed_analysis {Env} (self : AgentOrchestrator.t Env)
    (deadline : Q) (b : string) (state : AgentState.t) (w : World Env) :
  AgentOrchestrator.agents self !! b = Some ChartGenerationAgent.class_ ->
  truthy (default JNull (AgentState.shared_data state !! "analysis_complete")) = false ->
  (0 <= TaskConfig.max_retries (AgentOrchestrator.config self))%Z ->
  (forall replaced,
     (AgentOrchestrator._create_agent_node self b deadline state w).1.1
     <> Abandoned replaced) ->
  exists st w' r,
    AgentOrchestrator._create_agent_node self b deadline state w
    = (Raise (AttributeError "ChartGenerationAgent" "cleanup"), st, w')
    /\ AgentState.agent_results st !! b = Some r
    /\ AgentResult.status r = AgentStatus.FAILED
    /\ AgentResult.retry_count r = TaskConfig.max_retries (AgentOrchestrator.config self)
    /\ AgentResult.error r
       = Some "Data analysis must be completed before chart generation"
    /\ AgentState.shared_data st = AgentState.shared_data state.
Proof.
  intros Hcls Hguard Hm Hna.
  assert (forall e,
            value (BaseAgent.execute
                     (ChartGenerationAgent.class_ b (AgentOrchestrator.config self)
                        (AgentOrchestrator.tool_registry self)) e state)
            = BaseAgent.Raises
                (ValueError "Data analysis must be completed before chart generation") state
            /\ env_after (BaseAgent.execute
                            (ChartGenerationAgent.class_ b (AgentOrchestrator.config self)
                               (AgentOrchestrator.tool_registry self)) e state) = e)
    as Hraise.
  { intros e. simpl. unfold ChartGenerationAgent.execute. by rewrite Hguard. }
  destruct (node_of_steady_raiser self deadline b ChartGenerationAgent.class_ state w _
              Hcls Hraise eq_refl Hm Hna)
    as (r & w' & Heq & Hst & Hrc & Herr).
  eexists _, w', r. split; [exact Heq|].
  split; [apply lookup_insert_eq|]. done.
Qed.

Lemma charts_need_completed_analysis_witness :
  exists st w' r,
    AgentOrchestrator._create_agent_node Cases.orchestrator "chart_generator" 300%Q
      (Demo.initial_state "t1") (Demo.w1 0)
    = (Raise (AttributeError "ChartGenerationAgent" "cleanup"), st, w')
    /\ AgentState.agent_results st !! "chart_generator" = Some r
    /\ AgentResult.status r = AgentStatus.FAILED
    /\ AgentResult.retry_count r
       = TaskConfig.max_retries (AgentOrchestrator.config Cases.orchestrator)
    /\ AgentResult.error r
       = Some "Data analysis must be completed before chart generation"
    /\ AgentState.shared_data st = AgentState.shared_data (Demo.initial_state "t1").
Proof.
  apply (charts_need_completed_analysis Cases.orchestrator 300%Q "chart_generator"
           (Demo.initial_state "t1") (Demo.w1 0)).
  - reflexivity.
  - vm_compute. reflexivity.
  - vm_compute. discriminate.
  - vm_compute. discriminate.
Defined.

(** X21. The chart step with a chart tool in its registry, on a state
    whose analysis is complete and whose analysis result is a dict or
    absent: when every result the tool returns has a status other than
    completed, the step still returns; it writes an empty dict of charts
    under ["<agent_id>_result"] and sets [charts_generated] to [True], and
    changes nothing else of the state. *)
Theorem unfinished_charts_are_left_out {Env} (agent_id : string)
    (registry : ToolRegistry.t Env) (chart_tool : BaseTool.t Env) (e : Env)
    (state : AgentState.t) :
  truthy (default JNull (AgentState.shared_data state !! "analysis_complete")) = true ->
  ToolRegistry.get registry "chart_generator" = Some chart_tool ->
  (forall v, AgentState.shared_data state !! "data_analyzer_result" = Some v ->
             exists items, v = JDict items) ->
  (forall kw e0, exists r,
      value (BaseTool.execute chart_tool kw e0) = Returned r
      /\ ToolResult.status r <> ToolStatus.COMPLETED) ->
  value (ChartGenerationAgent.execute agent_id (Some registry) e state)
  = BaseAgent.Returns
      (AgentState.mk (AgentState.task_id state) (AgentState.agent_results state)
         (<["charts_generated" := JBool true]>
            (<[(agent_id ++ "_result")%string := JDict []]> (AgentState.shared_data state)))
         (AgentState.execution_metadata state)).
Proof.
  intros Hdone Hget Hdict Hfail.
  unfold ChartGenerationAgent.execute. rewrite Hdone, Hget. cbn [negb].
  assert (exists items,
            default (JDict []) (AgentState.shared_data state !! "data_analyzer_result")
            = JDict items) as [items ->].
  { destruct (AgentState.shared_data state !! "data_analyzer_result") as [v|] eqn:Hv.
    - destruct (Hdict v eq_refl) as [items ->]. by exists items.
    - by exists []. }
  unfold ChartGenerationAgent.tool_charts. cbn [json_get].
  assert (forall kw key chart e0,
            value (ChartGenerationAgent.draw chart_tool kw key chart e0) = Returned [])
    as Hdraw.
  { intros kw key chart e0. unfold ChartGenerationAgent.draw. cbn [value].
    destruct (Hfail kw e0) as (r & -> & Hst).
    by rewrite bool_decide_eq_false_2. }
  destruct (truthy (default (JList []) (dict_get "user_distribution_chart" items))).
  - rewrite Hdraw. cbn [value]. by rewrite Hdraw.
  - cbn [value]. by rewrite Hdraw.
Qed.

Lemma unfinished_charts_are_left_out_witness :
  value (ChartGenerationAgent.execute "chart_generator" (Some Cases.chart_registry) 0%nat
           Cases.analysed)
  = BaseAgent.Returns
      (AgentState.mk (AgentState.task_id Cases.analysed)
         (AgentState.agent_results Cases.analysed)
         (<["charts_generated" := JBool true]>
            (<["chart_generator_result" := JDict []]>
               (AgentState.shared_data Cases.analysed)))
         (AgentState.execution_metadata Cases.analysed)).
Proof.
  apply (unfinished_charts_are_left_out "chart_generator" Cases.chart_registry
           (BaseTool.init "chart_generator" None Cases.refusing BaseTool.cleanup_pass)
           0%nat Cases.analysed).
  - reflexivity.
  - reflexivity.
  - intros v Hv. vm_compute in Hv. discriminate.
  - intros kw e0. eexists. split; [reflexivity|]. simpl. discriminate.
Defined.
